(** * Talos procurement core: approval chains, human gate, durable workflows

    A shallow embedding of the decision-making parts of
    [python/workflows/procurement_workflows.py] and
    [python/agents/core/base_agent.py] (with the agent subclasses that
    override the human-review policy), followed by the properties the
    design document states about them.

    Conventions.
    - Monetary amounts and thresholds are rationals ([Q]); the Python code
      compares them with [>] and [<=] only. Not-a-number is not an amount.
    - Python dictionaries keyed by strings are [gmap string _].
    - Workflow time is a natural number of seconds ([N]); [timedelta(hours=h)]
      is [3600 * h] and [timedelta(minutes=m)] is [60 * m].
    - A Python exception is the [Raise] branch of [result]. *)

From Stdlib Require Import QArith ZArith NArith Lia Lqa.
From stdpp Require Import gmap strings list fin_maps.

Local Open Scope string_scope.
Local Open Scope list_scope.

(* ===================================================================== *)
(** ** Python values and exceptions                                       *)
(* ===================================================================== *)

#[local] Set Warnings "-register-all".
Inductive value : Type :=
| VNone
| VBool (b : bool)
| VNum (q : Q)
| VStr (s : string)
| VList (l : list value)
| VDict (d : gmap string value).

Inductive exn : Type :=
| KeyError (key : string)
| TypeError
| AttributeError
| IndexError
| ValueError
| GraphRecursionError.

Inductive result (A : Type) : Type :=
| Ok (a : A)
| Raise (e : exn).
Arguments Ok {A} a.
Arguments Raise {A} e.

Definition bind {A B : Type} (m : result A) (k : A -> result B) : result B :=
  match m with
  | Ok a => k a
  | Raise e => Raise e
  end.

(** Python truthiness ([if v:], [not v]). *)
Definition truthy (v : value) : bool :=
  match v with
  | VNone => false
  | VBool b => b
  | VNum q => negb (Qeq_bool q 0)
  | VStr s => negb (String.eqb s "")
  | VList l => match l with [] => false | _ => true end
  | VDict d => match map_to_list d with [] => false | _ => true end
  end.

(** [d.get(k)]: the value under [k], [None] when the key is absent. *)
Definition get (d : gmap string value) (k : string) : value :=
  default VNone (d !! k).

(** [d.get(k, dflt)]. *)
Definition get_default (d : gmap string value) (k : string) (dflt : value)
  : value :=
  default dflt (d !! k).

(** [d[k]]: raises [KeyError] when the key is absent. *)
Definition item (d : gmap string value) (k : string) : result value :=
  match d !! k with
  | Some v => Ok v
  | None => Raise (KeyError k)
  end.

(** A value used as a number; [bool] is a subtype of [int] in Python. *)
Definition as_number (v : value) : result Q :=
  match v with
  | VNum q => Ok q
  | VBool b => Ok (if b then 1%Q else 0%Q)
  | _ => Raise TypeError
  end.

(** [v == s] for a string literal [s]. *)
Definition eq_str (v : value) (s : string) : bool :=
  match v with
  | VStr s' => String.eqb s' s
  | _ => false
  end.

(** [x > y] on rationals, as a boolean. *)
Definition Qgtb (x y : Q) : bool := negb (Qle_bool x y).

(* ===================================================================== *)
(** ** Approver chain resolver ([determine_approvers])                    *)
(* ===================================================================== *)

Record approver : Type := {
  level : Z;
  role : string;
  approver_id : string;
  approver_email : string;
}.

Definition manager : approver :=
  {| level := 1; role := "manager"; approver_id := "manager_001";
     approver_email := "manager@university.edu" |}.
Definition director : approver :=
  {| level := 2; role := "director"; approver_id := "director_001";
     approver_email := "director@university.edu" |}.
Definition vp : approver :=
  {| level := 3; role := "vp"; approver_id := "vp_001";
     approver_email := "vp@university.edu" |}.
Definition cfo : approver :=
  {| level := 4; role := "cfo"; approver_id := "cfo_001";
     approver_email := "cfo@university.edu" |}.

(** The four independent [if total > t: approvers.append(..)] statements. *)
Definition determine_approvers (total : Q) : list approver :=
  let approvers := [] in
  let approvers := if Qgtb total 500 then approvers ++ [manager] else approvers in
  let approvers := if Qgtb total 5000 then approvers ++ [director] else approvers in
  let approvers := if Qgtb total 25000 then approvers ++ [vp] else approvers in
  let approvers := if Qgtb total 100000 then approvers ++ [cfo] else approvers in
  approvers.

Definition full_ladder : list approver := [manager; director; vp; cfo].


(* ===================================================================== *)
(** ** Agents: configuration, human gate, decision loop                   *)
(* ===================================================================== *)

Module ToolCall.
(** A proposed tool call: the dictionary with keys ["name"], ["args"] and
    ["id"]. [args = None] stands for a dictionary without the ["args"]
    key, which the policies read through [tool_call.get("args", {})]. *)
Record t : Type := {
  name : string;
  args : option (gmap string value);
  id : string;
}.

Definition get_args (tool_call : t) : gmap string value :=
  default ∅ (args tool_call).
End ToolCall.

Module Agents.

Record AgentConfig : Type := {
  agent_id : string;
  name : string;
  tier : Z;
  category : string;
  model : string;
  max_tokens : Z;
  temperature : Q;
  max_iterations : Z;
  human_in_loop_threshold : Q;
}.

(** [AgentConfig(agent_id, name, tier, category)] with every other field
    at its dataclass default. *)
Definition AgentConfig_defaults (agent_id name : string) (tier : Z)
    (category : string) : AgentConfig :=
  {| agent_id := agent_id; name := name; tier := tier; category := category;
     model := "claude-sonnet-4-20250514"; max_tokens := 4096;
     temperature := 0; max_iterations := 10;
     human_in_loop_threshold := 0 |}.

Definition with_threshold (threshold : Q) (c : AgentConfig) : AgentConfig :=
  {| agent_id := agent_id c; name := name c; tier := tier c;
     category := category c; model := model c; max_tokens := max_tokens c;
     temperature := temperature c; max_iterations := max_iterations c;
     human_in_loop_threshold := threshold |}.

Definition with_max_iterations (n : Z) (c : AgentConfig) : AgentConfig :=
  {| agent_id := agent_id c; name := name c; tier := tier c;
     category := category c; model := model c; max_tokens := max_tokens c;
     temperature := temperature c; max_iterations := n;
     human_in_loop_threshold := human_in_loop_threshold c |}.

Inductive message : Type :=
| HumanMessage (content : string)
| AIMessage (content : string) (tool_calls : list ToolCall.t)
| ToolMessage (content : string) (tool_call_id : string).

Definition content (m : message) : string :=
  match m with
  | HumanMessage c | AIMessage c _ | ToolMessage c _ => c
  end.

(** [msg.tool_calls] where the attribute exists, the empty list otherwise. *)
Definition tool_calls_of (m : message) : list ToolCall.t :=
  match m with
  | AIMessage _ calls => calls
  | _ => []
  end.

(** The graph state. [pending_approval] holds the dictionary written by
    the human-review node: agent id, the gated tool calls and the state
    at that point. *)
Inductive AgentState : Type := mkAgentState {
  messages : list message;
  context : gmap string value;
  user_id : string;
  university_id : string;
  current_agent : string;
  tool_results : list message;
  pending_approval : option (string * list ToolCall.t * AgentState);
  completed : bool;
}.

(** *** Human gate policies *)

(** [ProcurementAgent._requires_human_review]: the default policy. *)
Definition default_requires_human_review (config : AgentConfig)
    (tool_call : ToolCall.t) (state : AgentState) : result bool :=
  if Qle_bool (human_in_loop_threshold config) 0 then Ok false
  else
    match ToolCall.get_args tool_call !! "amount" with
    | Some amount =>
        bind (as_number amount) (fun amount =>
          if Qgtb amount (human_in_loop_threshold config) then Ok true
          else Ok false)
    | None => Ok false
    end.

(** [PriceWatchAgent._requires_human_review]. *)
Definition price_watch_requires_human_review (config : AgentConfig)
    (tool_call : ToolCall.t) (state : AgentState) : result bool :=
  if String.eqb (ToolCall.name tool_call) "send_slack_alert" then
    let level :=
      get_default (ToolCall.get_args tool_call) "level" (VStr "info") in
    Ok (eq_str level "critical")
  else Ok false.

(** The runtime's [*] and [+] on two numbers. Python computes them
    exactly on integers and rounds to the nearest double as soon as a
    float takes part, so the two operations are parameters of the model:
    nothing is fixed about them here, and a fact that depends on a
    product or a sum says what it assumes of them. *)
Record arithmetic : Type := {
  mul : Q -> Q -> Q;
  add : Q -> Q -> Q;
}.

(** [item.get("unit_price", 0) * item.get("quantity", 1)] for one line. *)
Definition line_amount (ar : arithmetic) (line : value) : result Q :=
  match line with
  | VDict d =>
      bind (as_number (get_default d "unit_price" (VNum 0))) (fun unit_price =>
      bind (as_number (get_default d "quantity" (VNum 1))) (fun quantity =>
      Ok (mul ar unit_price quantity)))
  | _ => Raise AttributeError
  end.

(** [sum(... for item in items)], left to right from [0]. *)
Fixpoint sum_lines (ar : arithmetic) (items : list value) (acc : Q)
  : result Q :=
  match items with
  | [] => Ok acc
  | line :: items =>
      bind (line_amount ar line) (fun x => sum_lines ar items (add ar acc x))
  end.

(** What [for item in items] iterates over: the elements of a list; the
    keys of a dictionary and the characters of a string, which are
    strings; nothing else is iterable. *)
Definition iterate (items : value) : result (list value) :=
  match items with
  | VList l => Ok l
  | VDict d => Ok (VStr <$> (map_to_list d).*1)
  | VStr s =>
      Ok ((fun c => VStr (String c EmptyString))
          <$> String.list_ascii_of_string s)
  | _ => Raise TypeError
  end.

(** [RequisitionAgent._requires_human_review]. *)
Definition requisition_requires_human_review (ar : arithmetic)
    (config : AgentConfig) (tool_call : ToolCall.t) (state : AgentState)
  : result bool :=
  if String.eqb (ToolCall.name tool_call) "create_requisition" then
    bind (iterate
            (get_default (ToolCall.get_args tool_call) "items" (VList [])))
      (fun items =>
         bind (sum_lines ar items 0) (fun total =>
           Ok (Qgtb total (human_in_loop_threshold config))))
  else Ok false.

(** *** Agents

    An agent instance: its configuration, its human gate (the method a
    subclass may override), and the two collaborators of the loop. The
    decision oracle [llm_with_tools] receives the conversation so far
    (the rendered system prompt is part of the oracle) and answers with
    an [AIMessage]; [tool_executor] runs one tool call and gives the text
    of its result. *)
Record ProcurementAgent : Type := {
  config : AgentConfig;
  _requires_human_review : AgentConfig -> ToolCall.t -> AgentState -> result bool;
  llm_with_tools : list message -> message;
  tool_executor : ToolCall.t -> string;
}.

Definition requires_review (self : ProcurementAgent) :=
  _requires_human_review self (config self).

Section Instances.
Variable llm : list message -> message.
Variable executor : ToolCall.t -> string.
Variable ar : arithmetic.

(** An agent that keeps the default policy, for any configuration. *)
Definition BaseAgent (c : AgentConfig) : ProcurementAgent :=
  {| config := c;
     _requires_human_review := default_requires_human_review;
     llm_with_tools := llm; tool_executor := executor |}.

Definition PriceWatchAgent : ProcurementAgent :=
  {| config :=
       with_threshold 0
         (AgentConfig_defaults "price-watch" "PriceWatch Agent" 1
            "Core Price Intelligence");
     _requires_human_review := price_watch_requires_human_review;
     llm_with_tools := llm; tool_executor := executor |}.

Definition PriceCompareAgent : ProcurementAgent :=
  BaseAgent (AgentConfig_defaults "price-compare" "Price Compare Agent" 1
               "Core Price Intelligence").

Definition HistoricalPriceAgent : ProcurementAgent :=
  BaseAgent (AgentConfig_defaults "historical-price"
               "Historical Price Agent" 1 "Core Price Intelligence").

Definition RequisitionAgent : ProcurementAgent :=
  {| config :=
       with_threshold 25000
         (AgentConfig_defaults "requisition" "Requisition Agent" 2
            "Procurement Process");
     _requires_human_review := requisition_requires_human_review ar;
     llm_with_tools := llm; tool_executor := executor |}.

Definition ApprovalWorkflowAgent : ProcurementAgent :=
  BaseAgent (AgentConfig_defaults "approval-workflow"
               "Approval Workflow Agent" 2 "Procurement Process").

Definition VendorSelectionAgent : ProcurementAgent :=
  BaseAgent (AgentConfig_defaults "vendor-selection"
               "Vendor Selection Agent" 2 "Procurement Process").
End Instances.

(** *** Decision loop

    The graph built by [_build_graph]: entry point [agent]; from [agent]
    the conditional edge [_should_continue]; [tools] and [human_review]
    both lead back to [agent]. *)

Inductive node : Type := agent | tools | human_review | END.

Definition set_messages (ms : list message) (st : AgentState) : AgentState :=
  {| messages := ms; context := context st; user_id := user_id st;
     university_id := university_id st; current_agent := current_agent st;
     tool_results := tool_results st;
     pending_approval := pending_approval st; completed := completed st |}.

Definition set_tool_results (rs : list message) (st : AgentState)
  : AgentState :=
  {| messages := messages st; context := context st; user_id := user_id st;
     university_id := university_id st; current_agent := current_agent st;
     tool_results := rs;
     pending_approval := pending_approval st; completed := completed st |}.

Definition set_pending_approval
    (p : option (string * list ToolCall.t * AgentState)) (st : AgentState)
  : AgentState :=
  {| messages := messages st; context := context st; user_id := user_id st;
     university_id := university_id st; current_agent := current_agent st;
     tool_results := tool_results st;
     pending_approval := p; completed := completed st |}.

Section Loop.
Variable self : ProcurementAgent.

(** [_call_agent]: one oracle call; the reply is appended to
    [messages] (the channel is declared with [operator.add]). *)
Definition _call_agent (state : AgentState) : AgentState :=
  let response := llm_with_tools self (messages state) in
  set_messages (messages state ++ [response]) state.

(** [state["messages"][-1]]: [IndexError] on an empty conversation. *)
Definition last_message (state : AgentState) : result message :=
  match last (messages state) with
  | Some m => Ok m
  | None => Raise IndexError
  end.

(** [_call_tools]: executes every tool call of the last message. *)
Definition _call_tools (state : AgentState) : result AgentState :=
  bind (last_message state) (fun last_message =>
    match tool_calls_of last_message with
    | [] => Ok (set_tool_results [] state)
    | calls =>
        let results :=
          map (fun tool_call =>
                 ToolMessage (tool_executor self tool_call)
                   (ToolCall.id tool_call)) calls in
        Ok (set_tool_results results
              (set_messages (messages state ++ results) state))
    end).

(** [_human_review]: records the pending approval, executes nothing. *)
Definition _human_review (state : AgentState) : result AgentState :=
  bind (last_message state) (fun last_message =>
    Ok (set_pending_approval
          (Some (agent_id (config self), tool_calls_of last_message, state))
          state)).

(** The [for tool_call in last_message.tool_calls] scan of
    [_should_continue]: the first gated call decides. *)
Fixpoint any_requires_review (calls : list ToolCall.t) (state : AgentState)
  : result bool :=
  match calls with
  | [] => Ok false
  | tool_call :: calls =>
      bind (requires_review self tool_call state) (fun gated =>
        if gated then Ok true else any_requires_review calls state)
  end.

Definition _should_continue (state : AgentState) : result node :=
  bind (last_message state) (fun last_message =>
    match tool_calls_of last_message with
    | [] => Ok END
    | calls =>
        bind (any_requires_review calls state) (fun gated =>
          Ok (if gated then human_review else tools))
    end).

(** The compiled graph, run from node [next]. [recursion_limit] is the
    graph runtime's own bound on the steps of a run: [run] passes no
    configuration to [ainvoke], so the bound is whatever the runtime
    defaults to. The runtime takes one step per node and one more to
    find that nothing is left to run, and raises [GraphRecursionError]
    when the steps are used up before that: a run of [n] nodes returns
    when [n] is below the limit. The list returned with the final state
    is the sequence of nodes executed. *)
Fixpoint invoke_from (recursion_limit : nat) (next : node)
    (state : AgentState) (visited : list node)
  : result (AgentState * list node) :=
  match recursion_limit with
  | O => Raise GraphRecursionError
  | S limit =>
      match next with
      | END => Ok (state, visited)
      | agent =>
          let state := _call_agent state in
          bind (_should_continue state) (fun next =>
            invoke_from limit next state (visited ++ [agent]))
      | tools =>
          bind (_call_tools state) (fun state =>
            invoke_from limit agent state (visited ++ [tools]))
      | human_review =>
          bind (_human_review state) (fun state =>
            invoke_from limit agent state (visited ++ [human_review]))
      end
  end.

(** [graph.ainvoke(initial_state)]; the runtime refuses a limit below
    one with [ValueError]. *)
Definition ainvoke (recursion_limit : nat) (initial_state : AgentState)
  : result (AgentState * list node) :=
  match recursion_limit with
  | O => Raise ValueError
  | _ => invoke_from recursion_limit agent initial_state []
  end.

(** What [run] hands back, with the executed nodes alongside. *)
Record RunResult : Type := {
  response : string;
  result_agent_id : string;
  result_tool_calls : list ToolCall.t;
  result_tool_results : list message;
  result_pending_approval :
    option (string * list ToolCall.t * AgentState);
  executed : list node;
}.

Definition run (recursion_limit : nat) (message : string)
    (user_id university_id : string) (context : gmap string value)
  : result RunResult :=
  let initial_state :=
    {| messages := [HumanMessage message]; context := context;
       user_id := user_id; university_id := university_id;
       current_agent := agent_id (config self); tool_results := [];
       pending_approval := None; completed := false |} in
  bind (ainvoke recursion_limit initial_state) (fun '(final_state, nodes) =>
    Ok {| response :=
            from_option content "" (last (messages final_state));
          result_agent_id := agent_id (config self);
          result_tool_calls :=
            concat (map tool_calls_of (messages final_state));
          result_tool_results := tool_results final_state;
          result_pending_approval := pending_approval final_state;
          executed := nodes |}).

(** Oracle/tool round trips of a run: executions of the [tools] node. *)
Definition is_tools (n : node) : bool :=
  match n with tools => true | _ => false end.

Definition round_trips (nodes : list node) : nat :=
  length (List.filter is_tools nodes).

End Loop.

End Agents.

(* ===================================================================== *)
(** ** Durable workflows                                                  *)
(* ===================================================================== *)

Module Workflows.

Abbreviation dict := (gmap string value).

Definition hours (h : N) : N := (3600 * h)%N.
Definition minutes (m : N) : N := (60 * m)%N.

(** The requisition dictionary handed to the approval workflow, through
    the keys [run] reads; [None] is an absent key. The other fields of
    [RequisitionData] are never read by the workflow. *)
Record Requisition : Type := {
  requisition_id : option string;
  budget_code : option string;
  total : option Q;
  urgency : option string;
  vendor_id : option string;
}.

(** Activities, with the arguments they are started with. *)
Inductive activity : Type :=
| ValidateBudget (budget_code : string) (amount : Q)
| DetermineApprovers (requisition : Requisition)
| SendApprovalNotification (request : dict)
| CheckApprovalStatus (requisition_id : string)
| GeneratePurchaseOrder (requisition_id : string)
| SendPoToVendor (po_number vendor_id : string)
| EscalateApproval (request : dict)
| ParseInvoice (invoice_id : string)
| FindMatchingPo (invoice : dict)
| MatchInvoiceLines (invoice : dict) (po_number : value)
| ValidateContractPrices (invoice line_matches : dict)
| VerifyReceipts (invoice : dict) (po_number : value)
| ApproveInvoice (invoice_id : string)
| CreateException (invoice_id : string)
    (line_matches price_validation receipt_check : dict).

(** What a workflow awaits: an activity or a timer. *)
Inductive event : Type :=
| Activity (a : activity)
| Sleep (seconds : N).

(** An [approval_received] signal. *)
Record signal : Type := {
  signal_approver_id : string;
  signal_approved : bool;
  signal_reason : value;
}.

(** The collaborators of a run. The activity bodies in the repository are
    placeholders for calls to external systems, so their replies are
    parameters here; [determine_approvers] is the one activity with real
    logic and is used as it is. The status store answers the [k]-th
    awaited operation of the run at workflow time [t]. [lag k] is the
    time the [k]-th awaited operation takes beyond its nominal duration
    (zero for an activity, the timer length for a sleep), and [signals k]
    are the signals delivered while the run is blocked on it. *)
Record Env : Type := {
  validate_budget : string -> Q -> dict;
  send_approval_notification : dict -> bool;
  check_approval_status : nat -> N -> string -> dict;
  generate_purchase_order : string -> string;
  send_po_to_vendor : string -> string -> bool;
  escalate_approval : dict -> bool;
  parse_invoice : string -> dict;
  find_matching_po : dict -> dict;
  match_invoice_lines : dict -> value -> dict;
  validate_contract_prices : dict -> dict -> dict;
  verify_receipts : dict -> value -> dict;
  approve_invoice : string -> bool;
  create_exception : string -> dict -> dict -> dict -> string;
  lag : nat -> N;
  signals : nat -> list signal;
}.

(** The workflow object and the run-time around it: the clock, the
    time-stamped history of awaited operations, the four attributes of
    [RequisitionApprovalWorkflow], and a record of the [deadline] local
    of every tier entered (kept for the statements about it; nothing
    reads it). *)
Record wf_state : Type := {
  now : N;
  history : list (N * event);
  approved : bool;
  rejected : bool;
  rejection_reason : value;
  current_step : string;
  deadlines : list (approver * N);
}.

(** [__init__], on a run started at time [t0]. *)
Definition init (t0 : N) : wf_state :=
  {| now := t0; history := []; approved := false; rejected := false;
     rejection_reason := VNone; current_step := "initialized";
     deadlines := [] |}.

Definition set_current_step (step : string) (s : wf_state) : wf_state :=
  {| now := now s; history := history s; approved := approved s;
     rejected := rejected s; rejection_reason := rejection_reason s;
     current_step := step; deadlines := deadlines s |}.

Definition set_approved (s : wf_state) : wf_state :=
  {| now := now s; history := history s; approved := true;
     rejected := rejected s; rejection_reason := rejection_reason s;
     current_step := current_step s; deadlines := deadlines s |}.

Definition set_rejected (reason : value) (s : wf_state) : wf_state :=
  {| now := now s; history := history s; approved := approved s;
     rejected := true; rejection_reason := reason;
     current_step := current_step s; deadlines := deadlines s |}.

Definition note_deadline (a : approver) (deadline : N) (s : wf_state)
  : wf_state :=
  {| now := now s; history := history s; approved := approved s;
     rejected := rejected s; rejection_reason := rejection_reason s;
     current_step := current_step s;
     deadlines := deadlines s ++ [(a, deadline)] |}.

(** The awaited operation [ev], of nominal duration [d], is recorded at
    its start time and the clock moves past it. *)
Definition advance (ev : event) (d extra : N) (s : wf_state) : wf_state :=
  {| now := (now s + d + extra)%N; history := history s ++ [(now s, ev)];
     approved := approved s; rejected := rejected s;
     rejection_reason := rejection_reason s;
     current_step := current_step s; deadlines := deadlines s |}.

(** The signal handler [approval_received]. *)
Definition approval_received (sg : signal) (s : wf_state) : wf_state :=
  if signal_approved sg then set_approved s
  else set_rejected (signal_reason sg) s.

Definition deliver (sgs : list signal) (s : wf_state) : wf_state :=
  foldl (fun s sg => approval_received sg s) s sgs.

(** The query [get_status]. *)
Definition get_status (s : wf_state) : dict :=
  {[ "current_step" := VStr (current_step s);
     "approved" := VBool (approved s);
     "rejected" := VBool (rejected s);
     "rejection_reason" := rejection_reason s ]}.

(** *** The workflow monad

    A workflow body is a state transformer that either goes on with a
    value, returns the run's result dictionary, raises, or (only for
    the fuel-bounded polling loop) runs out of fuel. *)
Inductive flow (A : Type) : Type :=
| Went (a : A)
| Returned (r : dict)
| Raised (e : exn)
| Diverged.
Arguments Went {A} a.
Arguments Returned {A} r.
Arguments Raised {A} e.
Arguments Diverged {A}.

Definition wf (A : Type) : Type := wf_state -> flow A * wf_state.

Definition ret {A} (a : A) : wf A := fun s => (Went a, s).

Definition wf_bind {A B} (m : wf A) (k : A -> wf B) : wf B :=
  fun s =>
    match m s with
    | (Went a, s') => k a s'
    | (Returned r, s') => (Returned r, s')
    | (Raised e, s') => (Raised e, s')
    | (Diverged, s') => (Diverged, s')
    end.

Notation "x <- m ;; k" := (wf_bind m (fun x => k))
  (at level 20, m at level 99, k at level 200, only parsing).
Notation "m ;; k" := (wf_bind m (fun _ => k))
  (at level 100, k at level 200, only parsing, right associativity).

Definition return_ {A} (r : dict) : wf A := fun s => (Returned r, s).
Definition raise {A} (e : exn) : wf A := fun s => (Raised e, s).
Definition modify (f : wf_state -> wf_state) : wf unit :=
  fun s => (Went tt, f s).
Definition read {A} (f : wf_state -> A) : wf A := fun s => (Went (f s), s).

(** [d[k]] on the requisition: [KeyError] when the key is absent. *)
Definition key {A} (k : string) (field : option A) : wf A :=
  match field with
  | Some v => ret v
  | None => raise (KeyError k)
  end.

(** [d[k]] on a reply dictionary. *)
Definition lookup_item (d : dict) (k : string) : wf value :=
  match item d k with
  | Ok v => ret v
  | Raise e => raise e
  end.

Section WithEnv.
Variable env : Env.

(** The state in which the run resumes after blocking on [ev]: time
    has passed and the signals that came in have been handled. *)
Definition after_await (ev : event) (d : N) (s : wf_state) : wf_state :=
  let k := length (history s) in
  deliver (signals env k) (advance ev d (lag env k) s).

Definition await (ev : event) (d : N) : wf unit :=
  modify (after_await ev d).

(** [await workflow.execute_activity(a, ...)] with reply [reply]: the
    activity completes and the run resumes with its reply. A run in
    which an activity fails for good (its retries used up, a timeout, a
    cancellation) raises out of [run] at that point; such runs are
    outside this model, which describes the runs whose activities all
    reply. *)
Definition execute_activity {A} (a : activity) (reply : A) : wf A :=
  await (Activity a) 0 ;; ret reply.

(** [await workflow.sleep(timedelta(seconds=d))]. *)
Definition sleep (d : N) : wf unit := await (Sleep d) d.

(** The reply of the status store to a check issued in state [s]. *)
Definition status_at (requisition_id : string) (s : wf_state) : dict :=
  check_approval_status env (length (history s)) (now s) requisition_id.

Definition check_status (requisition_id : string) : wf dict :=
  status <- read (status_at requisition_id) ;;
  execute_activity (CheckApprovalStatus requisition_id) status.

(** The result dictionaries of the approval run. *)
Definition rejected_by (reason : value) (a : approver) : dict :=
  {[ "status" := VStr "rejected";
     "reason" := reason;
     "approver" := VStr (approver_id a) ]}.

Definition escalated_timeout : dict :=
  {[ "status" := VStr "escalated_timeout";
     "details" := VStr "Approval not received after escalation" ]}.

Definition insufficient_budget (budget_check : dict) : dict :=
  {[ "status" := VStr "rejected";
     "reason" := VStr "Insufficient budget";
     "details" := VDict budget_check ]}.

Definition auto_approved (po_number : string) : dict :=
  {[ "status" := VStr "complete";
     "po_number" := VStr po_number;
     "auto_approved" := VBool true ]}.

Definition complete (po_number : string) (sent : bool) : dict :=
  {[ "status" := VStr "complete";
     "po_number" := VStr po_number;
     "sent_to_vendor" := VBool sent ]}.

(** The [approval_request] dictionary of one tier. *)
Definition approval_request (requisition_id : string) (a : approver)
    (amount : Q) : dict :=
  {[ "requisition_id" := VStr requisition_id;
     "approver_id" := VStr (approver_id a);
     "approver_email" := VStr (approver_email a);
     "amount" := VNum amount;
     "level" := VNum (inject_Z (level a)) ]}.

Definition check_interval : N := minutes 15.

(** The [while workflow.now() < deadline] loop of one tier. Leaving the
    loop, by [break] or because the condition fails, goes on with
    [tt]. Every iteration that goes round again sleeps 15 minutes, so
    [fuel] iterations cover [fuel] check intervals; [Diverged] is an
    iteration that is due when none is left. *)
Fixpoint poll_loop (fuel : nat) (deadline : N) (requisition_id : string)
    (a : approver) : wf unit :=
  fun s =>
    if (now s <? deadline)%N then
      match fuel with
      | O => (Diverged, s)
      | S fuel =>
          (status <- check_status requisition_id ;;
           if truthy (get status "approved") then ret tt
           else if truthy (get status "rejected") then
             modify (set_rejected
                       (get_default status "reason"
                          (VStr "Rejected by approver"))) ;;
             reason <- read rejection_reason ;;
             return_ (rejected_by reason a)
           else
             sleep check_interval ;;
             poll_loop fuel deadline requisition_id a) s
      end
    else (Went tt, s).

(** Iterations that suffice for an SLA of [sla_hours]. *)
Definition poll_fuel (sla_hours : N) : nat := N.to_nat (4 * sla_hours).

Definition sla_hours_of (urgency : string) : N :=
  if String.eqb urgency "standard" then 48%N else 8%N.

(** The body of [for approver in approvers]. *)
Definition process_approver (requisition : Requisition) (a : approver)
  : wf unit :=
  rid <- key "requisition_id" (requisition_id requisition) ;;
  amount <- key "total" (total requisition) ;;
  let approval_request := approval_request rid a amount in
  execute_activity (SendApprovalNotification approval_request)
    (send_approval_notification env approval_request) ;;
  urgency <- key "urgency" (urgency requisition) ;;
  let sla_hours := sla_hours_of urgency in
  start <- read now ;;
  let deadline := (start + hours sla_hours)%N in
  modify (note_deadline a deadline) ;;
  poll_loop (poll_fuel sla_hours) deadline rid a ;;
  t <- read now ;;
  if (deadline <=? t)%N then
    execute_activity (EscalateApproval approval_request)
      (escalate_approval env approval_request) ;;
    sleep (hours 4) ;;
    status <- check_status rid ;;
    if negb (truthy (get status "approved")) then return_ escalated_timeout
    else ret tt
  else ret tt.

(** One round of the polling loop that neither breaks nor returns: the
    status check followed by the 15-minute sleep. *)
Definition after_check (requisition_id : string) (s : wf_state)
  : wf_state :=
  after_await (Activity (CheckApprovalStatus requisition_id)) 0 s.

Definition poll_once (requisition_id : string) (s : wf_state) : wf_state :=
  after_await (Sleep check_interval) check_interval
    (after_check requisition_id s).

(** The state after [n] rounds of the polling loop. *)
Definition after_polls (requisition_id : string) (n : nat) (s : wf_state)
  : wf_state :=
  Nat.iter n (poll_once requisition_id) s.

(** The states a tier goes through: its approver notified; the
    deadline computed from the clock at that point; the state in which
    the polling loop starts; and, from the state [s] in which the loop
    was left, the state after the escalation and the grace period. *)
Definition notified_state (rid : string) (a : approver) (amount : Q)
    (s : wf_state) : wf_state :=
  after_await
    (Activity (SendApprovalNotification (approval_request rid a amount)))
    0 s.

Definition tier_deadline (rid : string) (a : approver) (amount : Q)
    (urgency : string) (s : wf_state) : N :=
  (now (notified_state rid a amount s) + hours (sla_hours_of urgency))%N.

Definition wait_start (rid : string) (a : approver) (amount : Q)
    (urgency : string) (s : wf_state) : wf_state :=
  note_deadline a (tier_deadline rid a amount urgency s)
    (notified_state rid a amount s).

Definition after_grace (rid : string) (a : approver) (amount : Q)
    (s : wf_state) : wf_state :=
  after_await (Sleep (hours 4)) (hours 4)
    (after_await
       (Activity (EscalateApproval (approval_request rid a amount))) 0 s).

Fixpoint process_approvers (requisition : Requisition)
    (approvers : list approver) : wf unit :=
  match approvers with
  | [] => ret tt
  | a :: approvers =>
      process_approver requisition a ;;
      process_approvers requisition approvers
  end.

(** [RequisitionApprovalWorkflow.run]. *)
Definition RequisitionApprovalWorkflow_run (requisition : Requisition)
  : wf Empty_set :=
  modify (set_current_step "validating_budget") ;;
  code <- key "budget_code" (budget_code requisition) ;;
  amount <- key "total" (total requisition) ;;
  budget_check <- execute_activity (ValidateBudget code amount)
                    (validate_budget env code amount) ;;
  available <- lookup_item budget_check "available" ;;
  if negb (truthy available) then
    return_ (insufficient_budget budget_check)
  else
    modify (set_current_step "determining_approvers") ;;
    approvers <- execute_activity (DetermineApprovers requisition)
                   (determine_approvers amount) ;;
    match approvers with
    | [] =>
        modify (set_current_step "generating_po") ;;
        rid <- key "requisition_id" (requisition_id requisition) ;;
        po_number <- execute_activity (GeneratePurchaseOrder rid)
                       (generate_purchase_order env rid) ;;
        return_ (auto_approved po_number)
    | _ =>
        modify (set_current_step "awaiting_approvals") ;;
        process_approvers requisition approvers ;;
        modify set_approved ;;
        modify (set_current_step "generating_po") ;;
        rid <- key "requisition_id" (requisition_id requisition) ;;
        po_number <- execute_activity (GeneratePurchaseOrder rid)
                       (generate_purchase_order env rid) ;;
        modify (set_current_step "sending_to_vendor") ;;
        let vendor := default "" (vendor_id requisition) in
        sent <- execute_activity (SendPoToVendor po_number vendor)
                  (send_po_to_vendor env po_number vendor) ;;
        return_ (complete po_number sent)
    end.

(** The three-way test [a["all_matched"] and b["all_valid"] and
    c["all_received"]]: evaluated left to right, stopping at the first
    falsy operand. *)
Definition all_checks_pass (line_matches price_validation receipt_check : dict)
  : wf bool :=
  all_matched <- lookup_item line_matches "all_matched" ;;
  if truthy all_matched then
    all_valid <- lookup_item price_validation "all_valid" ;;
    if truthy all_valid then
      all_received <- lookup_item receipt_check "all_received" ;;
      ret (truthy all_received)
    else ret false
  else ret false.

(** The result dictionaries of the invoice run. *)
Definition no_po_match (invoice_id : string) : dict :=
  {[ "status" := VStr "no_po_match";
     "invoice_id" := VStr invoice_id;
     "requires_manual_review" := VBool true ]}.

Definition invoice_approved : dict :=
  {[ "status" := VStr "approved"; "auto" := VBool true ]}.

Definition issues_of (line_matches price_validation receipt_check : dict)
  : dict :=
  {[ "line_mismatches" := get_default line_matches "mismatches" (VList []);
     "price_violations" :=
       get_default price_validation "violations" (VList []);
     "receipt_issues" := get_default receipt_check "issues" (VList []) ]}.

Definition invoice_exception (exception_id : string)
    (line_matches price_validation receipt_check : dict) : dict :=
  {[ "status" := VStr "exception";
     "exception_id" := VStr exception_id;
     "issues" :=
       VDict (issues_of line_matches price_validation receipt_check) ]}.

(** [InvoiceValidationWorkflow.run]. *)
Definition InvoiceValidationWorkflow_run (invoice_id : string)
  : wf Empty_set :=
  invoice <- execute_activity (ParseInvoice invoice_id)
               (parse_invoice env invoice_id) ;;
  po_match <- execute_activity (FindMatchingPo invoice)
                (find_matching_po env invoice) ;;
  found <- lookup_item po_match "found" ;;
  if negb (truthy found) then
    return_ (no_po_match invoice_id)
  else
    po_number <- lookup_item po_match "po_number" ;;
    line_matches <- execute_activity (MatchInvoiceLines invoice po_number)
                      (match_invoice_lines env invoice po_number) ;;
    price_validation <-
      execute_activity (ValidateContractPrices invoice line_matches)
        (validate_contract_prices env invoice line_matches) ;;
    po_number <- lookup_item po_match "po_number" ;;
    receipt_check <- execute_activity (VerifyReceipts invoice po_number)
                       (verify_receipts env invoice po_number) ;;
    pass <- all_checks_pass line_matches price_validation receipt_check ;;
    if pass then
      execute_activity (ApproveInvoice invoice_id)
        (approve_invoice env invoice_id) ;;
      return_ invoice_approved
    else
      exception_id <-
        execute_activity
          (CreateException invoice_id line_matches price_validation
             receipt_check)
          (create_exception env invoice_id line_matches price_validation
             receipt_check) ;;
      return_ (invoice_exception exception_id line_matches
                 price_validation receipt_check).

(** The state in which [run] enters its [for approver in approvers]
    loop, when the two requisition keys are present and the budget
    check lets the run through. *)
Definition at_loop_entry (requisition : Requisition) (code : string)
    (amount : Q) (s0 : wf_state) : wf_state :=
  set_current_step "awaiting_approvals"
    (after_await (Activity (DetermineApprovers requisition)) 0
       (set_current_step "determining_approvers"
          (after_await (Activity (ValidateBudget code amount)) 0
             (set_current_step "validating_budget" s0)))).

(** The state in which a run that got every approval ends: purchase
    order generated, then transmitted. *)
Definition po_generated (rid : string) (s : wf_state) : wf_state :=
  after_await (Activity (GeneratePurchaseOrder rid)) 0
    (set_current_step "generating_po" (set_approved s)).

Definition po_sent (requisition : Requisition) (rid : string)
    (s : wf_state) : wf_state :=
  after_await
    (Activity (SendPoToVendor (generate_purchase_order env rid)
                 (default "" (vendor_id requisition)))) 0
    (set_current_step "sending_to_vendor" (po_generated rid s)).

End WithEnv.

(** A status that reports neither an approval nor a rejection. *)
Definition undecided (status : dict) : Prop :=
  truthy (get status "approved") = false /\
  truthy (get status "rejected") = false.

(** The budget reply lets the run through: ["available"] is present and
    truthy. *)
Definition budget_ok (budget_check : dict) : Prop :=
  exists available,
    budget_check !! "available" = Some available /\ truthy available = true.

(** *** Reading a history *)

(** The awaited operations of a run, without their start times. *)
Definition trace (s : wf_state) : list event := snd <$> history s.

(** The operations of the polling loop of requisition [rid]. *)
Definition is_poll (rid : string) (te : N * event) : Prop :=
  te.2 = Activity (CheckApprovalStatus rid) \/ te.2 = Sleep check_interval.

(** What a tier that missed its deadline does after the polling: one
    escalation, the four-hour sleep, one last status check. *)
Definition escalation_tail (rid : string) (a : approver) (amount : Q)
    (tail : list (N * event)) : Prop :=
  exists t1 t2 t3,
    tail = [(t1, Activity (EscalateApproval (approval_request rid a amount)));
            (t2, Sleep (hours 4));
            (t3, Activity (CheckApprovalStatus rid))] /\
    (t1 <= t2 /\ t2 + hours 4 <= t3)%N.

(** The approver a notification was addressed to. *)
Definition notification_to (te : N * event) : option value :=
  match te.2 with
  | Activity (SendApprovalNotification request) => request !! "approver_id"
  | _ => None
  end.

(** The approvers notified in a history, in order. *)
Definition notified (h : list (N * event)) : list value :=
  omap notification_to h.

Definition is_escalation (te : N * event) : bool :=
  match te.2 with
  | Activity (EscalateApproval _) => true
  | _ => false
  end.

(** The number of escalation notifications in a history. *)
Definition escalations (h : list (N * event)) : nat :=
  length (List.filter is_escalation h).

(** *** The repository's placeholder activities

    The activity bodies as they stand in the source: fixed replies. *)

(** [s[-6:]]: the last six characters. A string is held as the bytes of
    its UTF-8 encoding, in which a character is a byte that is not a
    continuation byte (of the form 10xxxxxx) together with the
    continuation bytes that follow it. *)
Definition is_continuation (c : Ascii.ascii) : bool :=
  let n := Ascii.nat_of_ascii c in (128 <=? n)%nat && (n <? 192)%nat.

(** The last [n] characters of the bytes [rev_bytes], given last byte
    first, put in front of [acc]. *)
Fixpoint last_chars (rev_bytes : list Ascii.ascii) (n : nat)
    (acc : list Ascii.ascii) : list Ascii.ascii :=
  match rev_bytes, n with
  | [], _ => acc
  | _, O => acc
  | c :: rev_bytes, S m =>
      last_chars rev_bytes (if is_continuation c then n else m) (c :: acc)
  end.

Definition last6 (s : string) : string :=
  String.string_of_list_ascii
    (last_chars (rev (String.list_ascii_of_string s)) 6 []).

Definition placeholder (lag : nat -> N) (signals : nat -> list signal) : Env :=
  {| validate_budget := fun budget_code amount =>
       {[ "available" := VBool true; "budget_code" := VStr budget_code;
          "requested" := VNum amount; "remaining" := VNum 50000 ]};
     send_approval_notification := fun _ => true;
     check_approval_status := fun _ _ _ =>
       {[ "approved" := VBool false; "rejected" := VBool false;
          "pending" := VBool true ]};
     generate_purchase_order := fun requisition_id =>
       String.append "PO-" (last6 requisition_id);
     send_po_to_vendor := fun _ _ => true;
     escalate_approval := fun _ => true;
     parse_invoice := fun invoice_id =>
       {[ "invoice_id" := VStr invoice_id;
          "invoice_number" := VStr "INV-12345";
          "vendor_id" := VStr "vendor_001";
          "po_number" := VStr "PO-123456";
          "total" := VNum 5000; "line_items" := VList [] ]};
     find_matching_po := fun invoice =>
       {[ "found" := VBool true; "po_number" := get invoice "po_number";
          "match_confidence" := VNum 1 ]};
     match_invoice_lines := fun invoice _ =>
       {[ "all_matched" := VBool true;
          "matched_lines" :=
            VNum (match get_default invoice "line_items" (VList []) with
                  | VList l => inject_Z (Z.of_nat (length l))
                  | _ => 0
                  end);
          "mismatches" := VList [] ]};
     validate_contract_prices := fun _ _ =>
       {[ "all_valid" := VBool true; "violations" := VList [] ]};
     verify_receipts := fun _ _ =>
       {[ "all_received" := VBool true; "issues" := VList [] ]};
     approve_invoice := fun _ => true;
     create_exception := fun invoice_id _ _ _ => String.append "EXC-" (last6 invoice_id);
     lag := lag; signals := signals |}.

End Workflows.

(* ===================================================================== *)
(** ** Text: the two string operations of the router                      *)
(* ===================================================================== *)

(** Strings are sequences of ASCII characters; [str.lower] and the
    substring test [sub in s] are modelled on them. *)
Module Text.

Definition lower_ascii (c : Ascii.ascii) : Ascii.ascii :=
  let n := Ascii.nat_of_ascii c in
  if (65 <=? n)%nat && (n <=? 90)%nat then Ascii.ascii_of_nat (n + 32) else c.

(** [s.lower()]. *)
Fixpoint lower (s : string) : string :=
  match s with
  | EmptyString => EmptyString
  | String c s => String (lower_ascii c) (lower s)
  end.

(** [sub in s]. *)
Fixpoint contains (sub s : string) : bool :=
  if String.prefix sub s then true
  else
    match s with
    | EmptyString => false
    | String _ s => contains sub s
    end.

End Text.

(* ===================================================================== *)
(** ** Insertion-ordered dictionaries                                     *)
(* ===================================================================== *)

(** A Python [dict] where the order of the keys matters: a key keeps the
    position of its first insertion, an update replaces the value in
    place. *)
Module ODict.

Fixpoint lookup {V} (k : string) (d : list (string * V)) : option V :=
  match d with
  | [] => None
  | (k', v) :: d => if String.eqb k k' then Some v else lookup k d
  end.

(** [d[k] = v]. *)
Fixpoint set {V} (k : string) (v : V) (d : list (string * V))
  : list (string * V) :=
  match d with
  | [] => [(k, v)]
  | (k', v') :: d =>
      if String.eqb k k' then (k, v) :: d else (k', v') :: set k v d
  end.

(** [list(d.keys())]. *)
Definition keys {V} (d : list (string * V)) : list string := d.*1.

End ODict.

(* ===================================================================== *)
(** ** Agent factory and orchestrator                                     *)
(* ===================================================================== *)

Module Orchestration.
Import Agents.

(** What [AgentFactory.get], [route_message] and [execute] raise
    themselves, next to what propagates from the code they call. *)
Inductive error : Type :=
| ValueError (message : string)
| IndexError
| Propagated (e : exn).

Inductive outcome (A : Type) : Type :=
| Return (a : A)
| Throw (e : error).
Arguments Return {A} a.
Arguments Throw {A} e.

(** *** [AgentFactory]

    The two class-level dictionaries. An agent class is what the factory
    sees of it: its constructor, from the keyword arguments [K] to an
    instance [I], which may raise. *)
Section Factory.
Context {K I : Type}.

Record AgentFactory : Type := {
  _agents : list (string * (K -> result I));
  _instances : list (string * I);
}.

Definition empty_factory : AgentFactory :=
  {| _agents := []; _instances := [] |}.

(** [@AgentFactory.register(agent_id)] applied to [agent_class]. *)
Definition register (agent_id : string) (agent_class : K -> result I)
    (cls : AgentFactory) : AgentFactory :=
  {| _agents := ODict.set agent_id agent_class (_agents cls);
     _instances := _instances cls |}.

(** [AgentFactory.get(agent_id, **kwargs)]. *)
Definition get (agent_id : string) (kwargs : K) (cls : AgentFactory)
  : outcome I * AgentFactory :=
  match ODict.lookup agent_id (_instances cls) with
  | Some instance => (Return instance, cls)
  | None =>
      match ODict.lookup agent_id (_agents cls) with
      | None =>
          (Throw (ValueError (String.append "Unknown agent: " agent_id)), cls)
      | Some agent_class =>
          match agent_class kwargs with
          | Raise e => (Throw (Propagated e), cls)
          | Ok instance =>
              (Return instance,
               {| _agents := _agents cls;
                  _instances :=
                    ODict.set agent_id instance (_instances cls) |})
          end
      end
  end.

(** [AgentFactory.list_agents()]. *)
Definition list_agents (cls : AgentFactory) : list string :=
  ODict.keys (_agents cls).

(** A use of the factory, and a sequence of uses. *)
Inductive factory_op : Type :=
| Register (agent_id : string) (agent_class : K -> result I)
| Get (agent_id : string) (kwargs : K).

Definition apply_op (op : factory_op) (cls : AgentFactory) : AgentFactory :=
  match op with
  | Register agent_id agent_class => register agent_id agent_class cls
  | Get agent_id kwargs => snd (get agent_id kwargs cls)
  end.

Definition apply_ops (ops : list factory_op) (cls : AgentFactory)
  : AgentFactory :=
  foldl (fun cls op => apply_op op cls) cls ops.

End Factory.
Arguments AgentFactory : clear implicits.
Arguments factory_op : clear implicits.

(** *** [AgentOrchestrator] *)

Record AgentOrchestrator : Type := {
  agents : gmap string ProcurementAgent;
  intent_patterns : list (string * list string);
}.

(** [AgentOrchestrator(agents)]: the routing table is fixed by
    [__init__]. *)
Definition new_orchestrator (agents : gmap string ProcurementAgent)
  : AgentOrchestrator :=
  {| agents := agents;
     intent_patterns :=
       [("price", ["price-watch"; "price-compare"; "historical-price"]);
        ("requisition", ["requisition"; "approval-workflow"]);
        ("invoice", ["invoice-matching"; "contract-validator"]);
        ("vendor", ["vendor-selection"; "risk-vendor-health"]);
        ("budget", ["budget-guardian"; "spend-analytics"]);
        ("compliance", ["compliance-agent"; "supplier-diversity"])] |}.

(** The [for intent, agents in self.intent_patterns.items()] loop. *)
Fixpoint route (patterns : list (string * list string))
    (message_lower : string) : outcome string :=
  match patterns with
  | [] => Return "requisition"
  | (intent, candidates) :: patterns =>
      if Text.contains intent message_lower then
        match candidates with
        | first :: _ => Return first
        | [] => Throw IndexError
        end
      else route patterns message_lower
  end.

(** [route_message]. *)
Definition route_message (self : AgentOrchestrator) (message : string)
  : outcome string :=
  route (intent_patterns self) (Text.lower message).

(** [execute]. The graph step limit of the agent's run is a parameter, as
    in [Agents.run]; [context = None] is the omitted argument. *)
Definition execute (self : AgentOrchestrator) (recursion_limit : nat)
    (agent_id message user_id university_id : string)
    (context : option (gmap string value)) : outcome RunResult :=
  match agents self !! agent_id with
  | None => Throw (ValueError (String.append "Unknown agent: " agent_id))
  | Some instance =>
      match run instance recursion_limit message user_id university_id
              (default ∅ context) with
      | Ok r => Return r
      | Raise e => Throw (Propagated e)
      end
  end.

(** The [agents] dictionary of the API module: six agents, each in front
    of its own oracle. *)
Definition api_agents (llm : string -> list message -> message)
    (executor : ToolCall.t -> string) (ar : arithmetic)
  : gmap string ProcurementAgent :=
  {[ "price-watch" := PriceWatchAgent (llm "price-watch") executor;
     "price-compare" := PriceCompareAgent (llm "price-compare") executor;
     "historical-price" :=
       HistoricalPriceAgent (llm "historical-price") executor;
     "requisition" := RequisitionAgent (llm "requisition") executor ar;
     "approval-workflow" :=
       ApprovalWorkflowAgent (llm "approval-workflow") executor;
     "vendor-selection" :=
       VendorSelectionAgent (llm "vendor-selection") executor ]}.

End Orchestration.

(* ===================================================================== *)
(** ** Reading a run of the decision loop                                 *)
(* ===================================================================== *)

Module LoopObservations.
Import Agents.

Definition is_agent (n : node) : bool :=
  match n with agent => true | _ => false end.

Definition is_human_review (n : node) : bool :=
  match n with human_review => true | _ => false end.

(** Oracle calls and human-review stops among the executed nodes. *)
Definition oracle_calls (nodes : list node) : nat :=
  length (List.filter is_agent nodes).

Definition reviews (nodes : list node) : nat :=
  length (List.filter is_human_review nodes).

(** The tool calls of the last message of a state. *)
Definition last_calls (state : AgentState) : list ToolCall.t :=
  from_option tool_calls_of [] (last (messages state)).

(** A tool message that answers a call the agent's gate let through. *)
Definition answers_ungated_call (self : ProcurementAgent) (m : message)
  : Prop :=
  match m with
  | ToolMessage text tool_call_id =>
      exists tool_call state,
        text = tool_executor self tool_call /\
        tool_call_id = ToolCall.id tool_call /\
        requires_review self tool_call state = Ok false
  | _ => True
  end.

(** The oracle answers with assistant messages. *)
Definition answers_as_assistant (self : ProcurementAgent) : Prop :=
  forall conversation,
    exists text tool_calls,
      llm_with_tools self conversation = AIMessage text tool_calls.

(** The executions of the graph: from node [next] in state [state], the
    nodes [steps] are executed in this order and the graph ends in state
    [final]. *)
Inductive execution (self : ProcurementAgent)
  : node -> AgentState -> list node -> AgentState -> Prop :=
| execution_end state :
    execution self END state [] state
| execution_agent state next steps final :
    _should_continue self (_call_agent self state) = Ok next ->
    execution self next (_call_agent self state) steps final ->
    execution self agent state (agent :: steps) final
| execution_tools state state' steps final :
    _call_tools self state = Ok state' ->
    execution self agent state' steps final ->
    execution self tools state (tools :: steps) final
| execution_human_review state state' steps final :
    _human_review self state = Ok state' ->
    execution self agent state' steps final ->
    execution self human_review state (human_review :: steps) final.

(** The state a node leaves behind, and the state reached by executing
    a sequence of nodes one after the other. *)
Definition step (self : ProcurementAgent) (n : node) (state : AgentState)
  : result AgentState :=
  match n with
  | agent => Ok (_call_agent self state)
  | tools => _call_tools self state
  | human_review => _human_review self state
  | END => Ok state
  end.

Fixpoint replay (self : ProcurementAgent) (nodes : list node)
    (state : AgentState) : result AgentState :=
  match nodes with
  | [] => Ok state
  | n :: nodes => bind (step self n state) (replay self nodes)
  end.

(** The state [run] starts the graph in. *)
Definition initial_state (self : ProcurementAgent) (message : string)
    (user_id university_id : string) (context : gmap string value)
  : AgentState :=
  {| messages := [HumanMessage message]; context := context;
     user_id := user_id; university_id := university_id;
     current_agent := agent_id (config self); tool_results := [];
     pending_approval := None; completed := false |}.

(** *** Orders in whole numbers *)

(** A whole number that a double holds exactly, so that Python computes
    with it in the same way as an [int] and as a [float]. *)
Definition double_exact (z : Z) : Prop := (Z.abs z <= 2 ^ 53)%Z.

(** The one thing assumed of the runtime's arithmetic: on whole numbers
    in that range, with the result in that range, [*] and [+] are
    exact. *)
Definition exact_on_whole_numbers (ar : arithmetic) : Prop :=
  forall (x y : Q) (a b : Z),
    (x == inject_Z a)%Q -> (y == inject_Z b)%Q ->
    double_exact a -> double_exact b ->
    (double_exact (a * b) -> (mul ar x y == inject_Z (a * b))%Q) /\
    (double_exact (a + b) -> (add ar x y == inject_Z (a + b))%Q).

(** The line-item dictionary with a whole price and a whole quantity. *)
Definition order_line (line : Z * Z) : value :=
  VDict {[ "unit_price" := VNum (inject_Z line.1);
           "quantity" := VNum (inject_Z line.2) ]}.

(** The sum of [unit_price * quantity] over the lines, added to [acc]
    from left to right. *)
Definition order_total (acc : Z) (lines : list (Z * Z)) : Z :=
  foldl (fun acc line => (acc + line.1 * line.2)%Z) acc lines.

(** Every number met while summing the lines from [acc] is in the exact
    range. *)
Fixpoint all_exact (acc : Z) (lines : list (Z * Z)) : Prop :=
  match lines with
  | [] => True
  | line :: lines =>
      double_exact line.1 /\ double_exact line.2 /\
      double_exact (line.1 * line.2) /\
      double_exact (acc + line.1 * line.2) /\
      all_exact (acc + line.1 * line.2) lines
  end.

(** Python's arithmetic on [int]: exact. *)
Definition int_arithmetic : arithmetic := {| mul := Qmult; add := Qplus |}.

End LoopObservations.

(* ===================================================================== *)
(** ** Reading a run of the approval workflow from outside                *)
(* ===================================================================== *)

Module WorkflowObservations.
Import Workflows.

(** The same collaborators with other signals coming in. *)
Definition with_signals (sgs : nat -> list signal) (env : Env) : Env :=
  {| validate_budget := validate_budget env;
     send_approval_notification := send_approval_notification env;
     check_approval_status := check_approval_status env;
     generate_purchase_order := generate_purchase_order env;
     send_po_to_vendor := send_po_to_vendor env;
     escalate_approval := escalate_approval env;
     parse_invoice := parse_invoice env;
     find_matching_po := find_matching_po env;
     match_invoice_lines := match_invoice_lines env;
     validate_contract_prices := validate_contract_prices env;
     verify_receipts := verify_receipts env;
     approve_invoice := approve_invoice env;
     create_exception := create_exception env;
     lag := lag env; signals := sgs |}.

(** What a run does and where it stands, apart from the three
    attributes the signal handler writes. *)
Definition visible (s : wf_state)
  : N * list (N * event) * list (approver * N) * string :=
  (now s, history s, deadlines s, current_step s).

Definition agree (s1 s2 : wf_state) : Prop := visible s1 = visible s2.

(** Two workflow bodies that cannot be told apart through what is
    visible of a run. *)
Definition same {A} (m1 m2 : wf A) : Prop :=
  forall s1 s2,
    agree s1 s2 ->
    fst (m1 s1) = fst (m2 s2) /\ agree (snd (m1 s1)) (snd (m2 s2)).

(** The rejecting signals of a batch, in order of arrival. *)
Definition rejections (sgs : list signal) : list signal :=
  List.filter (fun sg => negb (signal_approved sg)) sgs.

(** The ways a run of the approval workflow can end. *)
Definition result_statuses : list value :=
  [VStr "rejected"; VStr "escalated_timeout"; VStr "complete"].

Definition requisition_keys : list string :=
  ["budget_code"; "total"; "available"; "requisition_id"; "urgency"].

Definition is_check (te : N * event) : bool :=
  match te.2 with
  | Activity (CheckApprovalStatus _) => true
  | _ => false
  end.

(** The number of status checks in a history. *)
Definition checks (h : list (N * event)) : nat :=
  length (List.filter is_check h).

End WorkflowObservations.

(* ===================================================================== *)
(** ** Catalog synchronisation workflow                                   *)
(* ===================================================================== *)

Module CatalogSync.
Import Workflows.

Inductive catalog_activity : Type :=
| FetchVendorCatalog (vendor_id : string)
| NormalizeCatalog (catalog_data : dict)
| DetectPriceChanges (vendor_id : string) (catalog : dict)
| NotifyPriceChanges (changes : dict).

(** The replies of the four activities. *)
Record CatalogEnv : Type := {
  fetch_vendor_catalog : string -> dict;
  normalize_catalog : dict -> dict;
  detect_price_changes : string -> dict -> dict;
  notify_price_changes : dict -> bool;
}.

(** [len(v)]: defined on strings, lists and dictionaries. *)
Definition len (v : value) : result Q :=
  match v with
  | VStr s => Ok (inject_Z (Z.of_nat (String.length s)))
  | VList l => Ok (inject_Z (Z.of_nat (length l)))
  | VDict d => Ok (inject_Z (Z.of_nat (size d)))
  | _ => Raise TypeError
  end.

Definition sync_result (vendor_id : string) (normalized changes : dict)
    (price_changes : Q) : dict :=
  {[ "vendor_id" := VStr vendor_id;
     "products_processed" := get_default normalized "normalized_count" (VNum 0);
     "price_changes" := VNum price_changes;
     "new_products" := get_default changes "new_count" (VNum 0);
     "discontinued" := get_default changes "discontinued_count" (VNum 0) ]}.

(** [CatalogSyncWorkflow.run]: the activities awaited, in order, and how
    the run ends. *)
Definition CatalogSyncWorkflow_run (env : CatalogEnv) (vendor_id : string)
  : list catalog_activity * result dict :=
  let catalog_data := fetch_vendor_catalog env vendor_id in
  let normalized := normalize_catalog env catalog_data in
  let changes := detect_price_changes env vendor_id normalized in
  let awaited :=
    [FetchVendorCatalog vendor_id; NormalizeCatalog catalog_data;
     DetectPriceChanges vendor_id normalized] in
  let awaited :=
    if truthy (get changes "significant_changes")
    then awaited ++ [NotifyPriceChanges changes]
    else awaited in
  (awaited,
   bind (len (get_default changes "changes" (VList []))) (fun price_changes =>
   Ok (sync_result vendor_id normalized changes price_changes))).

End CatalogSync.

(* ===================================================================== *)
(** ** Scenarios                                                          *)
(* ===================================================================== *)

(** Concrete collaborators, requisitions and tool calls on which the
    statements below are evaluated. *)

Module AgentScenarios.
Import Agents.

(** The two calls of the repository's price-watch test. *)
Definition critical_call : ToolCall.t :=
  {| ToolCall.name := "send_slack_alert";
     ToolCall.args := Some {[ "level" := VStr "critical" ]};
     ToolCall.id := "call_critical" |}.

Definition info_call : ToolCall.t :=
  {| ToolCall.name := "send_slack_alert";
     ToolCall.args := Some {[ "level" := VStr "info" ]};
     ToolCall.id := "call_info" |}.

(** A call carrying a large amount. *)
Definition costly_call : ToolCall.t :=
  {| ToolCall.name := "route_approval";
     ToolCall.args := Some {[ "amount" := VNum 1000000 ]};
     ToolCall.id := "call_costly" |}.

Definition search_call : ToolCall.t :=
  {| ToolCall.name := "search_products";
     ToolCall.args := Some {[ "query" := VStr "pipettes" ]};
     ToolCall.id := "call_search" |}.

Definition blank_state : AgentState :=
  {| messages := []; context := ∅; user_id := "user-1";
     university_id := "univ-1"; current_agent := "test";
     tool_results := []; pending_approval := None; completed := false |}.

(** An oracle that asks for a product search until the conversation
    holds [n] messages and then answers in text. *)
Definition searching_llm (n : nat) (history : list message) : message :=
  if (length history <? n)%nat then AIMessage "" [search_call]
  else AIMessage "Here are the search results" [].

Definition echo_executor (tool_call : ToolCall.t) : string :=
  String.append "ran " (ToolCall.name tool_call).

(** A default-policy agent configured with [max_iterations = 1]. *)
Definition one_shot_config : AgentConfig :=
  with_max_iterations 1
    (AgentConfig_defaults "test-agent" "Test Agent" 1 "Test").

Definition one_shot_agent : ProcurementAgent :=
  BaseAgent (searching_llm 7) echo_executor one_shot_config.

(** The registered price-compare agent (default [max_iterations = 10])
    in front of an oracle that keeps searching for eleven turns. *)
Definition busy_price_compare : ProcurementAgent :=
  PriceCompareAgent (searching_llm 23) echo_executor.
End AgentScenarios.

Module WorkflowScenarios.
Import Workflows.

Definition no_lag (k : nat) : N := 0%N.
Definition no_signals (k : nat) : list signal := [].

(** The placeholder activities, nothing else going on. *)
Definition quiet : Env := placeholder no_lag no_signals.

(** The placeholder activities in front of a given status store. *)
Definition with_store (store : nat -> N -> string -> dict)
    (signals : nat -> list signal) : Env :=
  {| validate_budget := validate_budget quiet;
     send_approval_notification := send_approval_notification quiet;
     check_approval_status := store;
     generate_purchase_order := generate_purchase_order quiet;
     send_po_to_vendor := send_po_to_vendor quiet;
     escalate_approval := escalate_approval quiet;
     parse_invoice := parse_invoice quiet;
     find_matching_po := find_matching_po quiet;
     match_invoice_lines := match_invoice_lines quiet;
     validate_contract_prices := validate_contract_prices quiet;
     verify_receipts := verify_receipts quiet;
     approve_invoice := approve_invoice quiet;
     create_exception := create_exception quiet;
     lag := no_lag; signals := signals |}.

Definition pending : dict :=
  {[ "approved" := VBool false; "rejected" := VBool false;
     "pending" := VBool true ]}.

Definition approved_status : dict :=
  {[ "approved" := VBool true; "rejected" := VBool false ]}.

Definition rejected_status : dict :=
  {[ "approved" := VBool false; "rejected" := VBool true;
     "reason" := VStr "Over the equipment budget" ]}.

Definition conflicting_status : dict :=
  {[ "approved" := VBool true; "rejected" := VBool true;
     "reason" := VStr "Over the equipment budget" ]}.

(** A requisition of the given amount and urgency. *)
Definition requisition_of (amount : Q) (urgency : string) : Requisition :=
  {| requisition_id := Some "REQ-2024-000123";
     budget_code := Some "CHEM-2024-001";
     total := Some amount;
     urgency := Some urgency;
     vendor_id := Some "vendor_001" |}.

(** A requisition without a budget code, and one with a negative total. *)
Definition no_budget_code : Requisition :=
  {| requisition_id := Some "REQ-2024-000123";
     budget_code := None;
     total := Some 1200%Q;
     urgency := Some "standard";
     vendor_id := Some "vendor_001" |}.

Definition negative_total : Requisition := requisition_of (-5)%Q "standard".

(** The approval arrives fifteen minutes into the run and stays. *)
Definition approved_after_15min : Env :=
  with_store (fun _ t _ => if (t <? 900)%N then pending else approved_status)
    no_signals.

(** The manager (fourth awaited operation) approves; from the eighth
    awaited operation on the store reports the director's rejection. *)
Definition director_rejects : Env :=
  with_store (fun k _ _ =>
                if (k =? 3)%nat then approved_status
                else if (k <? 7)%nat then pending
                else rejected_status)
    no_signals.

(** The store reports an approval and a rejection at once, and both
    signals reach the workflow during its first awaited operation. *)
Definition both_decisions : Env :=
  with_store (fun _ _ _ => conflicting_status)
    (fun k =>
       if (k =? 0)%nat then
         [ {| signal_approver_id := "manager_001"; signal_approved := true;
              signal_reason := VNone |};
           {| signal_approver_id := "manager_001"; signal_approved := false;
              signal_reason := VStr "Over the equipment budget" |} ]
       else []).

(** Invoice collaborators: no purchase order found; and a purchase order
    found whose receipt check fails. *)
Definition no_po_found : Env :=
  {| validate_budget := validate_budget quiet;
     send_approval_notification := send_approval_notification quiet;
     check_approval_status := check_approval_status quiet;
     generate_purchase_order := generate_purchase_order quiet;
     send_po_to_vendor := send_po_to_vendor quiet;
     escalate_approval := escalate_approval quiet;
     parse_invoice := parse_invoice quiet;
     find_matching_po := fun _ =>
       {[ "found" := VBool false; "po_number" := VNone;
          "match_confidence" := VNum 0%Q ]};
     match_invoice_lines := match_invoice_lines quiet;
     validate_contract_prices := validate_contract_prices quiet;
     verify_receipts := verify_receipts quiet;
     approve_invoice := approve_invoice quiet;
     create_exception := create_exception quiet;
     lag := no_lag; signals := no_signals |}.

Definition goods_missing : Env :=
  {| validate_budget := validate_budget quiet;
     send_approval_notification := send_approval_notification quiet;
     check_approval_status := check_approval_status quiet;
     generate_purchase_order := generate_purchase_order quiet;
     send_po_to_vendor := send_po_to_vendor quiet;
     escalate_approval := escalate_approval quiet;
     parse_invoice := parse_invoice quiet;
     find_matching_po := find_matching_po quiet;
     match_invoice_lines := match_invoice_lines quiet;
     validate_contract_prices := validate_contract_prices quiet;
     verify_receipts := fun _ _ =>
       {[ "all_received" := VBool false;
          "issues" := VList [VStr "line 2 not received"] ]};
     approve_invoice := approve_invoice quiet;
     create_exception := create_exception quiet;
     lag := no_lag; signals := no_signals |}.
End WorkflowScenarios.

Module OrchestrationScenarios.
Import Agents Orchestration AgentScenarios.

(** Two agent classes as the factory sees them: constructors from the
    [university_name] keyword to an instance, here the instance's
    description. *)
Definition price_watch_class (university_name : string) : result string :=
  Ok (String.append "PriceWatch Agent of " university_name).

Definition price_compare_class (university_name : string) : result string :=
  Ok (String.append "Price Compare Agent of " university_name).

Definition two_classes : AgentFactory string string :=
  apply_ops [Register "price-watch" price_watch_class;
             Register "price-compare" price_compare_class]
    empty_factory.

(** The orchestrator of the API module, every agent in front of the
    same oracle. *)
Definition api_orchestrator : AgentOrchestrator :=
  new_orchestrator
    (api_agents (fun _ => searching_llm 3) echo_executor
       LoopObservations.int_arithmetic).

End OrchestrationScenarios.

Module LoopScenarios.
Import Agents AgentScenarios.

(** A state whose last message asks for a search, a critical alert and
    an informational alert in one batch. *)
Definition review_state : AgentState :=
  set_messages [HumanMessage "watch pipettes";
                AIMessage "" [search_call; critical_call; info_call]]
    blank_state.

(** An oracle that first asks for a search and a critical alert in one
    batch and answers in text afterwards. *)
Definition alerting_llm (history : list message) : message :=
  if (length history <? 2)%nat then AIMessage "" [search_call; critical_call]
  else AIMessage "Alert is waiting for review" [].

Definition alerting_price_watch : ProcurementAgent :=
  PriceWatchAgent alerting_llm echo_executor.

End LoopScenarios.

Module MoreWorkflowScenarios.
Import Workflows WorkflowScenarios WorkflowObservations CatalogSync.

(** The budget service reports that the money is not there. *)
Definition budget_exhausted : Env :=
  {| validate_budget := fun budget_code amount =>
       {[ "available" := VBool false; "budget_code" := VStr budget_code;
          "requested" := VNum amount; "remaining" := VNum 0 ]};
     send_approval_notification := send_approval_notification quiet;
     check_approval_status := check_approval_status quiet;
     generate_purchase_order := generate_purchase_order quiet;
     send_po_to_vendor := send_po_to_vendor quiet;
     escalate_approval := escalate_approval quiet;
     parse_invoice := parse_invoice quiet;
     find_matching_po := find_matching_po quiet;
     match_invoice_lines := match_invoice_lines quiet;
     validate_contract_prices := validate_contract_prices quiet;
     verify_receipts := verify_receipts quiet;
     approve_invoice := approve_invoice quiet;
     create_exception := create_exception quiet;
     lag := no_lag; signals := no_signals |}.

(** The manager's first status check (the fourth awaited operation of a
    run) finds an approval; every other check finds no decision. *)
Definition manager_approves_only : Env :=
  with_store (fun k _ _ => if (k =? 3)%nat then approved_status else pending)
    no_signals.

(** The same, with an approval reaching the store ten hours into the
    run: after the eight hours of a rush tier, within its grace
    period. *)
Definition director_approves_late : Env :=
  with_store (fun k t _ =>
                if (k =? 3)%nat || (hours 10 <=? t)%N then approved_status
                else pending)
    no_signals.

(** The store never reports a decision; a rejection is signalled to the
    workflow while it waits on the manager's first status check. *)
Definition rejection_signalled : Env :=
  with_store (fun _ _ _ => pending)
    (fun k =>
       if (k =? 3)%nat then
         [ {| signal_approver_id := "manager_001"; signal_approved := false;
              signal_reason := VStr "Over the equipment budget" |} ]
       else []).

(** Every check of the store finds an approval. *)
Definition always_approved : Env :=
  with_store (fun _ _ _ => approved_status) no_signals.

(** The line match fails and the two later replies come back empty. *)
Definition lines_mismatch : Env :=
  {| validate_budget := validate_budget quiet;
     send_approval_notification := send_approval_notification quiet;
     check_approval_status := check_approval_status quiet;
     generate_purchase_order := generate_purchase_order quiet;
     send_po_to_vendor := send_po_to_vendor quiet;
     escalate_approval := escalate_approval quiet;
     parse_invoice := parse_invoice quiet;
     find_matching_po := find_matching_po quiet;
     match_invoice_lines := fun _ _ =>
       {[ "all_matched" := VBool false;
          "mismatches" := VList [VStr "line 1 quantity"] ]};
     validate_contract_prices := fun _ _ => ∅;
     verify_receipts := fun _ _ => ∅;
     approve_invoice := approve_invoice quiet;
     create_exception := create_exception quiet;
     lag := no_lag; signals := no_signals |}.

(** The lines match and the price validation comes back empty. *)
Definition prices_unchecked : Env :=
  {| validate_budget := validate_budget quiet;
     send_approval_notification := send_approval_notification quiet;
     check_approval_status := check_approval_status quiet;
     generate_purchase_order := generate_purchase_order quiet;
     send_po_to_vendor := send_po_to_vendor quiet;
     escalate_approval := escalate_approval quiet;
     parse_invoice := parse_invoice quiet;
     find_matching_po := find_matching_po quiet;
     match_invoice_lines := match_invoice_lines quiet;
     validate_contract_prices := fun _ _ => ∅;
     verify_receipts := verify_receipts quiet;
     approve_invoice := approve_invoice quiet;
     create_exception := create_exception quiet;
     lag := no_lag; signals := no_signals |}.

(** The purchase-order search reports a match without its number. *)
Definition no_po_number : Env :=
  {| validate_budget := validate_budget quiet;
     send_approval_notification := send_approval_notification quiet;
     check_approval_status := check_approval_status quiet;
     generate_purchase_order := generate_purchase_order quiet;
     send_po_to_vendor := send_po_to_vendor quiet;
     escalate_approval := escalate_approval quiet;
     parse_invoice := parse_invoice quiet;
     find_matching_po := fun _ => {[ "found" := VBool true ]};
     match_invoice_lines := match_invoice_lines quiet;
     validate_contract_prices := validate_contract_prices quiet;
     verify_receipts := verify_receipts quiet;
     approve_invoice := approve_invoice quiet;
     create_exception := create_exception quiet;
     lag := no_lag; signals := no_signals |}.

(** A rejection and then an approval, both arriving while the run is
    blocked on its first operation. *)
Definition reject_then_approve : list signal :=
  [ {| signal_approver_id := "manager_001"; signal_approved := false;
       signal_reason := VStr "Duplicate order" |};
    {| signal_approver_id := "director_001"; signal_approved := true;
       signal_reason := VNone |} ].

(** A vendor feed with one significant price change. *)
Definition price_jump : CatalogEnv :=
  {| fetch_vendor_catalog := fun vendor_id =>
       {[ "vendor_id" := VStr vendor_id;
          "products" := VList [VStr "pipette tips"] ]};
     normalize_catalog := fun _ =>
       {[ "normalized_count" := VNum 1; "errors" := VList [] ]};
     detect_price_changes := fun _ _ =>
       {[ "significant_changes" := VBool true;
          "changes" := VList [VStr "pipette tips +18%"];
          "new_count" := VNum 0; "discontinued_count" := VNum 0 ]};
     notify_price_changes := fun _ => true |}.

(** A change detector that reports the number of changes where the list
    of changes is expected. *)
Definition changes_as_count : CatalogEnv :=
  {| fetch_vendor_catalog := fetch_vendor_catalog price_jump;
     normalize_catalog := normalize_catalog price_jump;
     detect_price_changes := fun _ _ =>
       {[ "significant_changes" := VBool true; "changes" := VNum 3 ]};
     notify_price_changes := fun _ => true |}.

End MoreWorkflowScenarios.

(* ===================================================================== *)
(** ** Comparison lemmas                                                  *)
(* ===================================================================== *)

Lemma Qgtb_true (x y : Q) : Qgtb x y = true <-> (y < x)%Q.
Proof.
  unfold Qgtb. rewrite negb_true_iff.
  destruct (Qle_bool x y) eqn:E.
  - apply Qle_bool_iff in E. split; [discriminate | intros H; lra].
  - split; [intros _ | reflexivity].
    destruct (Qlt_le_dec y x) as [Hlt | Hle]; [exact Hlt |].
    apply Qle_bool_iff in Hle. congruence.
Qed.

Lemma Qgtb_false (x y : Q) : Qgtb x y = false <-> (x <= y)%Q.
Proof.
  unfold Qgtb. rewrite negb_false_iff. apply Qle_bool_iff.
Qed.

(* ===================================================================== *)
(** ** Properties of the approver chain resolver                          *)
(* ===================================================================== *)

Section Resolver.

Local Open Scope Q_scope.

Lemma determine_approvers_cases (total : Q) :
  determine_approvers total =
    if Qgtb total 500 then
      if Qgtb total 5000 then
        if Qgtb total 25000 then
          if Qgtb total 100000 then [manager; director; vp; cfo]
          else [manager; director; vp]
        else if Qgtb total 100000 then [manager; director; cfo]
             else [manager; director]
      else if Qgtb total 25000 then
             if Qgtb total 100000 then [manager; vp; cfo] else [manager; vp]
           else if Qgtb total 100000 then [manager; cfo] else [manager]
    else if Qgtb total 5000 then
           if Qgtb total 25000 then
             if Qgtb total 100000 then [director; vp; cfo] else [director; vp]
           else if Qgtb total 100000 then [director; cfo] else [director]
         else if Qgtb total 25000 then
                if Qgtb total 100000 then [vp; cfo] else [vp]
              else if Qgtb total 100000 then [cfo] else [].
Proof.
  unfold determine_approvers.
  destruct (Qgtb total 500), (Qgtb total 5000), (Qgtb total 25000),
    (Qgtb total 100000); reflexivity.
Qed.

(** Decide every threshold test of [determine_approvers] from linear
    facts about [total] in the context. *)
Ltac settle_thresholds total :=
  rewrite (determine_approvers_cases total);
  repeat match goal with
    | |- context [Qgtb total ?t] =>
        let E := fresh "E" in
        destruct (Qgtb total t) eqn:E;
        [apply Qgtb_true in E | apply Qgtb_false in E]
    end;
  try reflexivity; try (exfalso; lra).

Lemma chain_le_500 total : total <= 500 -> determine_approvers total = [].
Proof. intros H. settle_thresholds total. Qed.

Lemma chain_le_5000 total :
  500 < total <= 5000 -> determine_approvers total = [manager].
Proof. intros [H1 H2]. settle_thresholds total. Qed.

Lemma chain_le_25000 total :
  5000 < total <= 25000 -> determine_approvers total = [manager; director].
Proof. intros [H1 H2]. settle_thresholds total. Qed.

Lemma chain_le_100000 total :
  25000 < total <= 100000 ->
  determine_approvers total = [manager; director; vp].
Proof. intros [H1 H2]. settle_thresholds total. Qed.

Lemma chain_gt_100000 total :
  100000 < total -> determine_approvers total = [manager; director; vp; cfo].
Proof. intros H. settle_thresholds total. Qed.

(** Every amount falls in one of the five bands. *)
Lemma chain_is_take total :
  exists n : nat, (n <= 4)%nat /\ determine_approvers total = take n full_ladder.
Proof.
  destruct (Qlt_le_dec 500 total) as [H1 | H1];
    [| exists 0%nat; split; [lia | now apply chain_le_500]].
  destruct (Qlt_le_dec 5000 total) as [H2 | H2];
    [| exists 1%nat; split; [lia | now apply chain_le_5000]].
  destruct (Qlt_le_dec 25000 total) as [H3 | H3];
    [| exists 2%nat; split; [lia | now apply chain_le_25000]].
  destruct (Qlt_le_dec 100000 total) as [H4 | H4];
    [| exists 3%nat; split; [lia | now apply chain_le_100000]].
  exists 4%nat; split; [lia | now apply chain_gt_100000].
Qed.

Lemma chain_length_mono a b :
  a <= b ->
  (length (determine_approvers a) <= length (determine_approvers b))%nat.
Proof.
  intros Hab.
  rewrite (determine_approvers_cases a), (determine_approvers_cases b).
  repeat match goal with
    | |- context [Qgtb ?x ?t] =>
        let E := fresh "E" in
        destruct (Qgtb x t) eqn:E;
        [apply Qgtb_true in E | apply Qgtb_false in E]
    end;
  try (simpl; lia); exfalso; lra.
Qed.

(** C1. The threshold table of the approver chain resolver: an amount of at
    most 500 needs no approver; above 500 and up to 5000 exactly the
    manager; above 5000 and up to 25000 manager and director; above 25000
    and up to 100000 manager, director and vp; above 100000 all four tiers.
    Hence the chain is always a prefix of the full ladder and its length
    never decreases when the amount grows. *)
Theorem C1_determine_approvers_table (total : Q) :
  (total <= 500 -> determine_approvers total = []) /\
  (500 < total <= 5000 -> role <$> determine_approvers total = ["manager"]) /\
  (5000 < total <= 25000 ->
     role <$> determine_approvers total = ["manager"; "director"]) /\
  (25000 < total <= 100000 ->
     role <$> determine_approvers total = ["manager"; "director"; "vp"]) /\
  (100000 < total ->
     role <$> determine_approvers total = ["manager"; "director"; "vp"; "cfo"]) /\
  determine_approvers total `prefix_of` full_ladder /\
  (forall bigger : Q, total <= bigger ->
     (length (determine_approvers total)
      <= length (determine_approvers bigger))%nat).
Proof.
  repeat split.
  - apply chain_le_500.
  - intros H. now rewrite chain_le_5000.
  - intros H. now rewrite chain_le_25000.
  - intros H. now rewrite chain_le_100000.
  - intros H. now rewrite chain_gt_100000.
  - destruct (chain_is_take total) as (n & _ & ->).
    exists (drop n full_ladder). symmetry. apply take_drop.
  - intros bigger. apply chain_length_mono.
Qed.

(** The table evaluated at one amount of each band, 30000 being the
    amount of the design document's end-to-end scenario. *)
Lemma C1_determine_approvers_table_witness :
  determine_approvers 300 = [] /\
  role <$> determine_approvers 5000 = ["manager"] /\
  role <$> determine_approvers 5001 = ["manager"; "director"] /\
  role <$> determine_approvers 30000 = ["manager"; "director"; "vp"] /\
  role <$> determine_approvers 100001
    = ["manager"; "director"; "vp"; "cfo"] /\
  (length (determine_approvers 300) <= length (determine_approvers 30000))%nat.
Proof.
  destruct (C1_determine_approvers_table 300) as (B0 & _ & _ & _ & _ & _ & M).
  destruct (C1_determine_approvers_table 5000) as (_ & B1 & _).
  destruct (C1_determine_approvers_table 5001) as (_ & _ & B2 & _).
  destruct (C1_determine_approvers_table 30000) as (_ & _ & _ & B3 & _).
  destruct (C1_determine_approvers_table 100001)
    as (_ & _ & _ & _ & B4 & _).
  split; [apply B0; lra |].
  split; [apply B1; lra |].
  split; [apply B2; lra |].
  split; [apply B3; lra |].
  split; [apply B4; lra |].
  apply M; lra.
Defined.

End Resolver.

(* ===================================================================== *)
(** ** Properties of the human gate                                       *)
(* ===================================================================== *)

Module GateFacts.
Import Agents AgentScenarios.

Lemma default_gate_off (c : AgentConfig) tool_call state :
  (human_in_loop_threshold c <= 0)%Q ->
  default_requires_human_review c tool_call state = Ok false.
Proof.
  intros H. unfold default_requires_human_review.
  apply Qle_bool_iff in H. now rewrite H.
Qed.

Lemma eq_str_true v s : eq_str v s = true <-> v = VStr s.
Proof.
  destruct v; simpl; try (split; [discriminate | intros [=]]).
  rewrite String.eqb_eq. split; [now intros -> | now intros [= ->]].
Qed.

Lemma price_watch_gate c tool_call state :
  price_watch_requires_human_review c tool_call state = Ok true <->
  ToolCall.name tool_call = "send_slack_alert" /\
  get_default (ToolCall.get_args tool_call) "level" (VStr "info")
    = VStr "critical".
Proof.
  unfold price_watch_requires_human_review.
  destruct (String.eqb_spec (ToolCall.name tool_call) "send_slack_alert")
    as [-> | Hne].
  - rewrite <- eq_str_true. split.
    + intros [= ->]. now split.
    + now intros [_ ->].
  - split; [discriminate | now intros [? _]].
Qed.

(** C2 (as the code has it). An agent that keeps the default human gate
    never gates when its threshold is at most zero, whatever the tool
    call; the price-watch agent replaces the gate by one that does not
    read the threshold: it gates exactly the [send_slack_alert] calls
    whose level is ["critical"], and never raises. *)
Theorem C2_default_gate_off_price_watch_gates_critical
    (llm : list message -> message) (executor : ToolCall.t -> string) :
  (forall (c : AgentConfig) tool_call state,
      (human_in_loop_threshold c <= 0)%Q ->
      requires_review (BaseAgent llm executor c) tool_call state = Ok false) /\
  (forall tool_call state,
      (requires_review (PriceWatchAgent llm executor) tool_call state = Ok true <->
         ToolCall.name tool_call = "send_slack_alert" /\
         get_default (ToolCall.get_args tool_call) "level" (VStr "info")
           = VStr "critical") /\
      exists gated,
        requires_review (PriceWatchAgent llm executor) tool_call state
          = Ok gated).
Proof.
  split.
  - intros c tool_call state H. now apply default_gate_off.
  - intros tool_call state. split.
    + apply price_watch_gate.
    + unfold requires_review; simpl.
      unfold price_watch_requires_human_review.
      destruct (String.eqb _ _); eauto.
Qed.

(** The default gate on a million-dollar call under a zero threshold. *)
Lemma C2_default_gate_off_witness :
  (human_in_loop_threshold
     (AgentConfig_defaults "price-compare" "Price Compare Agent" 1
        "Core Price Intelligence") <= 0)%Q /\
  requires_review (PriceCompareAgent (searching_llm 7) echo_executor)
    costly_call blank_state = Ok false.
Proof.
  split.
  - simpl. lra.
  - apply (C2_default_gate_off_price_watch_gates_critical
             (searching_llm 7) echo_executor).
    simpl. lra.
Defined.

(** C2 (as stated) fails: the price-watch agent is configured with
    threshold 0 and still gates a critical Slack alert, as the
    repository's own test expects. *)
Lemma C2_price_watch_gates_at_zero_threshold :
  ~ (forall (self : ProcurementAgent) tool_call state,
        (human_in_loop_threshold (config self) <= 0)%Q ->
        requires_review self tool_call state = Ok false).
Proof.
  intros H.
  specialize (H (PriceWatchAgent (searching_llm 7) echo_executor)
                critical_call blank_state).
  assert (Hthr : (human_in_loop_threshold
                    (config (PriceWatchAgent (searching_llm 7) echo_executor))
                  <= 0)%Q) by (simpl; lra).
  specialize (H Hthr). vm_compute in H. discriminate H.
Qed.

End GateFacts.

(* ===================================================================== *)
(** ** Properties of the decision loop                                    *)
(* ===================================================================== *)

Module LoopFacts.
Import Agents AgentScenarios.

Lemma default_gate_ignores_max_iterations n c tool_call state :
  default_requires_human_review (with_max_iterations n c) tool_call state
  = default_requires_human_review c tool_call state.
Proof. reflexivity. Qed.

Section SameLoop.
Variable llm : list message -> message.
Variable executor : ToolCall.t -> string.
Variable c : AgentConfig.
Variable n : Z.

Let self := BaseAgent llm executor c.
Let self' := BaseAgent llm executor (with_max_iterations n c).

(** The configured [max_iterations] has no effect on a run. *)
Lemma run_ignores_max_iterations limit message user_id university_id context :
  run self' limit message user_id university_id context
  = run self limit message user_id university_id context.
Proof.
  reflexivity.
Qed.
End SameLoop.

(** C8. The configured [max_iterations] does not bound the decision loop,
    as it should. With [max_iterations = 1] the loop makes three
    oracle/tool round trips and ends normally; the registered
    price-compare agent, with the default [max_iterations = 10], makes
    eleven within a graph step limit of 25. Neither run reports a fatal
    condition. *)
Theorem C8_max_iterations_not_enforced :
  max_iterations (config one_shot_agent) = 1%Z /\
  (exists r, run one_shot_agent 25 "price of pipettes?" "user-1" "univ-1" ∅
             = Ok r /\
             round_trips (executed r) = 3%nat /\
             response r = "Here are the search results") /\
  max_iterations (config busy_price_compare) = 10%Z /\
  (exists r, run busy_price_compare 25 "price of pipettes?" "user-1" "univ-1" ∅
             = Ok r /\
             round_trips (executed r) = 11%nat).
Proof.
  split; [reflexivity |]. split.
  - eexists. split; [vm_compute; reflexivity |]. split; reflexivity.
  - split; [reflexivity |].
    eexists. split; [vm_compute; reflexivity |]. reflexivity.
Qed.

End LoopFacts.

(* ===================================================================== *)
(** ** Properties of the workflow runtime                                 *)
(* ===================================================================== *)

Module RuntimeFacts.
Import Workflows.

Section WithEnv.
Variable env : Env.

Lemma deliver_frame sgs s :
  now (deliver sgs s) = now s /\
  history (deliver sgs s) = history s /\
  deadlines (deliver sgs s) = deadlines s /\
  current_step (deliver sgs s) = current_step s.
Proof.
  revert s. induction sgs as [| sg sgs IH]; intros s; [easy |].
  cbn [deliver foldl]. fold (deliver sgs (approval_received sg s)).
  destruct (IH (approval_received sg s)) as (-> & -> & -> & ->).
  unfold approval_received. now destruct (signal_approved sg).
Qed.

Lemma after_await_now ev d s :
  now (after_await env ev d s)
  = (now s + d + lag env (length (history s)))%N.
Proof.
  unfold after_await. now rewrite (proj1 (deliver_frame _ _)).
Qed.

Lemma after_await_history ev d s :
  history (after_await env ev d s) = history s ++ [(now s, ev)].
Proof.
  unfold after_await.
  now rewrite (proj1 (proj2 (deliver_frame _ _))).
Qed.

Lemma after_await_deadlines ev d s :
  deadlines (after_await env ev d s) = deadlines s.
Proof.
  unfold after_await.
  now rewrite (proj1 (proj2 (proj2 (deliver_frame _ _)))).
Qed.

Lemma after_await_current_step ev d s :
  current_step (after_await env ev d s) = current_step s.
Proof.
  unfold after_await.
  now rewrite (proj2 (proj2 (proj2 (deliver_frame _ _)))).
Qed.

Lemma check_status_eq rid s :
  check_status env rid s
  = (Went (status_at env rid s), after_check env rid s).
Proof. reflexivity. Qed.

Lemma sleep_eq d s :
  sleep env d s = (Went tt, after_await env (Sleep d) d s).
Proof. reflexivity. Qed.

Lemma execute_activity_eq {A} a (reply : A) s :
  execute_activity env a reply s
  = (Went reply, after_await env (Activity a) 0 s).
Proof. reflexivity. Qed.

(** *** The polling loop, one iteration at a time *)

Lemma poll_loop_past_deadline fuel deadline rid a s :
  (deadline <= now s)%N ->
  poll_loop env fuel deadline rid a s = (Went tt, s).
Proof.
  intros H. destruct fuel; cbn [poll_loop];
    (destruct (N.ltb_spec (now s) deadline); [lia | reflexivity]).
Qed.

Lemma poll_loop_approved fuel deadline rid a s :
  (now s < deadline)%N ->
  truthy (get (status_at env rid s) "approved") = true ->
  poll_loop env (S fuel) deadline rid a s
  = (Went tt, after_check env rid s).
Proof.
  intros Ht Happ. cbn [poll_loop].
  destruct (N.ltb_spec (now s) deadline); [| lia].
  unfold wf_bind at 1. rewrite check_status_eq. now rewrite Happ.
Qed.

Lemma poll_loop_rejected fuel deadline rid a s :
  (now s < deadline)%N ->
  truthy (get (status_at env rid s) "approved") = false ->
  truthy (get (status_at env rid s) "rejected") = true ->
  let reason :=
    get_default (status_at env rid s) "reason" (VStr "Rejected by approver") in
  poll_loop env (S fuel) deadline rid a s
  = (Returned (rejected_by reason a),
     set_rejected reason (after_check env rid s)).
Proof.
  intros Ht Happ Hrej reason. cbn [poll_loop].
  destruct (N.ltb_spec (now s) deadline); [| lia].
  unfold wf_bind at 1. rewrite check_status_eq. rewrite Happ, Hrej.
  reflexivity.
Qed.

Lemma poll_loop_undecided fuel deadline rid a s :
  (now s < deadline)%N ->
  truthy (get (status_at env rid s) "approved") = false ->
  truthy (get (status_at env rid s) "rejected") = false ->
  poll_loop env (S fuel) deadline rid a s
  = poll_loop env fuel deadline rid a (poll_once env rid s).
Proof.
  intros Ht Happ Hrej. cbn [poll_loop].
  destruct (N.ltb_spec (now s) deadline); [| lia].
  unfold wf_bind at 1. rewrite check_status_eq. rewrite Happ, Hrej.
  reflexivity.
Qed.

Lemma poll_once_now rid s :
  (now s + check_interval <= now (poll_once env rid s))%N.
Proof.
  unfold poll_once, after_check. rewrite !after_await_now. lia.
Qed.

Lemma poll_once_history rid s :
  history (poll_once env rid s)
  = history s ++ [(now s, Activity (CheckApprovalStatus rid));
                  (now (after_check env rid s), Sleep check_interval)].
Proof.
  unfold poll_once, after_check. rewrite !after_await_history.
  now rewrite <- app_assoc.
Qed.

(** Whatever the loop does, it only checks the status and sleeps, it
    leaves the recorded deadlines alone, time does not go back, and
    it ends by leaving the loop, by returning a rejection, or by
    running out of fuel. *)
Lemma poll_loop_shape fuel deadline rid a :
  forall s o s',
    poll_loop env fuel deadline rid a s = (o, s') ->
    (exists evs,
        history s' = history s ++ evs /\ Forall (is_poll rid) evs) /\
    deadlines s' = deadlines s /\
    current_step s' = current_step s /\
    (now s <= now s')%N /\
    (o = Diverged \/ o = Went tt \/
     exists reason, o = Returned (rejected_by reason a)).
Proof.
  induction fuel as [| fuel IH]; intros s o s' Hrun;
    (destruct (N.ltb_spec (now s) deadline) as [Hlt | Hge];
     [| rewrite poll_loop_past_deadline in Hrun by exact Hge;
        injection Hrun as <- <-;
        repeat split; try lia; [| now right; left];
        exists []; now rewrite app_nil_r]).
  - cbn [poll_loop] in Hrun.
    destruct (N.ltb_spec (now s) deadline); [| lia].
    injection Hrun as <- <-.
    repeat split; try lia; [| now left].
    exists []. now rewrite app_nil_r.
  - 
    destruct (truthy (get (status_at env rid s) "approved")) eqn:Happ.
    { rewrite poll_loop_approved in Hrun by assumption.
      injection Hrun as <- <-. unfold after_check.
      rewrite after_await_history, after_await_deadlines,
        after_await_current_step, after_await_now.
      repeat split; try lia; [| now right; left].
      eexists. split; [reflexivity |].
      constructor; [now left | constructor]. }
    destruct (truthy (get (status_at env rid s) "rejected")) eqn:Hrej.
    { rewrite poll_loop_rejected in Hrun by assumption.
      injection Hrun as <- <-. cbn [set_rejected history deadlines now current_step].
      unfold after_check.
      rewrite after_await_history, after_await_deadlines,
        after_await_current_step, after_await_now.
      repeat split; try lia; [| right; right; eauto].
      eexists. split; [reflexivity |].
      constructor; [now left | constructor]. }
    rewrite poll_loop_undecided in Hrun by assumption.
    apply IH in Hrun as ((evs & Hh & Hevs) & Hd & Hc & Ht & Ho).
    pose proof (poll_once_now rid s) as Hnow.
    rewrite poll_once_history in Hh.
    unfold poll_once, after_check in Hd, Hc.
    rewrite !after_await_deadlines in Hd.
    rewrite !after_await_current_step in Hc.
    repeat split; try assumption; [| unfold check_interval, minutes in *; lia].
    eexists. split; [rewrite Hh, <- app_assoc; reflexivity |].
    apply Forall_app. split; [| exact Hevs].
    constructor; [now left |]. constructor; [now right | constructor].
Qed.

(** Enough fuel: every iteration that goes round moves the clock by at
    least one check interval. *)
Lemma poll_loop_total fuel deadline rid a :
  forall s,
    (deadline <= now s + check_interval * N.of_nat fuel)%N ->
    fst (poll_loop env fuel deadline rid a s) <> Diverged.
Proof.
  induction fuel as [| fuel IH]; intros s Hfuel;
    (destruct (N.ltb_spec (now s) deadline) as [Hlt | Hge];
     [| now rewrite poll_loop_past_deadline by exact Hge]).
  - lia.
  - 
    destruct (truthy (get (status_at env rid s) "approved")) eqn:Happ.
    { now rewrite poll_loop_approved by assumption. }
    destruct (truthy (get (status_at env rid s) "rejected")) eqn:Hrej.
    { now rewrite poll_loop_rejected by assumption. }
    rewrite poll_loop_undecided by assumption.
    apply IH. pose proof (poll_once_now rid s). lia.
Qed.

(** With no decision at the checks made from a given point on (from
    the [k0]-th awaited operation and time [lo]) and before the
    deadline, the polling goes on until the deadline has passed. *)
Lemma poll_loop_waits_out deadline rid a k0 lo fuel :
  (forall k t, (k0 <= k)%nat -> (lo <= t < deadline)%N ->
               undecided (check_approval_status env k t rid)) ->
  forall s1,
    (k0 <= length (history s1))%nat ->
    (lo <= now s1)%N ->
    (deadline <= now s1 + check_interval * N.of_nat fuel)%N ->
    exists s3 polls,
      poll_loop env fuel deadline rid a s1 = (Went tt, s3) /\
      (deadline <= now s3)%N /\
      history s3 = history s1 ++ polls /\
      Forall (is_poll rid) polls.
Proof.
  intros Hstore.
  induction fuel as [| fuel IH]; intros s1 Hk Hlo Hfuel;
    (destruct (N.ltb_spec (now s1) deadline) as [Hlt | Hge];
     [| exists s1, []; rewrite app_nil_r;
        now rewrite poll_loop_past_deadline by exact Hge]).
  - lia.
  - destruct (Hstore (length (history s1)) (now s1) Hk (conj Hlo Hlt))
      as (Happ & Hrej).
    rewrite poll_loop_undecided by assumption.
    destruct (IH (poll_once env rid s1)) as (s3 & polls & -> & Hs3 & Hh & Hp).
    { rewrite poll_once_history, length_app. lia. }
    { pose proof (poll_once_now rid s1). lia. }
    { pose proof (poll_once_now rid s1). lia. }
    exists s3. eexists. split; [reflexivity |]. split; [exact Hs3 |].
    rewrite Hh, poll_once_history, <- app_assoc.
    split; [reflexivity |].
    apply Forall_app. split; [| exact Hp].
    constructor; [now left |]. constructor; [now right | constructor].
Qed.

Lemma after_polls_succ rid n s :
  after_polls env rid (S n) s = after_polls env rid n (poll_once env rid s).
Proof. unfold after_polls. now rewrite Nat.iter_succ_r. Qed.

Lemma after_polls_now rid n s :
  (now s + check_interval * N.of_nat n <= now (after_polls env rid n s))%N.
Proof.
  revert s. induction n as [| n IH]; intros s.
  - cbn. lia.
  - rewrite after_polls_succ. specialize (IH (poll_once env rid s)).
    pose proof (poll_once_now rid s). lia.
Qed.

Lemma after_polls_history rid n s :
  exists evs,
    history (after_polls env rid n s) = history s ++ evs /\
    Forall (is_poll rid) evs.
Proof.
  revert s. induction n as [| n IH]; intros s.
  - exists []. cbn. now rewrite app_nil_r.
  - rewrite after_polls_succ.
    destruct (IH (poll_once env rid s)) as (evs & -> & Hevs).
    rewrite poll_once_history, <- app_assoc.
    eexists. split; [reflexivity |].
    apply Forall_app. split; [| exact Hevs].
    constructor; [now left |]. constructor; [now right | constructor].
Qed.

Lemma after_polls_deadlines rid n s :
  deadlines (after_polls env rid n s) = deadlines s.
Proof.
  revert s. induction n as [| n IH]; intros s; [reflexivity |].
  rewrite after_polls_succ, IH. unfold poll_once, after_check.
  now rewrite !after_await_deadlines.
Qed.

(** [n] undecided rounds, each started before the deadline, are [n]
    turns of the loop. *)
Lemma poll_loop_after_polls deadline rid a n :
  forall fuel s,
    (forall i, (i < n)%nat ->
               (now (after_polls env rid i s) < deadline)%N /\
               undecided (status_at env rid (after_polls env rid i s))) ->
    poll_loop env (n + fuel) deadline rid a s
    = poll_loop env fuel deadline rid a (after_polls env rid n s).
Proof.
  induction n as [| n IH]; intros fuel s Hund; [reflexivity |].
  destruct (Hund 0%nat ltac:(lia)) as (Hlt & Happ & Hrej).
  cbn [after_polls Nat.iter] in Hlt, Happ, Hrej.
  change (S n + fuel)%nat with (S (n + fuel)).
  rewrite poll_loop_undecided by assumption.
  rewrite after_polls_succ. apply IH.
  intros i Hi. rewrite <- after_polls_succ. apply Hund. lia.
Qed.

End WithEnv.
End RuntimeFacts.

(* ===================================================================== *)
(** ** Properties of the approval workflow, tier by tier                  *)
(* ===================================================================== *)

Module TierFacts.
Import Workflows RuntimeFacts.

Section OneRequisition.
Variable env : Env.
Variable requisition : Requisition.
Variables (rid : string) (amount : Q) (urg : string).
Hypothesis Hrid : requisition_id requisition = Some rid.
Hypothesis Htotal : total requisition = Some amount.
Hypothesis Hurgency : urgency requisition = Some urg.

(** The body of the [for] loop, with the keys of the requisition
    resolved. *)
Lemma process_approver_eq a s :
  process_approver env requisition a s =
    let deadline := tier_deadline env rid a amount urg s in
    match poll_loop env (poll_fuel (sla_hours_of urg)) deadline rid a
            (wait_start env rid a amount urg s) with
    | (Went _, s3) =>
        if (deadline <=? now s3)%N then
          let s5 := after_grace env rid a amount s3 in
          if negb (truthy (get (status_at env rid s5) "approved")) then
            (Returned escalated_timeout, after_check env rid s5)
          else (Went tt, after_check env rid s5)
        else (Went tt, s3)
    | (Returned r, s3) => (Returned r, s3)
    | (Raised e, s3) => (Raised e, s3)
    | (Diverged, s3) => (Diverged, s3)
    end.
Proof.
  unfold process_approver. rewrite Hrid, Htotal, Hurgency.
  cbv zeta. unfold key, wf_bind at 1 2 3 4 5 6 7. cbn [ret].
  rewrite execute_activity_eq. cbn [read modify].
  fold (notified_state env rid a amount s).
  fold (tier_deadline env rid a amount urg s).
  fold (wait_start env rid a amount urg s).
  destruct (poll_loop env _ _ rid a _) as [[[] | r | e |] s3];
    try reflexivity.
  unfold wf_bind at 1. cbn [read].
  destruct (_ <=? now s3)%N; [| reflexivity].
  unfold wf_bind. rewrite execute_activity_eq, sleep_eq.
  fold (after_grace env rid a amount s3).
  rewrite check_status_eq.
  now destruct (truthy _).
Qed.

Lemma wait_start_now a s :
  now (wait_start env rid a amount urg s)
  = (now s + lag env (length (history s)))%N.
Proof.
  unfold wait_start, notified_state. cbn [note_deadline now].
  rewrite after_await_now. lia.
Qed.

Lemma tier_deadline_eq a s :
  tier_deadline env rid a amount urg s
  = (now s + lag env (length (history s)) + hours (sla_hours_of urg))%N.
Proof.
  unfold tier_deadline, notified_state. rewrite after_await_now. lia.
Qed.

Lemma poll_fuel_enough a s :
  (tier_deadline env rid a amount urg s
   <= now (wait_start env rid a amount urg s)
      + check_interval * N.of_nat (poll_fuel (sla_hours_of urg)))%N.
Proof.
  rewrite wait_start_now, tier_deadline_eq.
  unfold poll_fuel, check_interval, minutes, hours.
  rewrite N2Nat.id. lia.
Qed.

Lemma after_grace_now a s :
  (now s + hours 4 <= now (after_grace env rid a amount s))%N.
Proof.
  unfold after_grace. rewrite !after_await_now. lia.
Qed.

(** The events a tier adds after its notification: the polling, then
    either nothing or the escalation, the grace period and the final
    check. *)
Lemma process_approver_shape a s o s' :
  process_approver env requisition a s = (o, s') ->
  (exists polls tail,
      history s' =
        history s
        ++ [(now s,
             Activity
               (SendApprovalNotification (approval_request rid a amount)))]
        ++ polls ++ tail /\
      Forall (is_poll rid) polls /\
      (tail = [] \/ escalation_tail rid a amount tail)) /\
  deadlines s' =
    deadlines s ++ [(a, tier_deadline env rid a amount urg s)] /\
  (o = Went tt \/
   (exists reason, o = Returned (rejected_by reason a)) \/
   o = Returned escalated_timeout).
Proof.
  rewrite process_approver_eq. cbv zeta.
  pose proof (poll_loop_total env (poll_fuel (sla_hours_of urg))
                (tier_deadline env rid a amount urg s) rid a
                (wait_start env rid a amount urg s)
                (poll_fuel_enough a s)) as Htotal'.
  destruct (poll_loop env _ _ rid a _) as [o3 s3] eqn:Hloop.
  apply poll_loop_shape in Hloop
    as ((polls & Hh & Hpolls) & Hd & _ & Ht & Ho).
  cbn [fst] in Htotal'.
  assert (Hh0 : history (wait_start env rid a amount urg s)
                = history s
                  ++ [(now s,
                       Activity (SendApprovalNotification
                                   (approval_request rid a amount)))]).
  { unfold wait_start, notified_state. cbn [note_deadline history].
    now rewrite after_await_history. }
  assert (Hd0 : deadlines (wait_start env rid a amount urg s)
                = deadlines s ++ [(a, tier_deadline env rid a amount urg s)]).
  { unfold wait_start, notified_state. cbn [note_deadline deadlines].
    now rewrite after_await_deadlines. }
  rewrite Hh0 in Hh. rewrite Hd0 in Hd.
  destruct Ho as [-> | [-> | (reason & ->)]]; [congruence | |].
  - destruct (_ <=? now s3)%N.
    + set (s5 := after_grace env rid a amount s3).
      assert (Hs6 : history (after_check env rid s5)
                    = history s3
                      ++ [(now s3,
                           Activity (EscalateApproval
                                       (approval_request rid a amount)));
                          (now (after_await env
                                  (Activity (EscalateApproval
                                     (approval_request rid a amount))) 0 s3),
                           Sleep (hours 4));
                          (now s5, Activity (CheckApprovalStatus rid))]).
      { unfold after_check, s5, after_grace.
        rewrite !after_await_history, <- !app_assoc. reflexivity. }
      assert (Hd6 : deadlines (after_check env rid s5) = deadlines s3).
      { unfold after_check, s5, after_grace.
        now rewrite !after_await_deadlines. }
      assert (Htail : escalation_tail rid a amount
                        [(now s3,
                           Activity (EscalateApproval
                                       (approval_request rid a amount)));
                          (now (after_await env
                                  (Activity (EscalateApproval
                                     (approval_request rid a amount))) 0 s3),
                           Sleep (hours 4));
                          (now s5, Activity (CheckApprovalStatus rid))]).
      { eexists _, _, _. split; [reflexivity |].
        unfold s5, after_grace. rewrite !after_await_now. lia. }
      destruct (negb _); intros [= <- <-];
        (split; [| split; [congruence | auto]]);
        eexists polls, _;
        (split; [rewrite Hs6, Hh, <- !app_assoc; reflexivity | auto]).
    + intros [= <- <-]. split; [| split; [assumption | auto]].
      exists polls, []. rewrite app_nil_r, Hh, <- app_assoc. auto.
  - intros [= <- <-]. split; [| split; [assumption | eauto]].
    exists polls, []. rewrite app_nil_r, Hh, <- app_assoc. auto.
Qed.

(** *** The whole chain *)

Lemma process_approvers_cons a l s :
  process_approvers env requisition (a :: l) s =
    match process_approver env requisition a s with
    | (Went _, s1) => process_approvers env requisition l s1
    | (Returned r, s1) => (Returned r, s1)
    | (Raised e, s1) => (Raised e, s1)
    | (Diverged, s1) => (Diverged, s1)
    end.
Proof. reflexivity. Qed.

Lemma process_approvers_app pre l s s1 :
  process_approvers env requisition pre s = (Went tt, s1) ->
  process_approvers env requisition (pre ++ l) s
  = process_approvers env requisition l s1.
Proof.
  revert s. induction pre as [| a pre IH]; intros s Hpre.
  - now injection Hpre as <-.
  - rewrite <- app_comm_cons, process_approvers_cons.
    rewrite process_approvers_cons in Hpre.
    destruct (process_approver env requisition a s) as [[[] | | |] s2];
      try discriminate.
    now apply IH.
Qed.

Lemma approval_request_approver_id a :
  approval_request rid a amount !! "approver_id"
  = Some (VStr (approver_id a)).
Proof. reflexivity. Qed.

Lemma notified_polls polls :
  Forall (is_poll rid) polls -> notified polls = [].
Proof.
  induction 1 as [| [t ev] polls [Hev | Hev] _ IH]; [reflexivity | |];
    cbn in Hev; subst ev; exact IH.
Qed.

Lemma notified_escalation_tail a tail :
  tail = [] \/ escalation_tail rid a amount tail -> notified tail = [].
Proof. intros [-> | (t1 & t2 & t3 & -> & _)]; reflexivity. Qed.

Lemma escalations_polls polls :
  Forall (is_poll rid) polls -> escalations polls = 0%nat.
Proof.
  induction 1 as [| [t ev] polls [Hev | Hev] _ IH]; [reflexivity | |];
    cbn in Hev; subst ev; exact IH.
Qed.

Lemma notified_app h1 h2 : notified (h1 ++ h2) = notified h1 ++ notified h2.
Proof. apply omap_app. Qed.

Lemma escalations_app h1 h2 :
  escalations (h1 ++ h2) = (escalations h1 + escalations h2)%nat.
Proof.
  unfold escalations. now rewrite List.filter_app, length_app.
Qed.

(** One tier notifies its own approver, once, and nobody else. *)
Lemma process_approver_notified a s o s' :
  process_approver env requisition a s = (o, s') ->
  notified (history s') = notified (history s) ++ [VStr (approver_id a)].
Proof.
  intros Hrun.
  apply process_approver_shape in Hrun
    as ((polls & tail & -> & Hpolls & Htail) & _ & _).
  rewrite !notified_app, (notified_polls polls Hpolls),
    (notified_escalation_tail a tail Htail).
  rewrite !app_nil_r. f_equal.
Qed.

(** The chain as a whole: it ends by falling through after every tier,
    or with the rejection or the escalation timeout of one of them;
    the approvers notified are those of the tiers entered. *)
Lemma process_approvers_shape l :
  forall s o s',
    process_approvers env requisition l s = (o, s') ->
    (o = Went tt \/
     (exists a reason, a ∈ l /\ o = Returned (rejected_by reason a)) \/
     o = Returned escalated_timeout) /\
    exists entered,
      entered `prefix_of` l /\
      notified (history s')
      = notified (history s) ++ ((VStr ∘ approver_id) <$> entered) /\
      (o = Went tt -> entered = l).
Proof.
  induction l as [| a l IH]; intros s o s' Hrun.
  - injection Hrun as <- <-. split; [now left |].
    exists []. cbn. now rewrite !app_nil_r.
  - rewrite process_approvers_cons in Hrun.
    destruct (process_approver env requisition a s) as [o1 s1] eqn:Hone.
    pose proof (process_approver_notified a s o1 s1 Hone) as Hnot.
    pose proof (process_approver_shape a s o1 s1 Hone)
      as (_ & _ & [-> | [(reason & ->) | ->]]).
    + apply IH in Hrun as (Ho & entered & Hpre & Hn & Hall).
      split.
      * destruct Ho as [-> | [(b & reason & Hb & ->) | ->]]; auto.
        right; left. exists b, reason. split; [now right | reflexivity].
      * exists (a :: entered). split; [now apply prefix_cons |].
        split; [rewrite Hn, Hnot, <- app_assoc; reflexivity |].
        now intros ->%Hall.
    + injection Hrun as <- <-. split.
      * right; left. exists a, reason. split; [now left | reflexivity].
      * exists [a]. split; [exists l; reflexivity |].
        split; [exact Hnot | discriminate].
    + injection Hrun as <- <-. split; [now right; right |].
      exists [a]. split; [exists l; reflexivity |].
      split; [exact Hnot | discriminate].
Qed.

End OneRequisition.
End TierFacts.

(* ===================================================================== *)
(** ** Properties of whole runs                                           *)
(* ===================================================================== *)

Module RunFacts.
Import Workflows RuntimeFacts TierFacts.

Lemma after_await_trace env ev d s :
  trace (after_await env ev d s) = trace s ++ [ev].
Proof.
  unfold trace. rewrite after_await_history, fmap_app. reflexivity.
Qed.

Section ApprovalRun.
Variable env : Env.
Variable requisition : Requisition.
Variables (code rid : string) (amount : Q).
Hypothesis Hcode : budget_code requisition = Some code.
Hypothesis Htotal : total requisition = Some amount.
Hypothesis Hbudget : budget_ok (validate_budget env code amount).

(** Up to the resolution of the chain. *)
Lemma run_prefix s0 :
  RequisitionApprovalWorkflow_run env requisition s0 =
    let s := after_await env (Activity (DetermineApprovers requisition)) 0
               (set_current_step "determining_approvers"
                  (after_await env (Activity (ValidateBudget code amount)) 0
                     (set_current_step "validating_budget" s0))) in
    match determine_approvers amount with
    | [] =>
        (modify (set_current_step "generating_po") ;;
         rid <- key "requisition_id" (requisition_id requisition) ;;
         po_number <- execute_activity env (GeneratePurchaseOrder rid)
                        (generate_purchase_order env rid) ;;
         return_ (auto_approved po_number)) s
    | approvers =>
        (modify (set_current_step "awaiting_approvals") ;;
         process_approvers env requisition approvers ;;
         modify set_approved ;;
         modify (set_current_step "generating_po") ;;
         rid <- key "requisition_id" (requisition_id requisition) ;;
         po_number <- execute_activity env (GeneratePurchaseOrder rid)
                        (generate_purchase_order env rid) ;;
         modify (set_current_step "sending_to_vendor") ;;
         let vendor := default "" (vendor_id requisition) in
         sent <- execute_activity env (SendPoToVendor po_number vendor)
                   (send_po_to_vendor env po_number vendor) ;;
         return_ (complete po_number sent)) s
    end.
Proof.
  destruct Hbudget as (available & Hav & Htruthy).
  unfold RequisitionApprovalWorkflow_run. rewrite Hcode, Htotal.
  unfold wf_bind at 1 2 3 4 5. cbn [modify key ret].
  rewrite execute_activity_eq.
  unfold lookup_item, item. rewrite Hav. cbn [ret]. rewrite Htruthy.
  cbn [negb]. unfold wf_bind at 1 2. cbn [modify].
  rewrite execute_activity_eq. cbv zeta.
  destruct (determine_approvers amount); reflexivity.
Qed.

Hypothesis Hrid : requisition_id requisition = Some rid.

(** The auto-approval path. *)
Lemma run_auto_approved s0 :
  determine_approvers amount = [] ->
  exists s',
    RequisitionApprovalWorkflow_run env requisition s0
    = (Returned (auto_approved (generate_purchase_order env rid)), s') /\
    trace s' = trace s0 ++ [Activity (ValidateBudget code amount);
                            Activity (DetermineApprovers requisition);
                            Activity (GeneratePurchaseOrder rid)].
Proof.
  intros Hchain. rewrite run_prefix. cbv zeta. rewrite Hchain.
  unfold wf_bind at 1 2. cbn [modify]. rewrite Hrid. cbn [key ret].
  unfold wf_bind at 1. rewrite execute_activity_eq.
  eexists. split; [reflexivity |].
  rewrite after_await_trace. unfold trace at 1.
  cbn [set_current_step history]. fold (trace (after_await env
    (Activity (DetermineApprovers requisition)) 0
    (set_current_step "determining_approvers"
       (after_await env (Activity (ValidateBudget code amount)) 0
          (set_current_step "validating_budget" s0))))).
  rewrite after_await_trace. unfold trace at 1.
  cbn [set_current_step history].
  fold (trace (after_await env (Activity (ValidateBudget code amount)) 0
                 (set_current_step "validating_budget" s0))).
  rewrite after_await_trace. unfold trace at 1.
  cbn [set_current_step history]. fold (trace s0).
  now rewrite <- !app_assoc.
Qed.

(** The path through the approval loop. *)
Lemma run_through_loop s0 :
  determine_approvers amount <> [] ->
  RequisitionApprovalWorkflow_run env requisition s0 =
    match process_approvers env requisition (determine_approvers amount)
            (at_loop_entry env requisition code amount s0) with
    | (Went _, s) =>
        (Returned (complete (generate_purchase_order env rid)
                     (send_po_to_vendor env
                        (generate_purchase_order env rid)
                        (default "" (vendor_id requisition)))),
         po_sent env requisition rid s)
    | (Returned r, s) => (Returned r, s)
    | (Raised e, s) => (Raised e, s)
    | (Diverged, s) => (Diverged, s)
    end.
Proof.
  intros Hchain. rewrite run_prefix. cbv zeta.
  destruct (determine_approvers amount) as [| a l]; [congruence |].
  unfold wf_bind at 1 2. cbn [modify].
  fold (at_loop_entry env requisition code amount s0).
  destruct (process_approvers env requisition (a :: l) _)
    as [[[] | r | e |] s]; try reflexivity.
  unfold wf_bind. cbn [modify]. rewrite Hrid. cbn [key ret].
  rewrite !execute_activity_eq. reflexivity.
Qed.

(** Without the urgency key the first tier raises right after its
    notification. *)
Lemma process_approvers_no_urgency a l s :
  urgency requisition = None ->
  exists s',
    process_approvers env requisition (a :: l) s
    = (Raised (KeyError "urgency"), s').
Proof.
  intros Hurg. cbn [process_approvers]. unfold wf_bind at 1.
  unfold process_approver. rewrite Hrid, Htotal, Hurg.
  unfold wf_bind, key. cbn [ret]. rewrite execute_activity_eq.
  eexists. reflexivity.
Qed.

(** A run that went through the loop and came out complete carries
    the outcome of the transmission. *)
Lemma run_complete_sent s0 r s' :
  determine_approvers amount <> [] ->
  RequisitionApprovalWorkflow_run env requisition s0 = (Returned r, s') ->
  r !! "status" = Some (VStr "complete") ->
  exists sent,
    r !! "sent_to_vendor" = Some (VBool sent) /\
    r !! "auto_approved" = None /\
    last (trace s')
    = Some (Activity (SendPoToVendor (generate_purchase_order env rid)
                        (default "" (vendor_id requisition)))).
Proof.
  intros Hchain Hrun Hstatus.
  rewrite run_through_loop in Hrun by exact Hchain.
  destruct (process_approvers env requisition _ _) as [o s] eqn:Hloop.
  destruct (urgency requisition) as [urg |] eqn:Hurg.
  - apply (process_approvers_shape env requisition rid amount urg
             Hrid Htotal Hurg) in Hloop
      as ([-> | [(a & reason & _ & ->) | ->]] & _).
    + injection Hrun as <- <-. eexists. split; [reflexivity |].
      split; [reflexivity |].
      unfold po_sent. rewrite after_await_trace. apply last_snoc.
    + injection Hrun as <- <-. discriminate Hstatus.
    + injection Hrun as <- <-. discriminate Hstatus.
  - destruct (determine_approvers amount) as [| a l]; [congruence |].
    destruct (process_approvers_no_urgency a l
                (at_loop_entry env requisition code amount s0)
                Hurg) as (s2 & Hraise).
    rewrite Hraise in Hloop. injection Hloop as <- <-. discriminate Hrun.
Qed.

(** C10. On the auto-approval path (empty approver chain) the run
    validates the budget, resolves the chain, generates the purchase
    order and returns status ["complete"] with [auto_approved] true; it
    never starts the vendor transmission and its result has no
    [sent_to_vendor] entry. A run through a non-empty chain that ends
    ["complete"] does end with the transmission and carries
    [sent_to_vendor]. *)
Theorem C10_auto_approval_skips_vendor_transmission s0 :
  (determine_approvers amount = [] ->
   exists r s',
     RequisitionApprovalWorkflow_run env requisition s0 = (Returned r, s') /\
     r !! "status" = Some (VStr "complete") /\
     r !! "po_number" = Some (VStr (generate_purchase_order env rid)) /\
     r !! "auto_approved" = Some (VBool true) /\
     r !! "sent_to_vendor" = None /\
     trace s' = trace s0 ++ [Activity (ValidateBudget code amount);
                             Activity (DetermineApprovers requisition);
                             Activity (GeneratePurchaseOrder rid)]) /\
  (determine_approvers amount <> [] ->
   forall r s',
     RequisitionApprovalWorkflow_run env requisition s0 = (Returned r, s') ->
     r !! "status" = Some (VStr "complete") ->
     exists sent,
       r !! "sent_to_vendor" = Some (VBool sent) /\
       r !! "auto_approved" = None /\
       last (trace s')
       = Some (Activity (SendPoToVendor (generate_purchase_order env rid)
                           (default "" (vendor_id requisition))))).
Proof.
  split.
  - intros Hchain.
    destruct (run_auto_approved s0 Hchain) as (s' & Hrun & Htrace).
    exists (auto_approved (generate_purchase_order env rid)), s'.
    repeat split; try assumption; reflexivity.
  - intros Hchain r s'. now apply run_complete_sent.
Qed.

End ApprovalRun.

Import WorkflowScenarios.

Lemma quiet_budget_ok code amount :
  budget_ok (validate_budget quiet code amount).
Proof. exists (VBool true). split; reflexivity. Qed.

(** The design document's scenario: a requisition of 300. *)
Lemma C10_auto_approval_witness :
  exists r s',
    RequisitionApprovalWorkflow_run quiet (requisition_of 300 "standard")
      (init 0) = (Returned r, s') /\
    r !! "status" = Some (VStr "complete") /\
    r !! "po_number" = Some (VStr "PO-000123") /\
    r !! "auto_approved" = Some (VBool true) /\
    r !! "sent_to_vendor" = None /\
    trace s' = [Activity (ValidateBudget "CHEM-2024-001" 300);
                Activity (DetermineApprovers (requisition_of 300 "standard"));
                Activity (GeneratePurchaseOrder "REQ-2024-000123")].
Proof.
  destruct (C10_auto_approval_skips_vendor_transmission quiet
              (requisition_of 300 "standard") "CHEM-2024-001"
              "REQ-2024-000123" 300 eq_refl eq_refl
              (quiet_budget_ok _ _) eq_refl (init 0)) as [Hauto _].
  apply Hauto. reflexivity.
Defined.

(** C6 (as the code has it). The run validates nothing itself. A
    requisition without the [budget_code] key makes it raise [KeyError]
    before any step is started. A non-positive total is not refused:
    once the budget collaborator lets it through, the chain resolves to
    no approver and the requisition is auto-approved with a purchase
    order. *)
Theorem C6_no_validation_of_requisition_fields env requisition s0 :
  (budget_code requisition = None ->
   RequisitionApprovalWorkflow_run env requisition s0
   = (Raised (KeyError "budget_code"),
      set_current_step "validating_budget" s0)) /\
  (forall code rid amount,
      budget_code requisition = Some code ->
      total requisition = Some amount ->
      requisition_id requisition = Some rid ->
      budget_ok (validate_budget env code amount) ->
      (amount <= 0)%Q ->
      exists s',
        RequisitionApprovalWorkflow_run env requisition s0
        = (Returned (auto_approved (generate_purchase_order env rid)), s') /\
        trace s' = trace s0 ++ [Activity (ValidateBudget code amount);
                                Activity (DetermineApprovers requisition);
                                Activity (GeneratePurchaseOrder rid)]).
Proof.
  split.
  - intros Hcode. unfold RequisitionApprovalWorkflow_run.
    rewrite Hcode. reflexivity.
  - intros code rid amount Hcode Htotal Hrid Hbudget Hle.
    apply (run_auto_approved env requisition code rid amount
             Hcode Htotal Hbudget Hrid).
    apply chain_le_500. lra.
Qed.

Lemma C6_no_validation_witness :
  RequisitionApprovalWorkflow_run quiet no_budget_code (init 0)
  = (Raised (KeyError "budget_code"),
     set_current_step "validating_budget" (init 0)) /\
  exists s',
    RequisitionApprovalWorkflow_run quiet negative_total (init 0)
    = (Returned (auto_approved "PO-000123"), s').
Proof.
  split.
  - apply (C6_no_validation_of_requisition_fields quiet no_budget_code
             (init 0)). reflexivity.
  - destruct (C6_no_validation_of_requisition_fields quiet negative_total
                (init 0)) as [_ Hneg].
    destruct (Hneg "CHEM-2024-001" "REQ-2024-000123" (-5)%Q
                eq_refl eq_refl eq_refl (quiet_budget_ok _ _)
                ltac:(lra)) as (s' & Hrun & _).
    exists s'. exact Hrun.
Defined.

(** C6 (as stated) fails: a requisition with total -5 does not make the
    run fail; it is auto-approved. *)
Lemma C6_negative_total_is_auto_approved :
  ~ (forall env requisition s0,
        (budget_code requisition = None \/
         exists amount, total requisition = Some amount /\ (amount <= 0)%Q) ->
        exists e s',
          RequisitionApprovalWorkflow_run env requisition s0 = (Raised e, s')).
Proof.
  intros H.
  destruct (H quiet negative_total (init 0)) as (e & s' & Hrun).
  { right. exists (-5)%Q. split; [reflexivity | lra]. }
  assert (Hfst : fst (RequisitionApprovalWorkflow_run quiet negative_total
                        (init 0))
                 = Returned (auto_approved "PO-000123"))
    by (vm_compute; reflexivity).
  rewrite Hrun in Hfst. discriminate Hfst.
Qed.

(** *** The invoice run *)

Section InvoiceRun.
Variable env : Env.
Variable invoice_id : string.

Let invoice := parse_invoice env invoice_id.
Let po_match := find_matching_po env invoice.

Lemma invoice_run_no_match found s0 :
  po_match !! "found" = Some found ->
  truthy found = false ->
  exists s',
    InvoiceValidationWorkflow_run env invoice_id s0
    = (Returned (no_po_match invoice_id), s') /\
    trace s' = trace s0 ++ [Activity (ParseInvoice invoice_id);
                            Activity (FindMatchingPo invoice)].
Proof.
  intros Hfound Hfalsy. unfold InvoiceValidationWorkflow_run.
  unfold wf_bind at 1 2 3. rewrite !execute_activity_eq.
  unfold lookup_item, item. fold invoice. fold po_match.
  rewrite Hfound. cbn [ret]. rewrite Hfalsy. cbn [negb return_].
  eexists. split; [reflexivity |].
  rewrite !after_await_trace, <- app_assoc. reflexivity.
Qed.

Variables (found po_number : value).
Hypothesis Hfound : po_match !! "found" = Some found.
Hypothesis Htruthy : truthy found = true.
Hypothesis Hpo : po_match !! "po_number" = Some po_number.

Let line_matches := match_invoice_lines env invoice po_number.
Let price_validation := validate_contract_prices env invoice line_matches.
Let receipt_check := verify_receipts env invoice po_number.

Variables (all_matched all_valid all_received : value).
Hypothesis Hmatched : line_matches !! "all_matched" = Some all_matched.
Hypothesis Hvalid : price_validation !! "all_valid" = Some all_valid.
Hypothesis Hreceived : receipt_check !! "all_received" = Some all_received.

Lemma invoice_run_matched s0 :
  InvoiceValidationWorkflow_run env invoice_id s0 =
    let s := after_await env (Activity (VerifyReceipts invoice po_number)) 0
               (after_await env
                  (Activity (ValidateContractPrices invoice line_matches)) 0
                  (after_await env
                     (Activity (MatchInvoiceLines invoice po_number)) 0
                     (after_await env (Activity (FindMatchingPo invoice)) 0
                        (after_await env
                           (Activity (ParseInvoice invoice_id)) 0 s0)))) in
    if truthy all_matched && truthy all_valid && truthy all_received then
      (Returned invoice_approved,
       after_await env (Activity (ApproveInvoice invoice_id)) 0 s)
    else
      (Returned
         (invoice_exception
            (create_exception env invoice_id line_matches price_validation
               receipt_check)
            line_matches price_validation receipt_check),
       after_await env
         (Activity (CreateException invoice_id line_matches
                      price_validation receipt_check)) 0 s).
Proof.
  unfold InvoiceValidationWorkflow_run.
  unfold wf_bind at 1 2 3. rewrite !execute_activity_eq.
  fold invoice. fold po_match.
  unfold lookup_item at 1, item. rewrite Hfound. cbn [ret].
  rewrite Htruthy. cbn [negb].
  unfold wf_bind at 1. unfold lookup_item at 1, item. rewrite Hpo.
  cbn [ret].
  unfold wf_bind at 1 2 3. rewrite !execute_activity_eq.
  fold line_matches. fold price_validation.
  unfold lookup_item at 1, item. rewrite Hpo. cbn [ret].
  unfold wf_bind at 1 2. rewrite execute_activity_eq.
  fold receipt_check. cbv zeta.
  unfold all_checks_pass, wf_bind at 1. unfold wf_bind at 1.
  unfold lookup_item at 1, item. rewrite Hmatched. cbn [ret].
  destruct (truthy all_matched); cbn [andb].
  2:{ cbn [ret]. unfold wf_bind. now rewrite execute_activity_eq. }
  unfold wf_bind at 1.
  unfold lookup_item at 1, item. rewrite Hvalid. cbn [ret].
  destruct (truthy all_valid); cbn [andb].
  2:{ cbn [ret]. unfold wf_bind. now rewrite execute_activity_eq. }
  unfold wf_bind at 1.
  unfold lookup_item at 1, item. rewrite Hreceived. cbn [ret].
  destruct (truthy all_received); cbn [andb];
    unfold wf_bind; now rewrite execute_activity_eq.
Qed.

End InvoiceRun.

(** C7. An invoice run for which no purchase order is found ends
    [no_po_match], flagged for manual review, having only parsed the
    invoice and searched for the order. When an order is found, the run
    matches the lines, validates the contract prices and verifies the
    receipts; it ends [approved] exactly when the three checks pass, and
    otherwise ends [exception] with the exception record and the issues
    of the three checks side by side. *)
Theorem C7_invoice_three_way_match env invoice_id s0 :
  let invoice := parse_invoice env invoice_id in
  let po_match := find_matching_po env invoice in
  (forall found,
      po_match !! "found" = Some found ->
      truthy found = false ->
      exists r s',
        InvoiceValidationWorkflow_run env invoice_id s0 = (Returned r, s') /\
        r !! "status" = Some (VStr "no_po_match") /\
        r !! "requires_manual_review" = Some (VBool true) /\
        trace s' = trace s0 ++ [Activity (ParseInvoice invoice_id);
                                Activity (FindMatchingPo invoice)]) /\
  (forall found po_number all_matched all_valid all_received,
      let line_matches := match_invoice_lines env invoice po_number in
      let price_validation :=
        validate_contract_prices env invoice line_matches in
      let receipt_check := verify_receipts env invoice po_number in
      let checks :=
        [Activity (ParseInvoice invoice_id);
         Activity (FindMatchingPo invoice);
         Activity (MatchInvoiceLines invoice po_number);
         Activity (ValidateContractPrices invoice line_matches);
         Activity (VerifyReceipts invoice po_number)] in
      po_match !! "found" = Some found ->
      truthy found = true ->
      po_match !! "po_number" = Some po_number ->
      line_matches !! "all_matched" = Some all_matched ->
      price_validation !! "all_valid" = Some all_valid ->
      receipt_check !! "all_received" = Some all_received ->
      exists r s',
        InvoiceValidationWorkflow_run env invoice_id s0 = (Returned r, s') /\
        (r !! "status" = Some (VStr "approved") <->
           truthy all_matched && truthy all_valid && truthy all_received
           = true) /\
        (truthy all_matched && truthy all_valid && truthy all_received = true ->
         r = invoice_approved /\
         trace s' = trace s0 ++ checks ++ [Activity (ApproveInvoice invoice_id)]) /\
        (truthy all_matched && truthy all_valid && truthy all_received = false ->
         r !! "status" = Some (VStr "exception") /\
         r !! "exception_id"
         = Some (VStr (create_exception env invoice_id line_matches
                         price_validation receipt_check)) /\
         r !! "issues"
         = Some (VDict
                   {[ "line_mismatches" :=
                        get_default line_matches "mismatches" (VList []);
                      "price_violations" :=
                        get_default price_validation "violations" (VList []);
                      "receipt_issues" :=
                        get_default receipt_check "issues" (VList []) ]}) /\
         trace s' = trace s0 ++ checks
                    ++ [Activity (CreateException invoice_id line_matches
                                    price_validation receipt_check)])).
Proof.
  intros invoice po_match. split.
  - intros found Hfound Hfalsy.
    destruct (invoice_run_no_match env invoice_id found s0 Hfound Hfalsy)
      as (s' & Hrun & Htrace).
    exists (no_po_match invoice_id), s'.
    repeat split; try assumption; reflexivity.
  - intros found po_number all_matched all_valid all_received
      line_matches price_validation receipt_check checks
      Hfound Htruthy Hpo Hmatched Hvalid Hreceived.
    rewrite (invoice_run_matched env invoice_id found po_number
               Hfound Htruthy Hpo all_matched all_valid all_received
               Hmatched Hvalid Hreceived s0).
    cbv zeta. fold invoice. fold line_matches. fold price_validation.
    fold receipt_check.
    destruct (truthy all_matched && truthy all_valid && truthy all_received).
    + eexists _, _. split; [reflexivity |]. split; [easy |].
      split; [| discriminate]. intros _. split; [reflexivity |].
      rewrite !after_await_trace, <- !app_assoc. reflexivity.
    + eexists _, _. split; [reflexivity |].
      split; [split; discriminate |].
      split; [discriminate |]. intros _.
      repeat split.
      rewrite !after_await_trace, <- !app_assoc. reflexivity.
Qed.

(** An invoice without a purchase order, and one whose goods were not
    received. *)
Lemma C7_invoice_three_way_match_witness :
  (exists r s',
      InvoiceValidationWorkflow_run no_po_found "INV-000042" (init 0)
      = (Returned r, s') /\
      r !! "status" = Some (VStr "no_po_match") /\
      length (trace s') = 2%nat) /\
  (exists r s',
      InvoiceValidationWorkflow_run goods_missing "INV-000042" (init 0)
      = (Returned r, s') /\
      r !! "status" = Some (VStr "exception") /\
      r !! "issues"
      = Some (VDict {[ "line_mismatches" := VList [];
                       "price_violations" := VList [];
                       "receipt_issues" :=
                         VList [VStr "line 2 not received"] ]})).
Proof.
  split.
  - destruct (C7_invoice_three_way_match no_po_found "INV-000042" (init 0))
      as [Hno _].
    destruct (Hno (VBool false) eq_refl eq_refl)
      as (r & s' & Hrun & Hstatus & _ & Htrace).
    exists r, s'. split; [exact Hrun |]. split; [exact Hstatus |].
    now rewrite Htrace.
  - destruct (C7_invoice_three_way_match goods_missing "INV-000042" (init 0))
      as [_ Hfound].
    destruct (Hfound (VBool true) (VStr "PO-123456") (VBool true)
                (VBool true) (VBool false)
                eq_refl eq_refl eq_refl eq_refl eq_refl eq_refl)
      as (r & s' & Hrun & _ & _ & Hexc).
    destruct (Hexc eq_refl) as (Hstatus & _ & Hissues & _).
    exists r, s'. split; [exact Hrun |]. split; [exact Hstatus |].
    exact Hissues.
Defined.

End RunFacts.

(* ===================================================================== *)
(** ** Properties of the approval run: deadlines, decisions, escalation   *)
(* ===================================================================== *)

Module ApprovalFacts.
Import Workflows RuntimeFacts TierFacts RunFacts WorkflowScenarios.

Lemma sla_hours_of_standard : sla_hours_of "standard" = 48%N.
Proof. reflexivity. Qed.

Lemma sla_hours_of_other urg : urg <> "standard" -> sla_hours_of urg = 8%N.
Proof.
  intros Hne. unfold sla_hours_of.
  destruct (String.eqb_spec urg "standard"); [contradiction | reflexivity].
Qed.

(** The approvers of a chain are pairwise distinct. *)
Lemma chain_ids_NoDup amount :
  NoDup (approver_id <$> determine_approvers amount).
Proof.
  destruct (chain_is_take amount) as (n & Hn & ->).
  do 5 (destruct n as [| n];
        [apply (bool_decide_unpack _); vm_compute; exact I |]).
  lia.
Qed.

Section AtTier.
Variable env : Env.
Variable requisition : Requisition.
Variables (code rid urg : string) (amount : Q).
Hypothesis Hcode : budget_code requisition = Some code.
Hypothesis Htotal : total requisition = Some amount.
Hypothesis Hrid : requisition_id requisition = Some rid.
Hypothesis Hurgency : urgency requisition = Some urg.
Hypothesis Hbudget : budget_ok (validate_budget env code amount).

(** The chain, and the tier [a] the run has reached in state [s],
    every tier of [pre] having let it through. *)
Variables (pre rest : list approver) (a : approver).
Hypothesis Hchain : determine_approvers amount = pre ++ a :: rest.
Variables (t0 : N) (s : wf_state).
Hypothesis Hpre :
  process_approvers env requisition pre
    (at_loop_entry env requisition code amount (init t0))
  = (Went tt, s).

Let deadline := tier_deadline env rid a amount urg s.
Let s2 := wait_start env rid a amount urg s.

Lemma run_at_tier :
  RequisitionApprovalWorkflow_run env requisition (init t0) =
    match process_approvers env requisition (a :: rest) s with
    | (Went _, s') =>
        (Returned (complete (generate_purchase_order env rid)
                     (send_po_to_vendor env
                        (generate_purchase_order env rid)
                        (default "" (vendor_id requisition)))),
         po_sent env requisition rid s')
    | (Returned r, s') => (Returned r, s')
    | (Raised e, s') => (Raised e, s')
    | (Diverged, s') => (Diverged, s')
    end.
Proof.
  rewrite (run_through_loop env requisition code rid amount
             Hcode Htotal Hbudget Hrid).
  - rewrite Hchain.
    now rewrite (process_approvers_app env requisition pre (a :: rest)
                   _ s Hpre).
  - rewrite Hchain. now destruct pre.
Qed.

Lemma notified_at_tier :
  notified (history s) = (VStr ∘ approver_id) <$> pre.
Proof.
  destruct (process_approvers_shape env requisition rid amount urg
              Hrid Htotal Hurgency pre _ _ _ Hpre)
    as (_ & entered & _ & Hn & Hall).
  rewrite (Hall eq_refl) in Hn. rewrite Hn.
  unfold at_loop_entry. cbn [set_current_step history].
  rewrite after_await_history. cbn [set_current_step history].
  rewrite after_await_history. reflexivity.
Qed.

Lemma rest_not_in_entered b :
  b ∈ rest ->
  VStr (approver_id b) ∉ (VStr ∘ approver_id) <$> (pre ++ [a]).
Proof.
  intros Hb Hin.
  pose proof (chain_ids_NoDup amount) as Hnd.
  rewrite Hchain in Hnd.
  replace (pre ++ a :: rest) with ((pre ++ [a]) ++ rest) in Hnd
    by now rewrite <- app_assoc.
  rewrite fmap_app in Hnd. apply NoDup_app in Hnd as (_ & Hdisj & _).
  apply list_elem_of_fmap in Hin as (c & Heq & Hc).
  cbn in Heq. injection Heq as Heq.
  apply (Hdisj (approver_id b)).
  - rewrite Heq. now apply list_elem_of_fmap_2.
  - now apply list_elem_of_fmap_2.
Qed.

Lemma s2_history :
  history s2
  = history s
    ++ [(now s,
         Activity (SendApprovalNotification (approval_request rid a amount)))].
Proof.
  unfold s2, wait_start, notified_state. cbn [note_deadline history].
  now rewrite after_await_history.
Qed.

Lemma fuel_covers n :
  (now (after_polls env rid n s2) < deadline)%N ->
  exists fuel, poll_fuel (sla_hours_of urg) = (n + S fuel)%nat.
Proof.
  intros Hlt.
  pose proof (after_polls_now env rid n s2) as Hnow.
  pose proof (poll_fuel_enough env rid amount urg a s) as Hfuel.
  fold deadline in Hfuel. fold s2 in Hfuel.
  unfold check_interval, minutes in *.
  exists (poll_fuel (sla_hours_of urg) - n - 1)%nat. lia.
Qed.

(** The events of the tier up to and including a status check made
    after [n] undecided rounds are the notification and polling. *)
Lemma notified_after_check n :
  notified (history (after_check env rid (after_polls env rid n s2)))
  = (VStr ∘ approver_id) <$> (pre ++ [a]).
Proof.
  unfold after_check. rewrite after_await_history.
  destruct (after_polls_history env rid n s2) as (evs & -> & Hevs).
  rewrite s2_history, !notified_app, notified_at_tier,
    (notified_polls rid evs Hevs), fmap_app.
  cbn. rewrite approval_request_approver_id. now rewrite !app_nil_r.
Qed.

(** C4. The run has reached tier [a]. If, after [n] undecided rounds
    of polling, a status check made before the tier's deadline
    reports a rejection (and no approval), the run ends there with
    status ["rejected"], the reason and the tier's approver; that
    check is its last operation, and no approver of a later tier is
    ever notified. *)
Theorem C4_rejection_ends_run (n : nat) :
  (forall i, (i < n)%nat ->
             (now (after_polls env rid i s2) < deadline)%N /\
             undecided (status_at env rid (after_polls env rid i s2))) ->
  let sn := after_polls env rid n s2 in
  let status := status_at env rid sn in
  (now sn < deadline)%N ->
  truthy (get status "approved") = false ->
  truthy (get status "rejected") = true ->
  let reason := get_default status "reason" (VStr "Rejected by approver") in
  let final := set_rejected reason (after_check env rid sn) in
  RequisitionApprovalWorkflow_run env requisition (init t0)
  = (Returned (rejected_by reason a), final) /\
  rejected_by reason a !! "status" = Some (VStr "rejected") /\
  rejected_by reason a !! "reason" = Some reason /\
  rejected_by reason a !! "approver" = Some (VStr (approver_id a)) /\
  last (trace final) = Some (Activity (CheckApprovalStatus rid)) /\
  notified (history final) = (VStr ∘ approver_id) <$> (pre ++ [a]) /\
  (forall b, b ∈ rest -> VStr (approver_id b) ∉ notified (history final)).
Proof.
  intros Hund sn status Hlt Happ Hrej reason final.
  assert (Hnot : notified (history final)
                 = (VStr ∘ approver_id) <$> (pre ++ [a])).
  { unfold final. cbn [set_rejected history]. apply notified_after_check. }
  split; [| repeat split; try reflexivity].
  - rewrite run_at_tier, process_approvers_cons.
    rewrite (process_approver_eq env requisition rid amount urg
               Hrid Htotal Hurgency).
    cbv zeta. fold deadline. fold s2.
    destruct (fuel_covers n Hlt) as (fuel & ->).
    rewrite (poll_loop_after_polls env deadline rid a n (S fuel) s2 Hund).
    fold sn.
    now rewrite (poll_loop_rejected env fuel deadline rid a sn Hlt Happ Hrej).
  - unfold final, trace. cbn [set_rejected history].
    unfold after_check. rewrite after_await_history, fmap_app.
    apply last_snoc.
  - exact Hnot.
  - intros b Hb. rewrite Hnot. now apply rest_not_in_entered.
Qed.

(** C9 (as the code has it). The run has reached tier [a]. If a status
    check made before the deadline reports an approval, the tier
    counts as approved whether or not the same status also reports a
    rejection: [approved] is tested first. The polling stops, no
    rejection is returned, and (the check having completed before the
    deadline) the run goes on with the next tier, or with the purchase
    order when there is none. *)
Theorem C9_approval_is_tested_first (n : nat) :
  (forall i, (i < n)%nat ->
             (now (after_polls env rid i s2) < deadline)%N /\
             undecided (status_at env rid (after_polls env rid i s2))) ->
  let sn := after_polls env rid n s2 in
  let status := status_at env rid sn in
  (now sn < deadline)%N ->
  truthy (get status "approved") = true ->
  (now (after_check env rid sn) < deadline)%N ->
  RequisitionApprovalWorkflow_run env requisition (init t0) =
    match process_approvers env requisition rest (after_check env rid sn) with
    | (Went _, s') =>
        (Returned (complete (generate_purchase_order env rid)
                     (send_po_to_vendor env
                        (generate_purchase_order env rid)
                        (default "" (vendor_id requisition)))),
         po_sent env requisition rid s')
    | (Returned r, s') => (Returned r, s')
    | (Raised e, s') => (Raised e, s')
    | (Diverged, s') => (Diverged, s')
    end.
Proof.
  intros Hund sn status Hlt Happ Hbefore.
  rewrite run_at_tier, process_approvers_cons.
  rewrite (process_approver_eq env requisition rid amount urg
             Hrid Htotal Hurgency).
  cbv zeta. fold deadline. fold s2.
  destruct (fuel_covers n Hlt) as (fuel & ->).
  rewrite (poll_loop_after_polls env deadline rid a n (S fuel) s2 Hund).
  fold sn.
  rewrite (poll_loop_approved env fuel deadline rid a sn Hlt Happ).
  destruct (N.leb_spec deadline (now (after_check env rid sn))); [lia |].
  reflexivity.
Qed.

(** C3 (as the code has it). The run has reached tier [a]. If the
    status checks of this tier (those made from the start of its wait
    on) report no decision before the tier's deadline, and no approval
    once the grace period is over, the tier polls until the deadline
    has passed, sends exactly one escalation, sleeps four hours, checks
    the status once more and the run ends ["escalated_timeout"]. No
    approver of a later tier is notified. What the store replied to the
    checks of earlier tiers does not matter. *)
Theorem C3_single_escalation_then_timeout :
  (forall k t, (length (history s2) <= k)%nat ->
               (now s2 <= t < deadline)%N ->
               undecided (check_approval_status env k t rid)) ->
  (forall k t, (length (history s2) <= k)%nat ->
               (deadline + hours 4 <= t)%N ->
               truthy (get (check_approval_status env k t rid) "approved")
               = false) ->
  exists polls t1 t2 t3 final,
    RequisitionApprovalWorkflow_run env requisition (init t0)
    = (Returned escalated_timeout, final) /\
    history final =
      history s
      ++ [(now s,
           Activity (SendApprovalNotification (approval_request rid a amount)))]
      ++ polls
      ++ [(t1, Activity (EscalateApproval (approval_request rid a amount)));
          (t2, Sleep (hours 4));
          (t3, Activity (CheckApprovalStatus rid))] /\
    Forall (is_poll rid) polls /\
    (deadline <= t1 /\ t1 <= t2 /\ t2 + hours 4 <= t3)%N /\
    escalations (history final) = S (escalations (history s)) /\
    (forall b, b ∈ rest -> VStr (approver_id b) ∉ notified (history final)).
Proof.
  intros Hquiet Hgrace.
  destruct (poll_loop_waits_out env deadline rid a
              (length (history s2)) (now s2)
              (poll_fuel (sla_hours_of urg)) Hquiet s2)
    as (s3 & polls & Hloop & Hs3 & Hh & Hpolls).
  { lia. }
  { lia. }
  { apply poll_fuel_enough. }
  set (s5 := after_grace env rid a amount s3).
  assert (Hs5 : (deadline + hours 4 <= now s5)%N).
  { pose proof (after_grace_now env rid amount a s3). fold s5 in H. lia. }
  assert (Hk5 : (length (history s2) <= length (history s5))%nat).
  { unfold s5, after_grace. rewrite !after_await_history, Hh, !length_app.
    lia. }
  assert (Hfinal : history (after_check env rid s5)
            = history s
              ++ [(now s,
                   Activity (SendApprovalNotification
                               (approval_request rid a amount)))]
              ++ polls
              ++ [(now s3,
                   Activity (EscalateApproval (approval_request rid a amount)));
                  (now (after_await env
                          (Activity (EscalateApproval
                                       (approval_request rid a amount))) 0 s3),
                   Sleep (hours 4));
                  (now s5, Activity (CheckApprovalStatus rid))]).
  { unfold after_check, s5, after_grace.
    rewrite !after_await_history, Hh, s2_history, <- !app_assoc.
    reflexivity. }
  exists polls, (now s3),
    (now (after_await env
            (Activity (EscalateApproval (approval_request rid a amount)))
            0 s3)),
    (now s5), (after_check env rid s5).
  split; [| split; [exact Hfinal | split; [exact Hpolls |]]].
  - rewrite run_at_tier, process_approvers_cons.
    rewrite (process_approver_eq env requisition rid amount urg
               Hrid Htotal Hurgency).
    cbv zeta. fold deadline. fold s2. rewrite Hloop.
    destruct (N.leb_spec deadline (now s3)); [| lia].
    fold s5. unfold status_at. now rewrite (Hgrace _ _ Hk5 Hs5).
  - split.
    { unfold s5, after_grace. rewrite !after_await_now. lia. }
    split.
    { rewrite Hfinal, !escalations_app, (escalations_polls rid polls Hpolls).
      cbn. lia. }
    intros b Hb. rewrite Hfinal, !notified_app, notified_at_tier,
      (notified_polls rid polls Hpolls).
    change (notified [(now s, _)]) with [VStr (approver_id a)].
    change (notified [(now s3, _); _; _]) with (@nil value).
    rewrite !app_nil_r.
    change [VStr (approver_id a)] with (VStr ∘ approver_id <$> [a]).
    rewrite <- fmap_app. now apply rest_not_in_entered.
Qed.

End AtTier.

(** C5 (as the code has it). The deadline of a tier is computed when the
    tier is entered: it is the workflow time at which the tier's wait
    starts, that is the time at which the notification of its approver
    has completed, plus the SLA of the requisition's urgency, 48 hours
    for ["standard"] and 8 hours for ["rush"] and ["emergency"]. *)
Theorem C5_deadline_is_wait_start_plus_sla env requisition rid amount urg a s :
  requisition_id requisition = Some rid ->
  total requisition = Some amount ->
  urgency requisition = Some urg ->
  let wait_start_time := now (notified_state env rid a amount s) in
  deadlines (snd (process_approver env requisition a s))
  = deadlines s ++ [(a, (wait_start_time + hours (sla_hours_of urg))%N)] /\
  wait_start_time = (now s + lag env (length (history s)))%N /\
  (urg = "standard" -> sla_hours_of urg = 48%N) /\
  (urg = "rush" \/ urg = "emergency" -> sla_hours_of urg = 8%N).
Proof.
  intros Hrid Htotal Hurg wait_start_time.
  destruct (process_approver env requisition a s) as [o s'] eqn:Hrun.
  apply (process_approver_shape env requisition rid amount urg
           Hrid Htotal Hurg) in Hrun as (_ & Hd & _).
  split; [exact Hd |]. split.
  - unfold wait_start_time, notified_state. rewrite after_await_now. lia.
  - split; [now intros -> |].
    intros [-> | ->]; reflexivity.
Qed.

Lemma with_store_budget_ok store sgs code amount :
  budget_ok (validate_budget (with_store store sgs) code amount).
Proof. exists (VBool true). split; reflexivity. Qed.

(** The manager's tier of a rush requisition entered at time 0. *)
Lemma C5_deadline_witness :
  deadlines
    (snd (process_approver quiet (requisition_of 1200 "rush") manager
            (at_loop_entry quiet (requisition_of 1200 "rush")
               "CHEM-2024-001" 1200 (init 0))))
  = [(manager, 28800%N)].
Proof.
  apply (C5_deadline_is_wait_start_plus_sla quiet
           (requisition_of 1200 "rush") "REQ-2024-000123" 1200 "rush"
           manager
           (at_loop_entry quiet (requisition_of 1200 "rush")
              "CHEM-2024-001" 1200 (init 0))
           eq_refl eq_refl eq_refl).
Defined.

(** C5 (as stated) fails: in a run started at time 0 whose manager
    approves after fifteen minutes, the director's deadline is 48 hours
    after that, not 48 hours after the start of the run. *)
Lemma C5_later_tier_deadline_not_from_run_start :
  ~ (forall env requisition urg t0 a deadline,
        urgency requisition = Some urg ->
        (a, deadline)
          ∈ deadlines
              (snd (RequisitionApprovalWorkflow_run env requisition (init t0))) ->
        deadline = (t0 + hours (sla_hours_of urg))%N).
Proof.
  intros H.
  specialize (H approved_after_15min (requisition_of 6000 "standard")
                "standard" 0%N director 173700%N eq_refl).
  assert (Hd : deadlines
                 (snd (RequisitionApprovalWorkflow_run approved_after_15min
                         (requisition_of 6000 "standard") (init 0)))
               = [(manager, 172800%N); (director, 173700%N)])
    by (vm_compute; reflexivity).
  rewrite Hd in H.
  assert (Hin : (director, 173700%N)
                  ∈ [(manager, 172800%N); (director, 173700%N)])
    by (right; left).
  specialize (H Hin). vm_compute in H. discriminate H.
Qed.

(** The design document's rejection scenario on a requisition of 30000:
    the manager approves, the director rejects at the second check, the
    vp is never notified. *)
Lemma C4_rejection_ends_run_witness :
  exists final,
    RequisitionApprovalWorkflow_run director_rejects
      (requisition_of 30000 "standard") (init 0)
    = (Returned (rejected_by (VStr "Over the equipment budget") director),
       final) /\
    notified (history final) = [VStr "manager_001"; VStr "director_001"] /\
    VStr "vp_001" ∉ notified (history final).
Proof.
  pose (entry := at_loop_entry director_rejects
                   (requisition_of 30000 "standard") "CHEM-2024-001"
                   30000 (init 0)).
  pose (s := snd (process_approvers director_rejects
                    (requisition_of 30000 "standard") [manager] entry)).
  assert (Hpre : process_approvers director_rejects
                   (requisition_of 30000 "standard") [manager] entry
                 = (Went tt, s)) by (vm_compute; reflexivity).
  destruct (C4_rejection_ends_run director_rejects
              (requisition_of 30000 "standard") "CHEM-2024-001"
              "REQ-2024-000123" "standard" 30000
              eq_refl eq_refl eq_refl eq_refl (with_store_budget_ok _ _ _ _)
              [manager] [vp] director eq_refl 0%N s Hpre 1%nat)
    as (Hrun & _ & _ & _ & _ & Hnot & Hrest).
  - intros i Hi. assert (i = 0%nat) as -> by lia.
    split; [vm_compute; reflexivity |].
    split; vm_compute; reflexivity.
  - vm_compute; reflexivity.
  - vm_compute; reflexivity.
  - vm_compute; reflexivity.
  - eexists. split.
    { rewrite Hrun. f_equal. }
    split; [exact Hnot |].
    apply (Hrest vp). now left.
Defined.

(** C4 (as written) does not hold when the rejection is observed as a
    signal. Take a rejection that is signalled to the workflow while it
    waits on a status check, at a time before the deadline of every tier
    the run enters. On a run whose store never reports a decision the
    run does not end rejected: it polls on and ends
    ["escalated_timeout"]. *)
Lemma C4_rejection_signal_does_not_end_run :
  ~ (forall env requisition rid t0 k sg t,
        let outcome :=
          RequisitionApprovalWorkflow_run env requisition (init t0) in
        requisition_id requisition = Some rid ->
        sg ∈ signals env k ->
        signal_approved sg = false ->
        history (snd outcome) !! k
        = Some (t, Activity (CheckApprovalStatus rid)) ->
        Forall (fun tier => (t < tier.2)%N) (deadlines (snd outcome)) ->
        exists reason a, fst outcome = Returned (rejected_by reason a)).
Proof.
  intros H.
  destruct (H MoreWorkflowScenarios.rejection_signalled
              (requisition_of 1200 "rush") "REQ-2024-000123" 0%N 3%nat
              {| signal_approver_id := "manager_001";
                 signal_approved := false;
                 signal_reason := VStr "Over the equipment budget" |} 0%N)
    as (reason & a & Hrun).
  - reflexivity.
  - now left.
  - reflexivity.
  - vm_compute. reflexivity.
  - vm_compute. constructor; [reflexivity | constructor].
  - assert (Hfst : fst (RequisitionApprovalWorkflow_run
                          MoreWorkflowScenarios.rejection_signalled
                          (requisition_of 1200 "rush") (init 0))
                   = Returned escalated_timeout)
      by (vm_compute; reflexivity).
    rewrite Hrun in Hfst.
    apply (f_equal (fun f : flow Empty_set =>
                      match f with
                      | Returned r => r !! "status"
                      | _ => None
                      end)) in Hfst.
    change (Some (VStr "rejected") = Some (VStr "escalated_timeout")) in Hfst.
    discriminate Hfst.
Qed.

(** A rush requisition of 6000 that nobody decides: the manager's tier
    escalates once and times out; the director is never notified. *)
(** The director's tier of a run whose manager approved at once. *)
Lemma C3_single_escalation_witness :
  exists final,
    RequisitionApprovalWorkflow_run MoreWorkflowScenarios.manager_approves_only
      (requisition_of 30000 "rush") (init 0)
    = (Returned escalated_timeout, final) /\
    escalations (history final) = 1%nat /\
    VStr "vp_001" ∉ notified (history final).
Proof.
  pose (env := MoreWorkflowScenarios.manager_approves_only).
  pose (entry := at_loop_entry env (requisition_of 30000 "rush")
                   "CHEM-2024-001" 30000 (init 0)).
  pose (s := snd (process_approvers env (requisition_of 30000 "rush")
                    [manager] entry)).
  assert (Hpre : process_approvers env (requisition_of 30000 "rush")
                   [manager] entry
                 = (Went tt, s)) by (vm_compute; reflexivity).
  destruct (C3_single_escalation_then_timeout env
              (requisition_of 30000 "rush") "CHEM-2024-001"
              "REQ-2024-000123" "rush" 30000
              eq_refl eq_refl eq_refl eq_refl (with_store_budget_ok _ _ _ _)
              [manager] [vp] director eq_refl 0%N s Hpre)
    as (polls & t1 & t2 & t3 & final & Hrun & _ & _ & _ & Hesc & Hrest).
  - intros k t Hk _.
    assert (Hk' : (5 <= k)%nat) by exact Hk.
    change (undecided (if (k =? 3)%nat then approved_status else pending)).
    destruct (Nat.eqb_spec k 3) as [-> | _]; [lia | split; reflexivity].
  - intros k t Hk _.
    assert (Hk' : (5 <= k)%nat) by exact Hk.
    change (truthy (get (if (k =? 3)%nat then approved_status else pending)
                      "approved") = false).
    destruct (Nat.eqb_spec k 3) as [-> | _]; [lia | reflexivity].
  - exists final. split; [exact Hrun |]. split; [exact Hesc |].
    apply (Hrest vp). now left.
Defined.

Lemma escalated_timeout_entries k v :
  escalated_timeout !! k = Some v ->
  v = VStr "escalated_timeout" \/
  v = VStr "Approval not received after escalation".
Proof.
  unfold escalated_timeout.
  rewrite lookup_insert_Some, lookup_singleton_Some.
  intros [[_ <-] | [_ [_ <-]]]; auto.
Qed.

(** C3 (as stated) fails on "carrying the tier": the result of a run
    that timed out at the manager's tier holds nothing that identifies
    a tier, neither a level nor a role, an approver or an address. *)
Lemma C3_timeout_result_does_not_name_the_tier :
  ~ (forall env requisition t0 r final,
        RequisitionApprovalWorkflow_run env requisition (init t0)
        = (Returned r, final) ->
        r !! "status" = Some (VStr "escalated_timeout") ->
        exists k a,
          a ∈ full_ladder /\
          (r !! k = Some (VNum (inject_Z (level a))) \/
           r !! k = Some (VStr (role a)) \/
           r !! k = Some (VStr (approver_id a)) \/
           r !! k = Some (VStr (approver_email a)))).
Proof.
  intros H.
  assert (Hfst : fst (RequisitionApprovalWorkflow_run quiet
                        (requisition_of 1200 "rush") (init 0))
                 = Returned escalated_timeout) by (vm_compute; reflexivity).
  destruct (H quiet (requisition_of 1200 "rush") 0%N escalated_timeout
              (snd (RequisitionApprovalWorkflow_run quiet
                      (requisition_of 1200 "rush") (init 0))))
    as (k & a & Ha & Hk).
  - rewrite <- Hfst. apply surjective_pairing.
  - reflexivity.
  - assert (Hcases : a = manager \/ a = director \/ a = vp \/ a = cfo).
    { unfold full_ladder in Ha.
      repeat (apply elem_of_cons in Ha as [-> | Ha]; [tauto |]).
      now apply elem_of_nil in Ha. }
    destruct Hk as [Hk | [Hk | [Hk | Hk]]];
      apply escalated_timeout_entries in Hk as [Hk | Hk];
      try discriminate Hk;
      destruct Hcases as [-> | [-> | [-> | ->]]]; discriminate Hk.
Qed.

(** A requisition whose store reports approval and rejection together,
    and whose workflow received both signals: the run completes. *)
Lemma C9_approval_is_tested_first_witness :
  exists final,
    RequisitionApprovalWorkflow_run both_decisions
      (requisition_of 1200 "standard") (init 0)
    = (Returned (complete "PO-000123" true), final) /\
    approved final = true /\ rejected final = true.
Proof.
  pose (entry := at_loop_entry both_decisions
                   (requisition_of 1200 "standard") "CHEM-2024-001"
                   1200 (init 0)).
  pose proof (C9_approval_is_tested_first both_decisions
                (requisition_of 1200 "standard") "CHEM-2024-001"
                "REQ-2024-000123" "standard" 1200
                eq_refl eq_refl eq_refl eq_refl
                (with_store_budget_ok _ _ _ _)
                [] [] manager eq_refl 0%N entry eq_refl 0%nat) as Hrun.
  cbv zeta in Hrun. rewrite Hrun.
  - eexists. split; [reflexivity |]. split; reflexivity.
  - intros i Hi. lia.
  - reflexivity.
  - reflexivity.
  - reflexivity.
Defined.

(** C9 (as stated) fails: with an approval and a rejection both
    reported at every status check, the run does not end rejected. *)
Lemma C9_conflicting_status_is_not_rejected :
  ~ (forall env requisition t0,
        (forall k t rid,
            truthy (get (check_approval_status env k t rid) "approved") = true /\
            truthy (get (check_approval_status env k t rid) "rejected") = true) ->
        exists reason a final,
          RequisitionApprovalWorkflow_run env requisition (init t0)
          = (Returned (rejected_by reason a), final)).
Proof.
  intros H.
  destruct (H both_decisions (requisition_of 1200 "standard") 0%N)
    as (reason & a & final & Hrun).
  { intros k t rid. split; reflexivity. }
  assert (Hfst : fst (RequisitionApprovalWorkflow_run both_decisions
                        (requisition_of 1200 "standard") (init 0))
                 = Returned (complete "PO-000123" true))
    by (vm_compute; reflexivity).
  rewrite Hrun in Hfst. cbn [fst] in Hfst.
  apply (f_equal (fun f : flow Empty_set =>
                    match f with
                    | Returned r => r !! "status"
                    | _ => None
                    end)) in Hfst.
  change (Some (VStr "rejected") = Some (VStr "complete")) in Hfst.
  discriminate Hfst.
Qed.

End ApprovalFacts.

(* ===================================================================== *)
(** ** Properties of the ordered dictionaries and of the agent factory    *)
(* ===================================================================== *)

Module FactoryFacts.
Import Orchestration.

Section Dict.
Context {V : Type}.
Implicit Types (d : list (string * V)) (k : string) (v : V).

Lemma lookup_set_eq k v d : ODict.lookup k (ODict.set k v d) = Some v.
Proof.
  induction d as [| [k' v'] d IH]; cbn; [now rewrite String.eqb_refl |].
  destruct (String.eqb_spec k k'); cbn.
  - now rewrite String.eqb_refl.
  - destruct (String.eqb_spec k k'); [contradiction | exact IH].
Qed.

Lemma lookup_set_ne k k' v d :
  k <> k' -> ODict.lookup k (ODict.set k' v d) = ODict.lookup k d.
Proof.
  intros Hne. induction d as [| [k2 v2] d IH]; cbn.
  - destruct (String.eqb_spec k k'); [contradiction | reflexivity].
  - destruct (String.eqb_spec k' k2) as [-> | Hne2]; cbn.
    + destruct (String.eqb_spec k k2); [contradiction | reflexivity].
    + destruct (String.eqb_spec k k2); [reflexivity | exact IH].
Qed.

Lemma lookup_None_keys k d : ODict.lookup k d = None <-> k ∉ ODict.keys d.
Proof.
  unfold ODict.keys. induction d as [| [k' v'] d IH]; cbn.
  - split; [intros _; apply not_elem_of_nil | reflexivity].
  - rewrite not_elem_of_cons. destruct (String.eqb_spec k k').
    + split; [discriminate | intros [? _]; contradiction].
    + rewrite IH. tauto.
Qed.

Lemma keys_set k v d :
  ODict.keys (ODict.set k v d)
  = if bool_decide (k ∈ ODict.keys d) then ODict.keys d
    else ODict.keys d ++ [k].
Proof.
  unfold ODict.keys. induction d as [| [k' v'] d IH]; cbn.
  - rewrite bool_decide_eq_false_2 by apply not_elem_of_nil. reflexivity.
  - destruct (String.eqb_spec k k') as [-> | Hne]; cbn.
    + rewrite bool_decide_eq_true_2 by (left). reflexivity.
    + rewrite IH. destruct (bool_decide (k ∈ d.*1)) eqn:Hin.
      * apply bool_decide_eq_true_1 in Hin.
        rewrite bool_decide_eq_true_2 by (now right). reflexivity.
      * apply bool_decide_eq_false_1 in Hin.
        rewrite bool_decide_eq_false_2; [reflexivity |].
        rewrite not_elem_of_cons. split; assumption.
Qed.

Lemma keys_set_NoDup k v d :
  NoDup (ODict.keys d) -> NoDup (ODict.keys (ODict.set k v d)).
Proof.
  intros Hnd. rewrite keys_set. case_bool_decide as Hin; [exact Hnd |].
  apply NoDup_app. split; [exact Hnd |]. split.
  - intros x Hx ->%list_elem_of_singleton. contradiction.
  - apply NoDup_singleton.
Qed.

End Dict.

Section Factory.
Context {K I : Type}.
Implicit Types (cls : AgentFactory K I) (ops : list (factory_op K I)).

(** What every factory built by registrations and lookups satisfies: an
    instance exists only for a registered identifier, and no identifier
    is listed twice. *)
Lemma get_instances_registered agent_id kwargs cls :
  (forall k, k ∈ ODict.keys (_instances cls) -> k ∈ ODict.keys (_agents cls)) ->
  forall k,
    k ∈ ODict.keys (_instances (snd (get agent_id kwargs cls))) ->
    k ∈ ODict.keys (_agents (snd (get agent_id kwargs cls))).
Proof.
  intros Hinv k. unfold get.
  destruct (ODict.lookup agent_id (_instances cls)) eqn:Hi; [apply Hinv |].
  destruct (ODict.lookup agent_id (_agents cls)) as [c |] eqn:Ha;
    [| apply Hinv].
  destruct (c kwargs); [| apply Hinv]. cbn [snd _instances _agents].
  rewrite keys_set. case_bool_decide; [apply Hinv |].
  intros [Hk | ->%list_elem_of_singleton]%elem_of_app; [now apply Hinv |].
  destruct (decide (agent_id ∈ ODict.keys (_agents cls))) as [Hin | Hout];
    [exact Hin |].
  apply lookup_None_keys in Hout. congruence.
Qed.

Lemma apply_ops_snoc ops op cls :
  apply_ops (ops ++ [op]) cls = apply_op op (apply_ops ops cls).
Proof. unfold apply_ops. now rewrite foldl_app. Qed.

Lemma reachable_invariant ops :
  let cls := apply_ops ops (@empty_factory K I) in
  (forall k, k ∈ ODict.keys (_instances cls) -> k ∈ ODict.keys (_agents cls)) /\
  NoDup (list_agents cls).
Proof.
  induction ops as [| op ops IH] using rev_ind.
  - cbn. split; [intros k Hk; exact Hk | apply NoDup_nil_2].
  - cbv zeta. rewrite apply_ops_snoc. cbv zeta in IH.
    destruct IH as [Hinv Hnd].
    set (cls := apply_ops ops empty_factory) in *.
    destruct op as [agent_id agent_class | agent_id kwargs]; cbn [apply_op].
    + split.
      * intros k Hk. cbn [register _agents _instances] in *.
        rewrite keys_set.
        case_bool_decide; [now apply Hinv |].
        apply elem_of_app. left. now apply Hinv.
      * unfold list_agents. cbn [register _agents].
        now apply keys_set_NoDup.
    + split; [now apply get_instances_registered |].
      unfold list_agents, get in *.
      destruct (ODict.lookup agent_id (_instances cls)); [exact Hnd |].
      destruct (ODict.lookup agent_id (_agents cls)) as [c |]; [| exact Hnd].
      destruct (c kwargs); exact Hnd.
Qed.

(** X1. In a factory built from the empty one by any registrations and
    lookups, asking for an identifier that is not listed raises
    [ValueError("Unknown agent: ...")] and changes nothing. *)
Theorem X1_factory_get_unlisted_raises ops agent_id kwargs :
  let cls := apply_ops ops (@empty_factory K I) in
  agent_id ∉ list_agents cls ->
  get agent_id kwargs cls
  = (Throw (ValueError (String.append "Unknown agent: " agent_id)), cls).
Proof.
  intros cls Hout.
  destruct (reachable_invariant ops) as [Hinv _]. fold cls in Hinv.
  unfold get.
  assert (Hi : ODict.lookup agent_id (_instances cls) = None).
  { apply lookup_None_keys. intros Hin. apply Hout, Hinv, Hin. }
  assert (Ha : ODict.lookup agent_id (_agents cls) = None)
    by now apply lookup_None_keys.
  now rewrite Hi, Ha.
Qed.

Lemma instance_kept op agent_id instance cls :
  ODict.lookup agent_id (_instances cls) = Some instance ->
  ODict.lookup agent_id (_instances (apply_op op cls)) = Some instance.
Proof.
  intros Hi. destruct op as [k c | k kwargs]; cbn; [exact Hi |].
  unfold get.
  destruct (ODict.lookup k (_instances cls)) eqn:Hk; [exact Hi |].
  destruct (ODict.lookup k (_agents cls)) as [c |]; [| exact Hi].
  destruct (c kwargs); [| exact Hi]. cbn.
  rewrite lookup_set_ne; [exact Hi |]. intros ->. congruence.
Qed.

Lemma instance_kept_ops ops agent_id instance cls :
  ODict.lookup agent_id (_instances cls) = Some instance ->
  ODict.lookup agent_id (_instances (apply_ops ops cls)) = Some instance.
Proof.
  revert cls. induction ops as [| op ops IH]; intros cls Hi; [exact Hi |].
  cbn. apply IH. now apply instance_kept.
Qed.

(** X2. Once a lookup has produced an instance, every later lookup of
    that identifier hands back the same instance and changes nothing,
    whatever keyword arguments it is given and whatever was registered
    or looked up in between, a new class under the same identifier
    included. *)
Theorem X2_factory_instance_is_cached agent_id kwargs cls instance cls1 :
  get agent_id kwargs cls = (Return instance, cls1) ->
  forall ops kwargs',
    get agent_id kwargs' (apply_ops ops cls1)
    = (Return instance, apply_ops ops cls1).
Proof.
  intros Hget ops kwargs'.
  assert (Hi : ODict.lookup agent_id (_instances cls1) = Some instance).
  { unfold get in Hget.
    destruct (ODict.lookup agent_id (_instances cls)) eqn:Hk.
    - now injection Hget as <- <-.
    - destruct (ODict.lookup agent_id (_agents cls)) as [c |];
        [| discriminate].
      destruct (c kwargs); [| discriminate].
      injection Hget as <- <-. cbn. apply lookup_set_eq. }
  unfold get at 1. now rewrite (instance_kept_ops ops _ _ _ Hi).
Qed.

(** X3. The listing of a factory built from the empty one never names an
    identifier twice. Registering an identifier that is listed leaves
    the listing as it is, registering a new one appends it, and a lookup
    never changes the listing. *)
Theorem X3_factory_listing ops agent_id agent_class kwargs :
  let cls := apply_ops ops (@empty_factory K I) in
  NoDup (list_agents cls) /\
  (agent_id ∈ list_agents cls ->
   list_agents (register agent_id agent_class cls) = list_agents cls) /\
  (agent_id ∉ list_agents cls ->
   list_agents (register agent_id agent_class cls)
   = list_agents cls ++ [agent_id]) /\
  list_agents (snd (get agent_id kwargs cls)) = list_agents cls.
Proof.
  intros cls. split; [apply (reachable_invariant ops) |].
  unfold list_agents, register. cbn [_agents]. rewrite keys_set.
  split; [| split].
  - intros Hin. now rewrite bool_decide_eq_true_2.
  - intros Hout. now rewrite bool_decide_eq_false_2.
  - unfold get.
    destruct (ODict.lookup agent_id (_instances cls)); [reflexivity |].
    destruct (ODict.lookup agent_id (_agents cls)) as [c |]; [| reflexivity].
    destruct (c kwargs); reflexivity.
Qed.

End Factory.
End FactoryFacts.

(* ===================================================================== *)
(** ** Witnesses for the factory                                          *)
(* ===================================================================== *)

Module FactoryWitnesses.
Import Orchestration FactoryFacts OrchestrationScenarios.

(** The repository's test: an unknown identifier. *)
Lemma X1_factory_get_unlisted_witness :
  get "nonexistent-agent" "Test University" two_classes
  = (Throw (ValueError "Unknown agent: nonexistent-agent"), two_classes).
Proof.
  apply (X1_factory_get_unlisted_raises
           [Register "price-watch" price_watch_class;
            Register "price-compare" price_compare_class]
           "nonexistent-agent" "Test University").
  apply (bool_decide_unpack _). vm_compute. exact I.
Defined.

(** The instance made for one university is handed to the next caller,
    even after the class has been replaced. *)
Lemma X2_factory_instance_is_cached_witness :
  get "price-watch" "Another University"
    (apply_ops [Register "price-watch" price_compare_class]
       (snd (get "price-watch" "Test University" two_classes)))
  = (Return "PriceWatch Agent of Test University",
     apply_ops [Register "price-watch" price_compare_class]
       (snd (get "price-watch" "Test University" two_classes))).
Proof.
  apply (X2_factory_instance_is_cached "price-watch" "Test University"
           two_classes "PriceWatch Agent of Test University"
           (snd (get "price-watch" "Test University" two_classes))).
  reflexivity.
Defined.

Lemma X3_factory_listing_witness :
  list_agents (register "price-watch" price_compare_class two_classes)
  = ["price-watch"; "price-compare"] /\
  list_agents (register "requisition" price_compare_class two_classes)
  = ["price-watch"; "price-compare"; "requisition"].
Proof.
  destruct (X3_factory_listing
              [Register "price-watch" price_watch_class;
               Register "price-compare" price_compare_class]
              "price-watch" price_compare_class "Test University")
    as (_ & Hin & _ & _).
  destruct (X3_factory_listing
              [Register "price-watch" price_watch_class;
               Register "price-compare" price_compare_class]
              "requisition" price_compare_class "Test University")
    as (_ & _ & Hout & _).
  split.
  - apply Hin. apply (bool_decide_unpack _). vm_compute. exact I.
  - apply Hout. apply (bool_decide_unpack _). vm_compute. exact I.
Defined.

End FactoryWitnesses.

(* ===================================================================== *)
(** ** Properties of the router                                           *)
(* ===================================================================== *)

Module RouterFacts.
Import Agents Orchestration.

Local Open Scope string_scope.

Lemma prefix_app (sub post : string) : String.prefix sub (sub ++ post) = true.
Proof.
  induction sub as [| c sub IH]; simpl; [now destruct post |].
  destruct (Ascii.ascii_dec c c); [exact IH | contradiction].
Qed.

Lemma prefix_split (sub s : string) :
  String.prefix sub s = true -> exists post, s = sub ++ post.
Proof.
  revert s. induction sub as [| c sub IH]; intros s H.
  - exists s. reflexivity.
  - destruct s as [| c' s]; simpl in H; [discriminate |].
    destruct (Ascii.ascii_dec c c') as [<- |]; [| discriminate].
    destruct (IH s H) as (post & ->). now exists post.
Qed.

Lemma contains_prefix (sub s : string) :
  String.prefix sub s = true -> Text.contains sub s = true.
Proof. intros H. destruct s; cbn [Text.contains]; now rewrite H. Qed.

(** [sub in s] holds exactly when [s] reads [pre ++ sub ++ post]. *)
Lemma contains_spec (sub s : string) :
  Text.contains sub s = true <-> exists pre post, s = pre ++ sub ++ post.
Proof.
  split.
  - induction s as [| c s IH]; cbn [Text.contains].
    + destruct (String.prefix sub "") eqn:Hp; [| discriminate].
      intros _. destruct (prefix_split _ _ Hp) as (post & Hs).
      exists "", post. exact Hs.
    + destruct (String.prefix sub (String c s)) eqn:Hp.
      * intros _. destruct (prefix_split _ _ Hp) as (post & Hs).
        exists "", post. exact Hs.
      * intros H. destruct (IH H) as (pre & post & ->).
        exists (String c pre), post. reflexivity.
  - intros (pre & post & ->).
    induction pre as [| c pre IH].
    + change (Text.contains sub (sub ++ post) = true).
      apply contains_prefix, prefix_app.
    + change (Text.contains sub (String c (pre ++ sub ++ post)) = true).
      cbn [Text.contains].
      destruct (String.prefix sub _); [reflexivity | exact IH].
Qed.

Lemma lower_app (s t : string) :
  Text.lower (s ++ t) = Text.lower s ++ Text.lower t.
Proof.
  induction s as [| c s IH]; [reflexivity |].
  change (String (Text.lower_ascii c) (Text.lower (s ++ t))
          = String (Text.lower_ascii c) (Text.lower s ++ Text.lower t)).
  now rewrite IH.
Qed.

(** The loop over the routing table: the first intent, in the order of
    the table, that occurs in the message decides, and its first
    candidate is the answer. *)
Lemma route_first_match before intent first others after message_lower :
  (forall p, p ∈ before -> Text.contains p.1 message_lower = false) ->
  Text.contains intent message_lower = true ->
  route (before ++ (intent, first :: others) :: after) message_lower
  = Return first.
Proof.
  intros Hnone Hin. induction before as [| [i c] before IH]; cbn.
  - now rewrite Hin.
  - pose proof (Hnone (i, c) ltac:(now left)) as Hf. cbn [fst] in Hf.
    rewrite Hf. apply IH. intros p Hp. apply Hnone. now right.
Qed.

Lemma route_no_match patterns message_lower :
  (forall p, p ∈ patterns -> Text.contains p.1 message_lower = false) ->
  route patterns message_lower = Return "requisition".
Proof.
  intros Hnone. induction patterns as [| [i c] patterns IH]; [reflexivity |].
  pose proof (Hnone (i, c) ltac:(now left)) as Hf. cbn [fst] in Hf.
  cbn [route]. rewrite Hf. apply IH. intros p Hp. apply Hnone. now right.
Qed.

(** The agents [route_message] can answer with. *)
Lemma route_message_range agents message :
  exists agent_id,
    route_message (new_orchestrator agents) message = Return agent_id /\
    agent_id ∈ ["price-watch"; "requisition"; "invoice-matching";
                "vendor-selection"; "budget-guardian"; "compliance-agent"].
Proof.
  unfold route_message. cbn [new_orchestrator intent_patterns route].
  repeat match goal with
         | |- context [Text.contains ?i ?m] =>
             destruct (Text.contains i m);
             [eexists; split; [reflexivity | set_solver] |]
         end.
  eexists; split; [reflexivity | set_solver].
Qed.

(** X4. Routing is by keyword, whatever the capitalisation, and the
    table is searched in its order: a message in which some writing of
    "price" occurs goes to the price-watch agent whatever else it says;
    one that names a requisition but no price goes to the requisition
    agent even if it also names an invoice, a vendor, a budget or
    compliance. A message with none of the six keywords goes to the
    requisition agent too. Nothing else than the six first agents of the
    table is ever answered. *)
Theorem X4_route_message_by_keyword agents message :
  let self := new_orchestrator agents in
  let m := Text.lower message in
  (Text.contains "price" m = true ->
   route_message self message = Return "price-watch") /\
  (Text.contains "price" m = false ->
   Text.contains "requisition" m = true ->
   route_message self message = Return "requisition") /\
  (Text.contains "price" m = false ->
   Text.contains "requisition" m = false ->
   Text.contains "invoice" m = false ->
   Text.contains "vendor" m = false ->
   Text.contains "budget" m = false ->
   Text.contains "compliance" m = false ->
   route_message self message = Return "requisition") /\
  (forall pre word post,
      message = pre ++ word ++ post ->
      Text.lower word = "price" ->
      route_message self message = Return "price-watch") /\
  (exists agent_id,
      route_message self message = Return agent_id /\
      agent_id ∈ ["price-watch"; "requisition"; "invoice-matching";
                  "vendor-selection"; "budget-guardian"; "compliance-agent"]).
Proof.
  intros self m.
  assert (Hprice : Text.contains "price" m = true ->
                   route_message self message = Return "price-watch").
  { intros H. unfold route_message. fold m.
    apply (route_first_match [] "price" "price-watch"); [| exact H].
    intros p Hp. now apply elem_of_nil in Hp. }
  split; [exact Hprice |]. split; [| split; [| split]].
  - intros H1 H2. unfold route_message. fold m.
    apply (route_first_match [("price", _)] "requisition" "requisition");
      [| exact H2].
    intros p ->%list_elem_of_singleton. exact H1.
  - intros H1 H2 H3 H4 H5 H6. unfold route_message. fold m.
    apply route_no_match. cbn [new_orchestrator intent_patterns self].
    intros p Hp.
    repeat (apply elem_of_cons in Hp as [-> | Hp]; [assumption |]).
    now apply elem_of_nil in Hp.
  - intros pre word post -> Hword. apply Hprice.
    unfold m. rewrite !lower_app, Hword.
    apply contains_spec. eauto.
  - apply route_message_range.
Qed.

(** The repository's routing tests, and a message that names an invoice
    before a price. *)
Lemma X4_route_message_witness :
  route_message OrchestrationScenarios.api_orchestrator
    "What is the price of pipettes?" = Return "price-watch" /\
  route_message OrchestrationScenarios.api_orchestrator
    "Invoice 17 shows the wrong PRICE" = Return "price-watch" /\
  route_message OrchestrationScenarios.api_orchestrator
    "Requisition and invoice do not agree" = Return "requisition" /\
  route_message OrchestrationScenarios.api_orchestrator
    "I need to order some supplies" = Return "requisition".
Proof.
  pose (agents := api_agents (fun _ => AgentScenarios.searching_llm 3)
                    AgentScenarios.echo_executor
                    LoopObservations.int_arithmetic).
  destruct (X4_route_message_by_keyword agents
              "What is the price of pipettes?") as (H1 & _).
  destruct (X4_route_message_by_keyword agents
              "Invoice 17 shows the wrong PRICE") as (_ & _ & _ & H2 & _).
  destruct (X4_route_message_by_keyword agents
              "Requisition and invoice do not agree") as (_ & H3 & _).
  destruct (X4_route_message_by_keyword agents
              "I need to order some supplies") as (_ & _ & H4 & _).
  split; [apply H1; reflexivity |].
  split; [apply (H2 "Invoice 17 shows the wrong " "PRICE" ""); reflexivity |].
  split; [apply H3; reflexivity |].
  apply H4; reflexivity.
Defined.

(** X5. The router and the agents of the API module do not agree: three
    of the six agents the router answers with are not among the agents
    the orchestrator holds. Handing a message to the agent it is routed
    to, [execute] raises [ValueError("Unknown agent: ...")] for these
    three before any agent runs; for the other three the agent of that
    name runs the message. *)
Theorem X5_routed_agent_may_be_unknown
    (llm : string -> list message -> message)
    (executor : ToolCall.t -> string) (ar : arithmetic)
    (recursion_limit : nat)
    (content user_id university_id agent_id : string)
    (context : option (gmap string value)) :
  let self := new_orchestrator (api_agents llm executor ar) in
  route_message self content = Return agent_id ->
  (agent_id ∈ ["invoice-matching"; "budget-guardian"; "compliance-agent"] ->
   execute self recursion_limit agent_id content user_id university_id context
   = Throw (ValueError ("Unknown agent: " ++ agent_id))) /\
  (agent_id ∈ ["price-watch"; "requisition"; "vendor-selection"] ->
   exists instance,
     api_agents llm executor ar !! agent_id = Some instance /\
     execute self recursion_limit agent_id content user_id university_id
       context
     = match run instance recursion_limit content user_id university_id
               (default ∅ context) with
       | Ok r => Return r
       | Raise e => Throw (Propagated e)
       end).
Proof.
  intros self Hroute. split.
  - intros Hin.
    repeat (apply elem_of_cons in Hin as [-> | Hin]; [reflexivity |]).
    now apply elem_of_nil in Hin.
  - intros Hin.
    repeat (apply elem_of_cons in Hin as [-> | Hin];
            [eexists; split; reflexivity |]).
    now apply elem_of_nil in Hin.
Qed.

(** The repository's budget routing test, handed to the routed agent. *)
Lemma X5_routed_agent_may_be_unknown_witness :
  route_message OrchestrationScenarios.api_orchestrator
    "Check my budget status" = Return "budget-guardian" /\
  execute OrchestrationScenarios.api_orchestrator 25 "budget-guardian"
    "Check my budget status" "user_001" "university_001" None
  = Throw (ValueError "Unknown agent: budget-guardian").
Proof.
  split; [reflexivity |].
  apply (X5_routed_agent_may_be_unknown
           (fun _ => AgentScenarios.searching_llm 3)
           AgentScenarios.echo_executor LoopObservations.int_arithmetic
           25 "Check my budget status"
           "user_001" "university_001" "budget-guardian" None).
  - reflexivity.
  - apply (bool_decide_unpack _). vm_compute. exact I.
Defined.

End RouterFacts.

(* ===================================================================== *)
(** ** More properties of the human gates                                 *)
(* ===================================================================== *)

Module MoreGateFacts.
Import Agents LoopObservations.

(** X6. With a positive threshold the default gate looks at the
    ["amount"] argument only. It gates exactly the calls whose amount is
    strictly above the threshold, an amount equal to the threshold
    passing; a call without an amount is never gated; an amount that is
    not a number raises [TypeError]. *)
Theorem X6_default_gate_above_threshold (c : AgentConfig)
    (tool_call : ToolCall.t) (state : AgentState) :
  (0 < human_in_loop_threshold c)%Q ->
  let amount := ToolCall.get_args tool_call !! "amount" in
  let gate := default_requires_human_review c tool_call state in
  (amount = None -> gate = Ok false) /\
  (forall q, amount = Some (VNum q) ->
             (gate = Ok true <-> (human_in_loop_threshold c < q)%Q) /\
             (gate = Ok false <-> (q <= human_in_loop_threshold c)%Q)) /\
  (forall v, amount = Some v -> as_number v = Raise TypeError ->
             gate = Raise TypeError).
Proof.
  intros Hpos amount gate.
  assert (Hoff : Qle_bool (human_in_loop_threshold c) 0 = false).
  { destruct (Qle_bool _ 0) eqn:E; [| reflexivity].
    apply Qle_bool_iff in E. lra. }
  unfold gate, default_requires_human_review. rewrite Hoff. fold amount.
  split; [now intros -> |]. split.
  - intros q ->. cbn [as_number bind].
    destruct (Qgtb q (human_in_loop_threshold c)) eqn:E.
    + apply Qgtb_true in E. split; split; try easy. intros; lra.
    + apply Qgtb_false in E. split; split; try easy. intros; lra.
  - intros v -> Hv. now rewrite Hv.
Qed.

Lemma X6_default_gate_witness :
  default_requires_human_review
    (with_threshold 1000 (AgentConfig_defaults "t" "T" 1 "Test"))
    AgentScenarios.costly_call AgentScenarios.blank_state = Ok true /\
  default_requires_human_review
    (with_threshold 1000000 (AgentConfig_defaults "t" "T" 1 "Test"))
    AgentScenarios.costly_call AgentScenarios.blank_state = Ok false /\
  default_requires_human_review
    (with_threshold 1000 (AgentConfig_defaults "t" "T" 1 "Test"))
    AgentScenarios.search_call AgentScenarios.blank_state = Ok false.
Proof.
  destruct (X6_default_gate_above_threshold
              (with_threshold 1000 (AgentConfig_defaults "t" "T" 1 "Test"))
              AgentScenarios.costly_call AgentScenarios.blank_state)
    as (_ & Hnum & _); [cbn; lra |].
  destruct (X6_default_gate_above_threshold
              (with_threshold 1000000 (AgentConfig_defaults "t" "T" 1 "Test"))
              AgentScenarios.costly_call AgentScenarios.blank_state)
    as (_ & Heq & _); [cbn; lra |].
  destruct (X6_default_gate_above_threshold
              (with_threshold 1000 (AgentConfig_defaults "t" "T" 1 "Test"))
              AgentScenarios.search_call AgentScenarios.blank_state)
    as (Hnone & _); [cbn; lra |].
  split; [apply (Hnum 1000000%Q eq_refl); cbn; lra |].
  split; [apply (Heq 1000000%Q eq_refl); cbn; lra |].
  apply Hnone. reflexivity.
Defined.

Lemma double_exact_0 : double_exact 0.
Proof. apply Z.leb_le. reflexivity. Qed.

Lemma int_arithmetic_exact : exact_on_whole_numbers int_arithmetic.
Proof.
  intros x y a b Hx Hy _ _. cbn [mul add int_arithmetic].
  split; intros _; rewrite Hx, Hy.
  - now rewrite inject_Z_mult.
  - now rewrite inject_Z_plus.
Qed.

Lemma line_amount_order_line ar line :
  line_amount ar (order_line line)
  = Ok (mul ar (inject_Z line.1) (inject_Z line.2)).
Proof. reflexivity. Qed.

Lemma sum_lines_order_lines ar lines :
  exact_on_whole_numbers ar ->
  forall (acc : Q) (z : Z),
    (acc == inject_Z z)%Q -> double_exact z -> all_exact z lines ->
    exists total,
      sum_lines ar (order_line <$> lines) acc = Ok total /\
      (total == inject_Z (order_total z lines))%Q.
Proof.
  intros Har.
  induction lines as [| line lines IH]; intros acc z Hacc Hz Hall.
  - exists acc. now split.
  - destruct Hall as (Hp & Hq & Hpq & Hsum & Hall).
    cbn [fmap list_fmap sum_lines]. rewrite line_amount_order_line.
    cbn [bind].
    destruct (Har (inject_Z line.1) (inject_Z line.2) line.1 line.2)
      as (Hmul & _); [reflexivity | reflexivity | assumption ..|].
    destruct (Har acc (mul ar (inject_Z line.1) (inject_Z line.2))
                z (line.1 * line.2)%Z) as (_ & Hadd);
      [assumption | now apply Hmul | assumption ..|].
    destruct (IH _ _ (Hadd Hsum) Hsum Hall) as (total & -> & Ht).
    exists total. split; [reflexivity | exact Ht].
Qed.

(** X7. The requisition agent gates [create_requisition] calls on the
    order total, the sum of [unit_price * quantity] over the items. For
    an order in whole numbers that the runtime's arithmetic handles
    exactly, it gates exactly when the total is strictly above 25000. A
    call without items is not gated, and no other call is ever gated,
    whatever amount it carries. *)
Theorem X7_requisition_gate_on_order_total
    (llm : list message -> message) (executor : ToolCall.t -> string)
    (ar : arithmetic) (tool_call : ToolCall.t) (state : AgentState) :
  exact_on_whole_numbers ar ->
  let gate :=
    requires_review (RequisitionAgent llm executor ar) tool_call state in
  let items := ToolCall.get_args tool_call !! "items" in
  (ToolCall.name tool_call <> "create_requisition" -> gate = Ok false) /\
  (ToolCall.name tool_call = "create_requisition" ->
   (items = None -> gate = Ok false) /\
   (forall lines,
       items = Some (VList (order_line <$> lines)) ->
       all_exact 0 lines ->
       (gate = Ok true <-> (25000 < order_total 0 lines)%Z) /\
       (gate = Ok false <-> (order_total 0 lines <= 25000)%Z))).
Proof.
  intros Har gate items. unfold gate, requires_review. cbn [config RequisitionAgent
    _requires_human_review]. unfold requisition_requires_human_review.
  split.
  - intros Hne. destruct (String.eqb_spec (ToolCall.name tool_call)
                            "create_requisition"); [contradiction | reflexivity].
  - intros ->. rewrite String.eqb_refl. unfold get_default. fold items.
    split; [now intros -> |].
    intros lines -> Hall. cbn [default from_option id iterate bind].
    destruct (sum_lines_order_lines ar lines Har 0%Q 0%Z)
      as (total & -> & Ht); [reflexivity | apply double_exact_0 | exact Hall |].
    cbn [bind with_threshold human_in_loop_threshold].
    change 25000%Q with (inject_Z 25000).
    destruct (Qgtb total (inject_Z 25000)) eqn:E.
    + apply Qgtb_true in E. rewrite Ht in E. rewrite <- Zlt_Qlt in E.
      split; split; try easy; intros; lia.
    + apply Qgtb_false in E. rewrite Ht in E. rewrite <- Zle_Qle in E.
      split; split; try easy; intros; lia.
Qed.

(** The two orders of the repository's test. *)
Lemma X7_requisition_gate_witness :
  requires_review
    (RequisitionAgent (AgentScenarios.searching_llm 3)
       AgentScenarios.echo_executor int_arithmetic)
    {| ToolCall.name := "create_requisition";
       ToolCall.args :=
         Some {[ "items" := VList (order_line <$> [(10000, 3)%Z]) ]};
       ToolCall.id := "call_large" |}
    AgentScenarios.blank_state = Ok true /\
  requires_review
    (RequisitionAgent (AgentScenarios.searching_llm 3)
       AgentScenarios.echo_executor int_arithmetic)
    {| ToolCall.name := "create_requisition";
       ToolCall.args :=
         Some {[ "items" := VList (order_line <$> [(100, 5)%Z]) ]};
       ToolCall.id := "call_small" |}
    AgentScenarios.blank_state = Ok false /\
  requires_review
    (RequisitionAgent (AgentScenarios.searching_llm 3)
       AgentScenarios.echo_executor int_arithmetic)
    AgentScenarios.costly_call AgentScenarios.blank_state = Ok false.
Proof.
  split; [| split].
  - destruct (X7_requisition_gate_on_order_total
                (AgentScenarios.searching_llm 3) AgentScenarios.echo_executor
                int_arithmetic
                {| ToolCall.name := "create_requisition";
                   ToolCall.args :=
                     Some {[ "items" := VList (order_line <$> [(10000, 3)%Z]) ]};
                   ToolCall.id := "call_large" |}
                AgentScenarios.blank_state int_arithmetic_exact) as (_ & H).
    destruct (H eq_refl) as (_ & Hlines).
    apply (Hlines [(10000, 3)%Z] eq_refl).
    + cbn [all_exact]. repeat split; apply Z.leb_le; reflexivity.
    + cbn. lia.
  - destruct (X7_requisition_gate_on_order_total
                (AgentScenarios.searching_llm 3) AgentScenarios.echo_executor
                int_arithmetic
                {| ToolCall.name := "create_requisition";
                   ToolCall.args :=
                     Some {[ "items" := VList (order_line <$> [(100, 5)%Z]) ]};
                   ToolCall.id := "call_small" |}
                AgentScenarios.blank_state int_arithmetic_exact) as (_ & H).
    destruct (H eq_refl) as (_ & Hlines).
    apply (Hlines [(100, 5)%Z] eq_refl).
    + cbn [all_exact]. repeat split; apply Z.leb_le; reflexivity.
    + cbn. lia.
  - destruct (X7_requisition_gate_on_order_total
                (AgentScenarios.searching_llm 3) AgentScenarios.echo_executor
                int_arithmetic
                AgentScenarios.costly_call AgentScenarios.blank_state
                int_arithmetic_exact)
      as (Hother & _).
    apply Hother. intros H. discriminate H.
Defined.

End MoreGateFacts.

(* ===================================================================== *)
(** ** More properties of the decision loop                               *)
(* ===================================================================== *)

Module MoreLoopFacts.
Import Agents LoopObservations.

Section Loop.
Variable self : ProcurementAgent.

Lemma any_requires_review_none calls state :
  any_requires_review self calls state = Ok false <->
  forall tool_call, tool_call ∈ calls ->
                    requires_review self tool_call state = Ok false.
Proof.
  induction calls as [| c calls IH]; cbn [any_requires_review].
  - split; [intros _ tc Htc; now apply elem_of_nil in Htc | reflexivity].
  - destruct (requires_review self c state) as [[|] |] eqn:Hc; cbn [bind].
    + split; [discriminate |]. intros H.
      specialize (H c ltac:(now left)). congruence.
    + rewrite IH. split.
      * intros H tc [-> | Htc]%elem_of_cons; [exact Hc | now apply H].
      * intros H tc Htc. apply H. now right.
    + split; [discriminate |]. intros H.
      specialize (H c ltac:(now left)). congruence.
Qed.

Lemma any_requires_review_first before tool_call after state :
  (forall c, c ∈ before -> requires_review self c state = Ok false) ->
  any_requires_review self (before ++ tool_call :: after) state
  = bind (requires_review self tool_call state) (fun gated =>
      if gated then Ok true else any_requires_review self after state).
Proof.
  intros Hbefore. induction before as [| c before IH]; [reflexivity |].
  cbn [app any_requires_review].
  rewrite (Hbefore c) by (now left). cbn [bind].
  apply IH. intros c' Hc'. apply Hbefore. now right.
Qed.

(** With a last message, the three nodes read its tool calls. *)
Lemma last_message_some state m :
  last (messages state) = Some m ->
  last_message state = Ok m /\ last_calls state = tool_calls_of m.
Proof.
  intros H. unfold last_message, last_calls. now rewrite H.
Qed.

Lemma last_message_none state :
  messages state = [] -> last_message state = Raise IndexError.
Proof. intros H. unfold last_message. now rewrite H. Qed.

Lemma last_calls_nonempty state :
  last_calls state <> [] -> exists m, last (messages state) = Some m.
Proof.
  unfold last_calls. destruct (last (messages state)) as [m |]; [eauto |].
  now intros [].
Qed.

Lemma should_continue_eq state :
  messages state <> [] ->
  _should_continue self state
  = match last_calls state with
    | [] => Ok END
    | calls =>
        bind (any_requires_review self calls state) (fun gated =>
          Ok (if gated then human_review else tools))
    end.
Proof.
  intros Hne. destruct (last (messages state)) as [m |] eqn:Hlast.
  - destruct (last_message_some state m Hlast) as (Hm & ->).
    unfold _should_continue. now rewrite Hm.
  - now apply last_None in Hlast.
Qed.

(** X8. Where the loop goes after an oracle answer. On an empty
    conversation the step raises [IndexError]. Without tool calls in
    the last message the loop ends. Otherwise the calls are examined in
    order: if the gate lets every call through, the tools run; the
    first call the gate stops sends the whole batch to human review, and
    the first call on which the gate raises makes the step raise; in
    both cases the calls after it are not examined. *)
Theorem X8_should_continue_scans_in_order (state : AgentState) :
  (messages state = [] -> _should_continue self state = Raise IndexError) /\
  (messages state <> [] -> last_calls state = [] ->
   _should_continue self state = Ok END) /\
  (last_calls state <> [] ->
   (forall c, c ∈ last_calls state -> requires_review self c state = Ok false) ->
   _should_continue self state = Ok tools) /\
  (forall before tool_call after,
      last_calls state = before ++ tool_call :: after ->
      (forall c, c ∈ before -> requires_review self c state = Ok false) ->
      (requires_review self tool_call state = Ok true ->
       _should_continue self state = Ok human_review) /\
      (forall e, requires_review self tool_call state = Raise e ->
                 _should_continue self state = Raise e)).
Proof.
  split.
  { intros Hnil. unfold _should_continue.
    now rewrite (last_message_none state Hnil). }
  split.
  { intros Hne Hcalls. rewrite should_continue_eq by exact Hne.
    now rewrite Hcalls. }
  assert (Hmessages : last_calls state <> [] -> messages state <> []).
  { intros Hne. destruct (last_calls_nonempty state Hne) as (m & Hm).
    intros Hnil. now rewrite Hnil in Hm. }
  split.
  - intros Hne Hall. rewrite should_continue_eq by auto.
    apply any_requires_review_none in Hall.
    destruct (last_calls state); [contradiction |]. now rewrite Hall.
  - intros before tool_call after Hcalls Hbefore.
    pose proof (any_requires_review_first before tool_call after state Hbefore)
      as Hscan.
    rewrite <- Hcalls in Hscan.
    assert (Hne : last_calls state <> [])
      by (rewrite Hcalls; now destruct before).
    rewrite should_continue_eq by auto.
    destruct (last_calls state) as [| c calls]; [contradiction |].
    rewrite Hscan. split.
    + now intros ->.
    + now intros e ->.
Qed.

(** *** From the step-bounded run to its executions *)

Lemma invoke_from_execution limit :
  forall next state visited final nodes,
    invoke_from self limit next state visited = Ok (final, nodes) ->
    exists steps,
      nodes = visited ++ steps /\
      (length steps < limit)%nat /\
      execution self next state steps final.
Proof.
  induction limit as [| limit IH]; intros next state visited final nodes Hrun;
    [discriminate Hrun |].
  destruct next; cbn [invoke_from] in Hrun.
  - destruct (_should_continue self (_call_agent self state))
      as [next |] eqn:Hnext; [| discriminate Hrun].
    cbn [bind] in Hrun.
    apply IH in Hrun as (steps & -> & Hlen & Hex).
    exists (agent :: steps). rewrite <- app_assoc.
    split; [reflexivity | split; [cbn; lia | econstructor; eassumption]].
  - destruct (_call_tools self state) as [state' |] eqn:Hstep;
      [| discriminate Hrun].
    cbn [bind] in Hrun.
    apply IH in Hrun as (steps & -> & Hlen & Hex).
    exists (tools :: steps). rewrite <- app_assoc.
    split; [reflexivity | split; [cbn; lia | econstructor; eassumption]].
  - destruct (_human_review self state) as [state' |] eqn:Hstep;
      [| discriminate Hrun].
    cbn [bind] in Hrun.
    apply IH in Hrun as (steps & -> & Hlen & Hex).
    exists (human_review :: steps). rewrite <- app_assoc.
    split; [reflexivity | split; [cbn; lia | econstructor; eassumption]].
  - injection Hrun as <- <-.
    exists []. rewrite app_nil_r.
    split; [reflexivity | split; [cbn; lia | constructor]].
Qed.

Lemma ainvoke_execution limit state final nodes :
  ainvoke self limit state = Ok (final, nodes) ->
  execution self agent state nodes final.
Proof.
  unfold ainvoke. destruct limit as [| limit]; [discriminate |].
  intros Hrun. now apply invoke_from_execution in Hrun as (steps & -> & _ & Hex).
Qed.

Lemma run_execution limit message user_id university_id context r :
  run self limit message user_id university_id context = Ok r ->
  exists final,
    execution self agent
      (initial_state self message user_id university_id context)
      (executed r) final /\
    result_pending_approval r = pending_approval final.
Proof.
  unfold run. fold (initial_state self message user_id university_id context).
  destruct (ainvoke self limit _) as [[final nodes] |] eqn:Hinv;
    [| discriminate].
  cbn [bind]. intros [= <-]. exists final.
  split; [now apply ainvoke_execution in Hinv | reflexivity].
Qed.

Lemma should_continue_not_agent state :
  _should_continue self state <> Ok agent.
Proof.
  unfold _should_continue.
  destruct (last_message state) as [m |]; [| discriminate]. cbn [bind].
  destruct (tool_calls_of m); [discriminate |].
  destruct (any_requires_review self _ state) as [[|] |]; discriminate.
Qed.

(** Oracle calls alternate with tool runs and reviews. *)
Lemma execution_balance next state steps final :
  execution self next state steps final ->
  oracle_calls steps
  = (round_trips steps + reviews steps
     + (if is_agent next then 1 else 0))%nat /\
  length steps = (oracle_calls steps + round_trips steps + reviews steps)%nat.
Proof.
  unfold oracle_calls, round_trips, reviews.
  induction 1 as [state | state next steps final Hnext Hex [IH1 IH2]
                 | state state' steps final Hstep Hex [IH1 IH2]
                 | state state' steps final Hstep Hex [IH1 IH2]];
    cbn [List.filter is_agent is_tools is_human_review length] in *.
  - split; reflexivity.
  - destruct next; cbn [is_agent] in IH1;
      [now apply should_continue_not_agent in Hnext | | |]; split; lia.
  - split; lia.
  - split; lia.
Qed.

Lemma execution_parity next state steps final :
  execution self next state steps final ->
  forall i n,
    steps !! i = Some n ->
    is_agent n = if is_agent next then Nat.even i else Nat.odd i.
Proof.
  induction 1 as [state | state next steps final Hnext Hex IH
                 | state state' steps final Hstep Hex IH
                 | state state' steps final Hstep Hex IH];
    intros i n Hi.
  - discriminate Hi.
  - destruct i as [| i]; [now injection Hi as <- |].
    cbn [is_agent]. rewrite Nat.even_succ.
    rewrite (IH i n Hi).
    destruct next; [now apply should_continue_not_agent in Hnext | ..];
      reflexivity.
  - destruct i as [| i]; [now injection Hi as <- |].
    cbn [is_agent]. rewrite Nat.odd_succ. exact (IH i n Hi).
  - destruct i as [| i]; [now injection Hi as <- |].
    cbn [is_agent]. rewrite Nat.odd_succ. exact (IH i n Hi).
Qed.

(** X9. The shape of a run of the loop that returns. Oracle calls
    alternate with tool runs and human reviews: the nodes at even
    positions are oracle calls and those at odd positions are not, the
    run starts and ends with an oracle call, and it makes exactly one
    oracle call more than tool runs and reviews together. *)
Theorem X9_oracle_calls_alternate (recursion_limit : nat)
    (message user_id university_id : string) (context : gmap string value)
    (r : RunResult) :
  run self recursion_limit message user_id university_id context = Ok r ->
  oracle_calls (executed r)
  = S (round_trips (executed r) + reviews (executed r)) /\
  length (executed r)
  = S (2 * (round_trips (executed r) + reviews (executed r))) /\
  (forall i n, executed r !! i = Some n -> is_agent n = Nat.even i).
Proof.
  intros Hrun. apply run_execution in Hrun as (final & Hex & _).
  pose proof (execution_balance _ _ _ _ Hex) as [Hb Hl].
  cbn [is_agent] in Hb.
  split; [lia |]. split; [lia |].
  exact (execution_parity _ _ _ _ Hex).
Qed.

Lemma should_continue_tools state :
  _should_continue self state = Ok tools ->
  any_requires_review self (last_calls state) state = Ok false.
Proof.
  intros H. destruct (last (messages state)) as [m |] eqn:Hlast.
  - destruct (last_message_some state m Hlast) as (Hm & ->).
    unfold _should_continue in H. rewrite Hm in H. cbn [bind] in H.
    destruct (tool_calls_of m) as [| c calls]; [discriminate |].
    destruct (any_requires_review self (c :: calls) state) as [[|] |];
      [discriminate | reflexivity | discriminate].
  - unfold _should_continue, last_message in H. now rewrite Hlast in H.
Qed.

Lemma should_continue_human_review state :
  _should_continue self state = Ok human_review ->
  any_requires_review self (last_calls state) state = Ok true.
Proof.
  intros H. destruct (last (messages state)) as [m |] eqn:Hlast.
  - destruct (last_message_some state m Hlast) as (Hm & ->).
    unfold _should_continue in H. rewrite Hm in H. cbn [bind] in H.
    destruct (tool_calls_of m) as [| c calls]; [discriminate |].
    destruct (any_requires_review self (c :: calls) state) as [[|] |];
      [reflexivity | discriminate | discriminate].
  - unfold _should_continue, last_message in H. now rewrite Hlast in H.
Qed.

Lemma call_tools_messages state state' :
  _call_tools self state = Ok state' ->
  messages state'
  = messages state
    ++ map (fun tool_call =>
              ToolMessage (tool_executor self tool_call)
                (ToolCall.id tool_call))
         (last_calls state).
Proof.
  unfold _call_tools, last_message, last_calls.
  destruct (last (messages state)) as [m |]; [| discriminate].
  cbn [bind from_option].
  destruct (tool_calls_of m); intros [= <-];
    [cbn; now rewrite app_nil_r | reflexivity].
Qed.

Lemma call_tools_pending state state' :
  _call_tools self state = Ok state' ->
  pending_approval state' = pending_approval state.
Proof.
  unfold _call_tools.
  destruct (last_message state) as [m |]; [| discriminate]. cbn [bind].
  destruct (tool_calls_of m); now intros [= <-].
Qed.

Lemma human_review_eq state state' :
  _human_review self state = Ok state' ->
  state'
  = set_pending_approval
      (Some (agent_id (config self), last_calls state, state)) state.
Proof.
  unfold _human_review, last_message, last_calls.
  destruct (last (messages state)) as [m |]; [| discriminate].
  now intros [= <-].
Qed.

Lemma execution_tool_messages next state steps final :
  answers_as_assistant self ->
  execution self next state steps final ->
  (next = tools ->
   any_requires_review self (last_calls state) state = Ok false) ->
  exists added,
    messages final = messages state ++ added /\
    Forall (answers_ungated_call self) added.
Proof.
  intros Horacle.
  induction 1 as [state | state next steps final Hnext Hex IH
                 | state state' steps final Hstep Hex IH
                 | state state' steps final Hstep Hex IH]; intros Hpre.
  - exists []. now rewrite app_nil_r.
  - destruct IH as (added & -> & Hadded).
    { intros ->. now apply should_continue_tools. }
    destruct (Horacle (messages state)) as (text & calls & Hreply).
    exists (AIMessage text calls :: added). split.
    + unfold _call_agent. cbn [set_messages messages].
      now rewrite Hreply, <- app_assoc.
    + now constructor.
  - destruct IH as (added & -> & Hadded); [discriminate |].
    rewrite (call_tools_messages _ _ Hstep), <- app_assoc.
    eexists. split; [reflexivity |].
    apply Forall_app. split; [| exact Hadded].
    apply Forall_forall. intros m (c & -> & Hc)%list_elem_of_fmap.
    exists c, state. split; [reflexivity |]. split; [reflexivity |].
    now apply (proj1 (any_requires_review_none (last_calls state) state)
                 (Hpre eq_refl)).
  - destruct IH as (added & -> & Hadded); [discriminate |].
    exists added. rewrite (human_review_eq _ _ Hstep). now split.
Qed.

(** X10. The tool executor only ever runs calls that the agent's gate
    let through. In a run of the graph that returns, in front of an
    oracle that answers with assistant messages, every tool message
    added to the conversation is the result of a call for which the gate
    answered false. The conversation only grows: no message is removed
    or rewritten. *)
Theorem X10_only_ungated_calls_are_executed (recursion_limit : nat)
    (initial final : AgentState) (nodes : list node) :
  answers_as_assistant self ->
  ainvoke self recursion_limit initial = Ok (final, nodes) ->
  exists added,
    messages final = messages initial ++ added /\
    Forall (answers_ungated_call self) added.
Proof.
  intros Horacle Hrun. apply ainvoke_execution in Hrun.
  now apply (execution_tool_messages agent initial nodes final).
Qed.

(** The last review of an execution: nothing but the review nodes
    writes the pending approval, and each review overwrites it with the
    state it was entered in. *)
Lemma execution_pending next state steps final :
  execution self next state steps final ->
  (next = human_review ->
   any_requires_review self (last_calls state) state = Ok true) ->
  (reviews steps = 0%nat /\
   pending_approval final = pending_approval state) \/
  (exists before after snapshot,
     steps = before ++ human_review :: after /\
     reviews after = 0%nat /\
     replay self before state = Ok snapshot /\
     pending_approval final
     = Some (agent_id (config self), last_calls snapshot, snapshot) /\
     any_requires_review self (last_calls snapshot) snapshot = Ok true).
Proof.
  unfold reviews.
  induction 1 as [state | state next steps final Hnext Hex IH
                 | state state' steps final Hstep Hex IH
                 | state state' steps final Hstep Hex IH]; intros Hpre;
    cbn [List.filter is_human_review length].
  - now left.
  - destruct IH as [[Hnone Hsame]
                   | (before & after & snap & -> & Hafter & Hreplay & Hp & Hg)].
    { intros ->. now apply should_continue_human_review. }
    + left. split; [exact Hnone | exact Hsame].
    + right. exists (agent :: before), after, snap.
      split; [reflexivity |]. split; [exact Hafter |].
      split; [exact Hreplay | now split].
  - destruct IH as [[Hnone Hsame]
                   | (before & after & snap & -> & Hafter & Hreplay & Hp & Hg)];
      [discriminate | |].
    + left. split; [exact Hnone |].
      now rewrite Hsame, (call_tools_pending _ _ Hstep).
    + right. exists (tools :: before), after, snap.
      split; [reflexivity |]. split; [exact Hafter |].
      split; [| now split].
      cbn [replay step]. now rewrite Hstep.
  - right.
    destruct IH as [[Hnone Hsame]
                   | (before & after & snap & -> & Hafter & Hreplay & Hp & Hg)];
      [discriminate | |].
    + exists [], steps, state.
      split; [reflexivity |]. split; [exact Hnone |].
      split; [reflexivity |]. split; [| now apply Hpre].
      rewrite Hsame, (human_review_eq _ _ Hstep). reflexivity.
    + exists (human_review :: before), after, snap.
      split; [reflexivity |]. split; [exact Hafter |].
      split; [| now split].
      cbn [replay step]. now rewrite Hstep.
Qed.

(** X11. The pending approval of a run's result is that of the last
    human review of the run. It is absent exactly when no review node
    was executed. When it is present, a review node was executed with
    no review after it, and the pending approval names the agent and
    holds the state in which that review was entered (the state the run
    reaches from its initial state by the nodes executed before it)
    together with the tool calls of that state's last message, a batch
    in which the gate stopped a call. Later oracle answers and tool
    runs leave it in the result. *)
Theorem X11_pending_approval_records_the_last_review (recursion_limit : nat)
    (message user_id university_id : string) (context : gmap string value)
    (r : RunResult) :
  run self recursion_limit message user_id university_id context = Ok r ->
  (result_pending_approval r = None <-> reviews (executed r) = 0%nat) /\
  (forall agent_id' calls snapshot,
      result_pending_approval r = Some (agent_id', calls, snapshot) ->
      agent_id' = agent_id (config self) /\
      calls = last_calls snapshot /\
      any_requires_review self calls snapshot = Ok true /\
      exists before after,
        executed r = before ++ human_review :: after /\
        reviews after = 0%nat /\
        replay self before
          (initial_state self message user_id university_id context)
        = Ok snapshot).
Proof.
  intros Hrun. apply run_execution in Hrun as (final & Hex & ->).
  apply execution_pending in Hex; [| discriminate].
  destruct Hex as [[Hnone Hsame]
                  | (before & after & snap & Hsteps & Hafter & Hreplay
                     & Hp & Hg)].
  - cbn [initial_state pending_approval] in Hsame. rewrite Hsame, Hnone.
    split; [easy | discriminate].
  - rewrite Hp. split.
    + split; [discriminate |]. rewrite Hsteps. unfold reviews.
      rewrite List.filter_app, length_app. cbn. lia.
    + intros a calls snapshot [= <- <- <-].
      split; [reflexivity |]. split; [reflexivity |]. split; [exact Hg |].
      exists before, after. now split.
Qed.

End Loop.

Lemma searching_llm_answers_as_assistant n executor c :
  answers_as_assistant (BaseAgent (AgentScenarios.searching_llm n) executor c).
Proof.
  intros conversation. cbn [llm_with_tools BaseAgent].
  unfold AgentScenarios.searching_llm.
  destruct (length conversation <? n)%nat; eauto.
Qed.

End MoreLoopFacts.

Module MoreLoopWitnesses.
Import Agents LoopObservations AgentScenarios LoopScenarios MoreLoopFacts.

Lemma X8_should_continue_witness :
  _should_continue alerting_price_watch review_state = Ok human_review /\
  _should_continue alerting_price_watch blank_state = Raise IndexError.
Proof.
  destruct (X8_should_continue_scans_in_order alerting_price_watch
              review_state) as (_ & _ & _ & Hscan).
  destruct (X8_should_continue_scans_in_order alerting_price_watch
              blank_state) as (Hempty & _).
  split; [| apply Hempty; reflexivity].
  apply (Hscan [search_call] critical_call [info_call]).
  - reflexivity.
  - intros c ->%list_elem_of_singleton. vm_compute. reflexivity.
  - vm_compute. reflexivity.
Defined.

Lemma X9_oracle_calls_witness :
  exists r,
    run one_shot_agent 25 "find pipettes" "user-1" "univ-1" ∅ = Ok r /\
    oracle_calls (executed r)
    = S (round_trips (executed r) + reviews (executed r)) /\
    executed r !! 0%nat = Some agent.
Proof.
  assert (Hrun : exists r,
             run one_shot_agent 25 "find pipettes" "user-1" "univ-1" ∅ = Ok r)
    by (eexists; vm_compute; reflexivity).
  destruct Hrun as [r Hrun].
  exists r. split; [exact Hrun |].
  destruct (X9_oracle_calls_alternate one_shot_agent 25
              "find pipettes" "user-1" "univ-1" ∅ r Hrun)
    as (Hcalls & Hlen & Hparity).
  split; [exact Hcalls |].
  destruct (executed r) as [| n nodes] eqn:Hnodes; [discriminate Hlen |].
  specialize (Hparity 0%nat n eq_refl).
  destruct n; try discriminate Hparity. reflexivity.
Defined.

(** A run of nine nodes, well below the step limit. *)
Lemma X10_only_ungated_calls_witness :
  exists final nodes added,
    ainvoke one_shot_agent 25 blank_state = Ok (final, nodes) /\
    (length nodes <= 9)%nat /\
    messages final = messages blank_state ++ added /\
    Forall (answers_ungated_call one_shot_agent) added.
Proof.
  assert (Hrun : exists final nodes,
             ainvoke one_shot_agent 25 blank_state = Ok (final, nodes) /\
             (length nodes <= 9)%nat).
  { do 2 eexists. split; [vm_compute; reflexivity |]. cbn. lia. }
  destruct Hrun as (final & nodes & Hrun & Hlen).
  destruct (X10_only_ungated_calls_are_executed one_shot_agent 25
              blank_state final nodes
              (searching_llm_answers_as_assistant _ _ _) Hrun)
    as (added & Hmessages & Hadded).
  exists final, nodes, added. split; [exact Hrun |].
  split; [exact Hlen |]. split; [exact Hmessages | exact Hadded].
Defined.

Lemma X11_pending_approval_witness :
  exists r snapshot,
    run alerting_price_watch 25 "watch pipettes" "user-1" "univ-1" ∅ = Ok r /\
    result_pending_approval r
    = Some ("price-watch", [search_call; critical_call], snapshot) /\
    replay alerting_price_watch [agent]
      (initial_state alerting_price_watch "watch pipettes" "user-1" "univ-1" ∅)
    = Ok snapshot.
Proof.
  assert (Hrun : exists r snapshot,
             run alerting_price_watch 25 "watch pipettes" "user-1" "univ-1" ∅
             = Ok r /\
             result_pending_approval r
             = Some ("price-watch", [search_call; critical_call], snapshot) /\
             executed r = [agent; human_review; agent])
    by (do 2 eexists; split; [vm_compute; reflexivity |];
        split; reflexivity).
  destruct Hrun as (r & snapshot & Hrun & Hpending & Hnodes).
  exists r, snapshot. split; [exact Hrun |]. split; [exact Hpending |].
  destruct (X11_pending_approval_records_the_last_review alerting_price_watch
              25 "watch pipettes" "user-1" "univ-1" ∅ r Hrun)
    as (_ & Hsome).
  destruct (Hsome _ _ _ Hpending)
    as (_ & _ & _ & before & after & Hsplit & Hafter & Hreplay).
  rewrite Hnodes in Hsplit.
  destruct before as [| n1 [| n2 [| n3 before]]];
    cbn in Hsplit; try discriminate Hsplit.
  - injection Hsplit as <- _. exact Hreplay.
  - injection Hsplit as _ _ _ Hrest. now destruct before.
Defined.

End MoreLoopWitnesses.

(* ===================================================================== *)
(** ** Signals and the status query                                       *)
(* ===================================================================== *)

Module SignalFacts.
Import Workflows RuntimeFacts WorkflowObservations.

Lemma deliver_flags sgs :
  forall s,
    approved (deliver sgs s) = approved s || existsb signal_approved sgs /\
    rejected (deliver sgs s)
    = rejected s || negb (forallb signal_approved sgs) /\
    rejection_reason (deliver sgs s)
    = from_option signal_reason (rejection_reason s) (last (rejections sgs)).
Proof.
  induction sgs as [| sg sgs IH]; intros s.
  - cbn. now rewrite !orb_false_r.
  - change (deliver (sg :: sgs) s) with (deliver sgs (approval_received sg s)).
    destruct (IH (approval_received sg s)) as (-> & -> & ->).
    unfold approval_received, rejections.
    cbn [existsb forallb List.filter].
    destruct (signal_approved sg); cbn [negb andb orb set_approved set_rejected
      approved rejected rejection_reason].
    + repeat split; try reflexivity. now rewrite orb_true_r.
    + rewrite !orb_true_r. repeat split; try reflexivity.
      rewrite last_cons.
      now destruct (last (List.filter _ sgs)).
Qed.

(** X12. The signal handler only ever raises flags. After any batch of
    signals the [approved] flag is set when it was set before or a
    signal approved, the [rejected] flag when it was set before or a
    signal rejected, and the rejection reason is that of the last
    rejecting signal; an approval does not clear an earlier rejection,
    so the status query can report both at once. *)
Theorem X12_signal_flags_are_sticky (sgs : list signal) (s : wf_state) :
  let s' := deliver sgs s in
  get_status s' !! "approved"
  = Some (VBool (approved s || existsb signal_approved sgs)) /\
  get_status s' !! "rejected"
  = Some (VBool (rejected s || negb (forallb signal_approved sgs))) /\
  get_status s' !! "rejection_reason"
  = Some (from_option signal_reason (rejection_reason s)
            (last (rejections sgs))) /\
  get_status s' !! "current_step" = Some (VStr (current_step s)) /\
  (approved s = true -> approved s' = true) /\
  (rejected s = true -> rejected s' = true).
Proof.
  cbv zeta.
  destruct (deliver_flags sgs s) as (Ha & Hr & Hreason).
  destruct (deliver_frame sgs s) as (_ & _ & _ & Hstep).
  unfold get_status. rewrite Ha, Hr, Hreason, Hstep.
  repeat split; try reflexivity.
  - now intros ->.
  - now intros ->.
Qed.

(** *** Signals do not steer a run *)

Section TwoRuns.
Variable env : Env.
Variable sgs : nat -> list signal.

Let env' := with_signals sgs env.

Lemma agree_fields s1 s2 :
  agree s1 s2 <->
  now s1 = now s2 /\ history s1 = history s2 /\
  deadlines s1 = deadlines s2 /\ current_step s1 = current_step s2.
Proof.
  unfold agree, visible. split.
  - intros [= -> -> -> ->]. auto.
  - intros (-> & -> & -> & ->). reflexivity.
Qed.

Lemma agree_after_await ev d s1 s2 :
  agree s1 s2 -> agree (after_await env ev d s1) (after_await env' ev d s2).
Proof.
  rewrite !agree_fields. intros (Hn & Hh & Hd & Hc).
  rewrite !after_await_now, !after_await_history, !after_await_deadlines,
    !after_await_current_step.
  cbn [env' with_signals lag]. now rewrite Hn, Hh, Hd, Hc.
Qed.

Lemma same_ret {A} (a : A) : same (ret a) (ret a).
Proof. intros s1 s2 H. now split. Qed.

Lemma same_return_ {A} r : same (@return_ A r) (return_ r).
Proof. intros s1 s2 H. now split. Qed.

Lemma same_raise {A} e : same (@raise A e) (raise e).
Proof. intros s1 s2 H. now split. Qed.

Lemma same_bind {A B} (m1 m2 : wf A) (k1 k2 : A -> wf B) :
  same m1 m2 -> (forall a, same (k1 a) (k2 a)) ->
  same (wf_bind m1 k1) (wf_bind m2 k2).
Proof.
  intros Hm Hk s1 s2 H. unfold wf_bind.
  destruct (Hm s1 s2 H) as (Hout & Hst).
  destruct (m1 s1) as [o1 t1], (m2 s2) as [o2 t2].
  cbn [fst snd] in Hout, Hst. subst o2.
  destruct o1; [now apply Hk | now split ..].
Qed.

Lemma same_modify (f1 f2 : wf_state -> wf_state) :
  (forall s1 s2, agree s1 s2 -> agree (f1 s1) (f2 s2)) ->
  same (modify f1) (modify f2).
Proof. intros Hf s1 s2 H. split; [reflexivity | now apply Hf]. Qed.

Lemma same_read {A} (f1 f2 : wf_state -> A) :
  (forall s1 s2, agree s1 s2 -> f1 s1 = f2 s2) ->
  same (read f1) (read f2).
Proof.
  intros Hf s1 s2 H. split; [| exact H].
  cbn. now rewrite (Hf s1 s2 H).
Qed.

Lemma same_key {A} k (field : option A) : same (key k field) (key k field).
Proof. destruct field; [apply same_ret | apply same_raise]. Qed.

Lemma same_lookup_item d k : same (lookup_item d k) (lookup_item d k).
Proof.
  unfold lookup_item. destruct (item d k); [apply same_ret | apply same_raise].
Qed.

Lemma same_set_current_step step :
  same (modify (set_current_step step)) (modify (set_current_step step)).
Proof.
  apply same_modify. intros s1 s2. rewrite !agree_fields.
  cbn. intros (-> & -> & -> & _). auto.
Qed.

Lemma same_set_approved : same (modify set_approved) (modify set_approved).
Proof.
  apply same_modify. intros s1 s2. rewrite !agree_fields. now cbn.
Qed.

Lemma same_note_deadline a deadline :
  same (modify (note_deadline a deadline)) (modify (note_deadline a deadline)).
Proof.
  apply same_modify. intros s1 s2. rewrite !agree_fields.
  cbn. intros (-> & -> & -> & ->). auto.
Qed.

Lemma same_execute_activity {A} a (reply : A) :
  same (execute_activity env a reply) (execute_activity env' a reply).
Proof.
  intros s1 s2 H. rewrite !execute_activity_eq.
  split; [reflexivity | now apply agree_after_await].
Qed.

Lemma same_sleep d : same (sleep env d) (sleep env' d).
Proof.
  intros s1 s2 H. rewrite !sleep_eq.
  split; [reflexivity | now apply agree_after_await].
Qed.

Lemma same_check_status rid : same (check_status env rid) (check_status env' rid).
Proof.
  intros s1 s2 H. rewrite !check_status_eq. cbn [fst snd].
  split; [| now apply agree_after_await].
  apply agree_fields in H as (Hn & Hh & _).
  unfold status_at. cbn [env' with_signals check_approval_status].
  now rewrite Hn, Hh.
Qed.

Lemma same_reject reason a :
  same (modify (set_rejected reason) ;;
        reason <- read rejection_reason ;;
        return_ (A := unit) (rejected_by reason a))
       (modify (set_rejected reason) ;;
        reason <- read rejection_reason ;;
        return_ (rejected_by reason a)).
Proof.
  intros s1 s2 H. split; [reflexivity |].
  cbn. apply agree_fields in H. now apply agree_fields.
Qed.

Lemma same_poll_loop fuel deadline rid a :
  same (poll_loop env fuel deadline rid a) (poll_loop env' fuel deadline rid a).
Proof.
  induction fuel as [| fuel IH]; intros s1 s2 H;
    pose proof (proj1 (agree_fields s1 s2) H) as (Hn & _);
    cbn [poll_loop]; rewrite Hn;
    (destruct (now s2 <? deadline)%N; [| now split]).
  - now split.
  - revert s1 s2 H Hn.
    enough (Hsame :
      same (status <- check_status env rid ;;
            if truthy (get status "approved") then ret tt
            else if truthy (get status "rejected") then
              modify (set_rejected
                        (get_default status "reason"
                           (VStr "Rejected by approver"))) ;;
              reason <- read rejection_reason ;;
              return_ (rejected_by reason a)
            else
              sleep env check_interval ;;
              poll_loop env fuel deadline rid a)
           (status <- check_status env' rid ;;
            if truthy (get status "approved") then ret tt
            else if truthy (get status "rejected") then
              modify (set_rejected
                        (get_default status "reason"
                           (VStr "Rejected by approver"))) ;;
              reason <- read rejection_reason ;;
              return_ (rejected_by reason a)
            else
              sleep env' check_interval ;;
              poll_loop env' fuel deadline rid a))
      by (intros s1 s2 H _; exact (Hsame s1 s2 H)).
    apply same_bind; [apply same_check_status |]. intros status.
    destruct (truthy (get status "approved")); [apply same_ret |].
    destruct (truthy (get status "rejected")); [apply same_reject |].
    apply same_bind; [apply same_sleep | intros _; exact IH].
Qed.

Lemma same_process_approver requisition a :
  same (process_approver env requisition a)
       (process_approver env' requisition a).
Proof.
  unfold process_approver.
  apply same_bind; [apply same_key |]. intros rid.
  apply same_bind; [apply same_key |]. intros amount.
  cbn [env' with_signals send_approval_notification escalate_approval].
  apply same_bind; [apply same_execute_activity |]. intros _.
  apply same_bind; [apply same_key |]. intros urg.
  intros s1 s2 H. pose proof (proj1 (agree_fields s1 s2) H) as (Hn & _).
  revert s1 s2 H Hn.
  enough (Hsame : forall start,
    same (modify (note_deadline a (start + hours (sla_hours_of urg))%N) ;;
          poll_loop env (poll_fuel (sla_hours_of urg))
            (start + hours (sla_hours_of urg))%N rid a ;;
          t <- read now ;;
          if ((start + hours (sla_hours_of urg))%N <=? t)%N then
            execute_activity env
              (EscalateApproval (approval_request rid a amount))
              (escalate_approval env (approval_request rid a amount)) ;;
            sleep env (hours 4) ;;
            status <- check_status env rid ;;
            if negb (truthy (get status "approved"))
            then return_ escalated_timeout
            else ret tt
          else ret tt)
         (modify (note_deadline a (start + hours (sla_hours_of urg))%N) ;;
          poll_loop env' (poll_fuel (sla_hours_of urg))
            (start + hours (sla_hours_of urg))%N rid a ;;
          t <- read now ;;
          if ((start + hours (sla_hours_of urg))%N <=? t)%N then
            execute_activity env'
              (EscalateApproval (approval_request rid a amount))
              (escalate_approval env (approval_request rid a amount)) ;;
            sleep env' (hours 4) ;;
            status <- check_status env' rid ;;
            if negb (truthy (get status "approved"))
            then return_ escalated_timeout
            else ret tt
          else ret tt)).
  { intros s1 s2 H Hn.
    change (wf_bind (read now) ?k s1) with (k (now s1) s1).
    change (wf_bind (read now) ?k s2) with (k (now s2) s2).
    rewrite Hn. exact (Hsame (now s2) s1 s2 H). }
  intros start.
  apply same_bind; [apply same_note_deadline |]. intros _.
  apply same_bind; [apply same_poll_loop |]. intros _.
  apply same_bind.
  { apply same_read. intros s1 s2 H. now apply agree_fields in H. }
  intros t. destruct (_ <=? t)%N; [| apply same_ret].
  apply same_bind; [apply same_execute_activity |]. intros _.
  apply same_bind; [apply same_sleep |]. intros _.
  apply same_bind; [apply same_check_status |]. intros status.
  destruct (negb _); [apply same_return_ | apply same_ret].
Qed.

Lemma same_process_approvers requisition l :
  same (process_approvers env requisition l)
       (process_approvers env' requisition l).
Proof.
  induction l as [| a l IH]; cbn [process_approvers]; [apply same_ret |].
  apply same_bind; [apply same_process_approver | intros _; exact IH].
Qed.

Lemma same_run requisition :
  same (RequisitionApprovalWorkflow_run env requisition)
       (RequisitionApprovalWorkflow_run env' requisition).
Proof.
  unfold RequisitionApprovalWorkflow_run.
  cbn [env' with_signals validate_budget generate_purchase_order
         send_po_to_vendor].
  apply same_bind; [apply same_set_current_step |]. intros _.
  apply same_bind; [apply same_key |]. intros code.
  apply same_bind; [apply same_key |]. intros amount.
  apply same_bind; [apply same_execute_activity |]. intros budget_check.
  apply same_bind; [apply same_lookup_item |]. intros available.
  destruct (negb (truthy available)); [apply same_return_ |].
  apply same_bind; [apply same_set_current_step |]. intros _.
  apply same_bind; [apply same_execute_activity |]. intros approvers.
  destruct approvers as [| a approvers].
  - apply same_bind; [apply same_set_current_step |]. intros _.
    apply same_bind; [apply same_key |]. intros rid.
    apply same_bind; [apply same_execute_activity |]. intros po_number.
    apply same_return_.
  - apply same_bind; [apply same_set_current_step |]. intros _.
    apply same_bind; [apply same_process_approvers |]. intros _.
    apply same_bind; [apply same_set_approved |]. intros _.
    apply same_bind; [apply same_set_current_step |]. intros _.
    apply same_bind; [apply same_key |]. intros rid.
    apply same_bind; [apply same_execute_activity |]. intros po_number.
    apply same_bind; [apply same_set_current_step |]. intros _.
    apply same_bind; [apply same_execute_activity |]. intros sent.
    apply same_return_.
Qed.

End TwoRuns.

(** X13. Signals do not steer a run of the approval workflow. The
    handler writes three attributes that [run] never reads, so with any
    other signals coming in, at any points, a run ends the same way:
    same result or error, same awaited operations at the same times,
    same tier deadlines, same current step. An approval by signal does
    not release a waiting tier; only the status store does. *)
Theorem X13_signals_do_not_steer_the_run (env : Env)
    (sgs : nat -> list signal) (requisition : Requisition) (t0 : N) :
  let this_run := RequisitionApprovalWorkflow_run env requisition (init t0) in
  let other_run :=
    RequisitionApprovalWorkflow_run (with_signals sgs env) requisition
      (init t0) in
  fst other_run = fst this_run /\
  visible (snd other_run) = visible (snd this_run).
Proof.
  cbv zeta.
  destruct (same_run env sgs requisition (init t0) (init t0) eq_refl)
    as (Hout & Hst).
  split; [now symmetry | now symmetry].
Qed.

End SignalFacts.

(* ===================================================================== *)
(** ** More on the approval run                                           *)
(* ===================================================================== *)

Module MoreRunFacts.
Import Workflows RuntimeFacts TierFacts RunFacts WorkflowObservations
  SignalFacts.

Lemma approved_after_await env ev d s :
  approved s = true -> approved (after_await env ev d s) = true.
Proof.
  intros H. unfold after_await.
  destruct (deliver_flags (signals env (length (history s)))
              (advance ev d (lag env (length (history s))) s)) as (-> & _).
  cbn [advance approved]. now rewrite H.
Qed.

Lemma after_await_quiet env ev d s :
  signals env (length (history s)) = [] ->
  rejected (after_await env ev d s) = rejected s /\
  approved (after_await env ev d s) = approved s /\
  rejection_reason (after_await env ev d s) = rejection_reason s.
Proof. intros H. unfold after_await. rewrite H. now cbn. Qed.

Lemma poll_fuel_succ urg : exists fuel, poll_fuel (sla_hours_of urg) = S fuel.
Proof.
  unfold poll_fuel, sla_hours_of.
  destruct (String.eqb urg "standard"); eexists; reflexivity.
Qed.

Lemma sla_positive urg : (0 < hours (sla_hours_of urg))%N.
Proof.
  unfold hours, sla_hours_of. destruct (String.eqb urg "standard"); lia.
Qed.

(** *** The budget check *)

Lemma run_budget_gate env requisition code amount s0 :
  budget_code requisition = Some code ->
  total requisition = Some amount ->
  let budget_check := validate_budget env code amount in
  let checked :=
    after_await env (Activity (ValidateBudget code amount)) 0
      (set_current_step "validating_budget" s0) in
  (budget_check !! "available" = None ->
   RequisitionApprovalWorkflow_run env requisition s0
   = (Raised (KeyError "available"), checked)) /\
  (forall available,
      budget_check !! "available" = Some available ->
      truthy available = false ->
      RequisitionApprovalWorkflow_run env requisition s0
      = (Returned (insufficient_budget budget_check), checked)).
Proof.
  intros Hcode Htotal. cbv zeta.
  split; [intros Hav | intros available Hav Hfalse];
    unfold RequisitionApprovalWorkflow_run; rewrite Hcode, Htotal;
    unfold wf_bind at 1 2 3 4; cbn [modify key ret];
    rewrite execute_activity_eq;
    unfold wf_bind at 1, lookup_item, item; rewrite Hav.
  - reflexivity.
  - cbn [ret]. now rewrite Hfalse.
Qed.

(** X14. The budget check decides whether a run goes on. A budget reply
    without the key ["available"] makes the run raise [KeyError]; a
    falsy ["available"] ends it with status ["rejected"], reason
    ["Insufficient budget"] and the whole reply as details. In both
    cases the budget validation is the only operation awaited and the
    step stays ["validating_budget"]; the run does not set the
    [rejected] attribute, so the status query still reports the run as
    not rejected. *)
Theorem X14_budget_gate (env : Env) (requisition : Requisition)
    (code : string) (amount : Q) (s0 : wf_state) :
  budget_code requisition = Some code ->
  total requisition = Some amount ->
  let budget_check := validate_budget env code amount in
  let checked :=
    after_await env (Activity (ValidateBudget code amount)) 0
      (set_current_step "validating_budget" s0) in
  (budget_check !! "available" = None ->
   RequisitionApprovalWorkflow_run env requisition s0
   = (Raised (KeyError "available"), checked)) /\
  (forall available,
      budget_check !! "available" = Some available ->
      truthy available = false ->
      RequisitionApprovalWorkflow_run env requisition s0
      = (Returned (insufficient_budget budget_check), checked) /\
      insufficient_budget budget_check !! "status" = Some (VStr "rejected") /\
      insufficient_budget budget_check !! "reason"
      = Some (VStr "Insufficient budget") /\
      insufficient_budget budget_check !! "details"
      = Some (VDict budget_check)) /\
  trace checked = trace s0 ++ [Activity (ValidateBudget code amount)] /\
  current_step checked = "validating_budget" /\
  (signals env (length (history s0)) = [] ->
   get_status checked !! "rejected" = Some (VBool (rejected s0))).
Proof.
  intros Hcode Htotal. cbv zeta.
  destruct (run_budget_gate env requisition code amount s0 Hcode Htotal)
    as (Hmissing & Hfalsy).
  split; [exact Hmissing |]. split; [| split; [| split]].
  - intros available Hav Hfalse. split; [| now split].
    now apply (Hfalsy available).
  - now rewrite after_await_trace.
  - now rewrite after_await_current_step.
  - intros Hquiet. unfold get_status.
    destruct (after_await_quiet env (Activity (ValidateBudget code amount)) 0
                (set_current_step "validating_budget" s0) Hquiet) as (-> & _).
    reflexivity.
Qed.

(** *** How a run can end *)

Lemma rejected_by_status reason a :
  rejected_by reason a !! "status" = Some (VStr "rejected").
Proof. reflexivity. Qed.

Lemma insufficient_budget_status budget_check :
  insufficient_budget budget_check !! "status" = Some (VStr "rejected").
Proof. reflexivity. Qed.

Lemma auto_approved_status po_number :
  auto_approved po_number !! "status" = Some (VStr "complete").
Proof. reflexivity. Qed.

Lemma complete_status po_number sent :
  complete po_number sent !! "status" = Some (VStr "complete").
Proof. reflexivity. Qed.

Lemma escalated_timeout_status :
  escalated_timeout !! "status" = Some (VStr "escalated_timeout").
Proof. reflexivity. Qed.

(** The endings of a run in which every activity replies: a result
    with one of three statuses, or [KeyError] for a key the run reads. *)
Lemma run_ending_cases (env : Env)
    (requisition : Requisition) (s0 : wf_state) :
  exists s',
    (exists r status,
        RequisitionApprovalWorkflow_run env requisition s0 = (Returned r, s') /\
        r !! "status" = Some status /\ status ∈ result_statuses) \/
    (exists k,
        RequisitionApprovalWorkflow_run env requisition s0
        = (Raised (KeyError k), s') /\
        k ∈ requisition_keys).
Proof.
  assert (Hkey : forall k, k ∈ requisition_keys ->
            forall s', RequisitionApprovalWorkflow_run env requisition s0
                       = (Raised (KeyError k), s') ->
            exists s',
              (exists r status,
                  RequisitionApprovalWorkflow_run env requisition s0
                  = (Returned r, s') /\
                  r !! "status" = Some status /\ status ∈ result_statuses) \/
              (exists k,
                  RequisitionApprovalWorkflow_run env requisition s0
                  = (Raised (KeyError k), s') /\
                  k ∈ requisition_keys)).
  { intros k Hk s' Hrun. exists s'. right. exists k. now split. }
  assert (Hret : forall r status, r !! "status" = Some status ->
            status ∈ result_statuses ->
            forall s', RequisitionApprovalWorkflow_run env requisition s0
                       = (Returned r, s') ->
            exists s',
              (exists r status,
                  RequisitionApprovalWorkflow_run env requisition s0
                  = (Returned r, s') /\
                  r !! "status" = Some status /\ status ∈ result_statuses) \/
              (exists k,
                  RequisitionApprovalWorkflow_run env requisition s0
                  = (Raised (KeyError k), s') /\
                  k ∈ requisition_keys)).
  { intros r status Hst Hin s' Hrun. exists s'. left. exists r, status.
    now split. }
  assert (Hrejected : VStr "rejected" ∈ result_statuses)
    by (unfold result_statuses; repeat constructor).
  assert (Htimeout : VStr "escalated_timeout" ∈ result_statuses)
    by (unfold result_statuses; repeat constructor).
  assert (Hcomplete : VStr "complete" ∈ result_statuses)
    by (unfold result_statuses; repeat constructor).
  destruct (budget_code requisition) as [code |] eqn:Hcode.
  2: { eapply (Hkey "budget_code");
       [unfold requisition_keys; repeat constructor |].
       unfold RequisitionApprovalWorkflow_run. rewrite Hcode. reflexivity. }
  destruct (total requisition) as [amount |] eqn:Htotal.
  2: { eapply (Hkey "total");
       [unfold requisition_keys; repeat constructor |].
       unfold RequisitionApprovalWorkflow_run. rewrite Hcode, Htotal.
       reflexivity. }
  destruct (run_budget_gate env requisition code amount s0 Hcode Htotal)
    as (Hmissing & Hfalsy).
  destruct (validate_budget env code amount !! "available")
    as [available |] eqn:Hav.
  2: { eapply (Hkey "available");
       [unfold requisition_keys; repeat constructor |].
       now apply Hmissing. }
  destruct (truthy available) eqn:Htruthy.
  2: { exact (Hret _ _ (insufficient_budget_status _) Hrejected _
                (Hfalsy available eq_refl Htruthy)). }
  assert (Hbudget : budget_ok (validate_budget env code amount))
    by (exists available; now split).
  destruct (determine_approvers amount) as [| a l] eqn:Hchain.
  - destruct (requisition_id requisition) as [rid |] eqn:Hrid.
    + destruct (run_auto_approved env requisition code rid amount
                  Hcode Htotal Hbudget Hrid s0 Hchain) as (s' & Hrun & _).
      exact (Hret _ _ (auto_approved_status _) Hcomplete _ Hrun).
    + eapply (Hkey "requisition_id");
        [unfold requisition_keys; repeat constructor |].
      rewrite (run_prefix env requisition code amount Hcode Htotal Hbudget).
      cbv zeta. rewrite Hchain. unfold wf_bind at 1 2. cbn [modify].
      rewrite Hrid. reflexivity.
  - destruct (requisition_id requisition) as [rid |] eqn:Hrid.
    2: { eapply (Hkey "requisition_id");
         [unfold requisition_keys; repeat constructor |].
         rewrite (run_prefix env requisition code amount Hcode Htotal Hbudget).
         cbv zeta. rewrite Hchain. unfold wf_bind at 1 2. cbn [modify].
         cbn [process_approvers]. unfold wf_bind at 1.
         unfold process_approver. rewrite Hrid. reflexivity. }
    assert (Hne : determine_approvers amount <> [])
      by now rewrite Hchain.
    pose proof (run_through_loop env requisition code rid amount
                  Hcode Htotal Hbudget Hrid s0 Hne) as Hrun.
    rewrite Hchain in Hrun.
    destruct (urgency requisition) as [urg |] eqn:Hurg.
    2: { destruct (process_approvers_no_urgency env requisition rid amount
                     Htotal Hrid a l
                     (at_loop_entry env requisition code amount s0) Hurg)
           as (s' & Hloop).
         rewrite Hloop in Hrun.
         eapply (Hkey "urgency");
           [unfold requisition_keys; repeat constructor | exact Hrun]. }
    destruct (process_approvers env requisition (a :: l)
                (at_loop_entry env requisition code amount s0))
      as [o s1] eqn:Hloop.
    destruct (process_approvers_shape env requisition rid amount urg
                Hrid Htotal Hurg (a :: l) _ _ _ Hloop)
      as ([-> | [(b & reason & _ & ->) | ->]] & _).
    + exact (Hret _ _ (complete_status _ _) Hcomplete _ Hrun).
    + exact (Hret _ _ (rejected_by_status reason b) Hrejected _ Hrun).
    + exact (Hret _ _ escalated_timeout_status Htimeout _ Hrun).
Qed.

(** X15. The statuses a run of the approval workflow can return. A
    result returned by [run] has the status ["rejected"],
    ["escalated_timeout"] or ["complete"], whatever the collaborators
    reply and however long they take; and the waiting never goes on for
    ever: no tier polls without end. *)
Theorem X15_result_statuses (env : Env) (requisition : Requisition)
    (s0 : wf_state) :
  fst (RequisitionApprovalWorkflow_run env requisition s0) <> Diverged /\
  (forall r s',
      RequisitionApprovalWorkflow_run env requisition s0 = (Returned r, s') ->
      exists status,
        r !! "status" = Some status /\ status ∈ result_statuses).
Proof.
  destruct (run_ending_cases env requisition s0)
    as (s1 & [(r1 & status & Hrun & Hstatus & Hin) | (k & Hrun & _)]).
  - split; [now rewrite Hrun |].
    intros r s' Hret. rewrite Hrun in Hret. injection Hret as <- _.
    now exists status.
  - split; [now rewrite Hrun |].
    intros r s' Hret. rewrite Hrun in Hret. discriminate Hret.
Qed.

End MoreRunFacts.

(* ===================================================================== *)
(** ** More on the tiers                                                  *)
(* ===================================================================== *)

Module MoreTierFacts.
Import Workflows RuntimeFacts TierFacts RunFacts WorkflowObservations
  SignalFacts MoreRunFacts.

Section OneRequisition.
Variable env : Env.
Variable requisition : Requisition.
Variables (code rid urg : string) (amount : Q).
Hypothesis Hcode : budget_code requisition = Some code.
Hypothesis Htotal : total requisition = Some amount.
Hypothesis Hrid : requisition_id requisition = Some rid.
Hypothesis Hurgency : urgency requisition = Some urg.

Lemma wait_start_before_deadline a s :
  (now (wait_start env rid a amount urg s)
   < tier_deadline env rid a amount urg s)%N.
Proof.
  rewrite (wait_start_now env rid amount urg a s).
  rewrite (tier_deadline_eq env rid amount urg a s).
  pose proof (sla_positive urg). lia.
Qed.

Lemma wait_start_history a s :
  history (wait_start env rid a amount urg s)
  = history s
    ++ [(now s,
         Activity (SendApprovalNotification (approval_request rid a amount)))].
Proof.
  unfold wait_start, notified_state. cbn [note_deadline history].
  now rewrite after_await_history.
Qed.

Lemma after_grace_history a s :
  exists t2,
    history (after_check env rid (after_grace env rid a amount s))
    = history s
      ++ [(now s, Activity (EscalateApproval (approval_request rid a amount)));
          (t2, Sleep (hours 4));
          (now (after_grace env rid a amount s),
           Activity (CheckApprovalStatus rid))] /\
    (now s <= t2)%N /\
    (t2 + hours 4 <= now (after_grace env rid a amount s))%N.
Proof.
  eexists. unfold after_check, after_grace.
  rewrite !after_await_history, <- !app_assoc.
  split; [reflexivity |]. rewrite !after_await_now. lia.
Qed.

(** *** A store that approves at once *)

Section Approving.
Hypothesis Happroved :
  forall k t,
    truthy (get (check_approval_status env k t rid) "approved") = true.

Lemma tier_approved a s :
  exists s',
    process_approver env requisition a s = (Went tt, s') /\
    (escalations (history s') <= S (escalations (history s)))%nat /\
    ((forall k, (lag env k < hours (sla_hours_of urg))%N) ->
     escalations (history s') = escalations (history s)).
Proof.
  rewrite (process_approver_eq env requisition rid amount urg
             Hrid Htotal Hurgency).
  cbv zeta.
  destruct (poll_fuel_succ urg) as (fuel & ->).
  rewrite poll_loop_approved;
    [| apply wait_start_before_deadline | apply Happroved].
  set (s2 := wait_start env rid a amount urg s).
  assert (Hs3 : history (after_check env rid s2)
                = history s
                  ++ [(now s,
                       Activity (SendApprovalNotification
                                   (approval_request rid a amount)));
                      (now s2, Activity (CheckApprovalStatus rid))]).
  { unfold after_check. rewrite after_await_history.
    unfold s2. now rewrite wait_start_history, <- app_assoc. }
  destruct (N.leb_spec (tier_deadline env rid a amount urg s)
              (now (after_check env rid s2))) as [Hlate | Hearly].
  - unfold status_at. rewrite Happroved. cbn [negb].
    eexists. split; [reflexivity |].
    destruct (after_grace_history a (after_check env rid s2))
      as (t2 & -> & _).
    rewrite Hs3, !escalations_app. cbn. split; [lia |].
    intros Hlag. exfalso.
    unfold after_check in Hlate. rewrite after_await_now in Hlate.
    unfold s2 in Hlate.
    rewrite (wait_start_now env rid amount urg a s) in Hlate.
    rewrite (tier_deadline_eq env rid amount urg a s) in Hlate.
    specialize
      (Hlag (length (history (wait_start env rid a amount urg s)))). lia.
  - eexists. split; [reflexivity |].
    rewrite Hs3, !escalations_app. cbn. split; [lia |]. intros _. lia.
Qed.

Lemma chain_approved l :
  forall s,
    exists s',
      process_approvers env requisition l s = (Went tt, s') /\
      (escalations (history s') <= escalations (history s) + length l)%nat /\
      ((forall k, (lag env k < hours (sla_hours_of urg))%N) ->
       escalations (history s') = escalations (history s)).
Proof.
  induction l as [| a l IH]; intros s.
  - exists s. cbn. split; [reflexivity |]. split; [lia | reflexivity].
  - destruct (tier_approved a s) as (s1 & Htier & Hle & Hnone).
    destruct (IH s1) as (s' & Hrest & Hle' & Hnone').
    exists s'. rewrite process_approvers_cons, Htier.
    split; [exact Hrest |]. cbn [length]. split; [lia |].
    intros Hlag. rewrite (Hnone' Hlag). now apply Hnone.
Qed.

Hypothesis Hbudget : budget_ok (validate_budget env code amount).
Hypothesis Hchain : determine_approvers amount <> [].

(** X16. When every status check finds an approval, the run goes
    through the whole chain, whatever the delays: it ends ["complete"]
    with the purchase order generated and transmitted, every approver
    of the chain notified once, in the order of the chain, and the
    [approved] attribute set. A tier escalates at most once, and not at
    all when every operation takes less than the SLA. *)
Theorem X16_approving_store_completes_the_run (t0 : N) :
  exists final,
    RequisitionApprovalWorkflow_run env requisition (init t0)
    = (Returned (complete (generate_purchase_order env rid)
                   (send_po_to_vendor env (generate_purchase_order env rid)
                      (default "" (vendor_id requisition)))),
       final) /\
    notified (history final)
    = (VStr ∘ approver_id) <$> determine_approvers amount /\
    approved final = true /\
    current_step final = "sending_to_vendor" /\
    (escalations (history final)
     <= length (determine_approvers amount))%nat /\
    ((forall k, (lag env k < hours (sla_hours_of urg))%N) ->
     escalations (history final) = 0%nat).
Proof.
  rewrite (run_through_loop env requisition code rid amount
             Hcode Htotal Hbudget Hrid (init t0) Hchain).
  set (s := at_loop_entry env requisition code amount (init t0)).
  assert (Hs : exists t1,
             history s
             = [(t0, Activity (ValidateBudget code amount));
                (t1, Activity (DetermineApprovers requisition))]).
  { eexists. unfold s, at_loop_entry. cbn [set_current_step history].
    rewrite after_await_history. cbn [set_current_step history].
    rewrite after_await_history. reflexivity. }
  destruct Hs as (t1 & Hs).
  destruct (chain_approved (determine_approvers amount) s)
    as (s' & Hloop & Hle & Hnone).
  destruct (process_approvers_shape env requisition rid amount urg
              Hrid Htotal Hurgency _ _ _ _ Hloop)
    as (_ & entered & _ & Hnotified & Hall).
  rewrite (Hall eq_refl) in Hnotified.
  rewrite Hloop. eexists. split; [reflexivity |].
  assert (Hfinal : history (po_sent env requisition rid s')
                   = history s'
                     ++ [(now (set_approved s'),
                          Activity (GeneratePurchaseOrder rid));
                         (now (po_generated env rid s'),
                          Activity
                            (SendPoToVendor (generate_purchase_order env rid)
                               (default "" (vendor_id requisition))))]).
  { unfold po_sent. rewrite after_await_history.
    cbn [set_current_step history now]. unfold po_generated at 1.
    rewrite after_await_history. cbn [set_current_step set_approved history now].
    now rewrite <- app_assoc. }
  rewrite Hfinal, notified_app, escalations_app, Hnotified, Hs.
  cbn [notified omap notification_to snd escalations List.filter
         is_escalation length app].
  rewrite Hs in Hle. cbn in Hle.
  split; [now rewrite app_nil_r |].
  split.
  { unfold po_sent. apply approved_after_await.
    cbn [set_current_step approved]. unfold po_generated.
    now apply approved_after_await. }
  split.
  { unfold po_sent. now rewrite after_await_current_step. }
  split; [lia |].
  intros Hlag. rewrite (Hnone Hlag), Hs. reflexivity.
Qed.

End Approving.

(** *** An approval that arrives during the grace period *)

(** X17. An approval that arrives late is still honoured. If the
    status checks of a tier (those made from the start of its wait on)
    find no decision before the tier's deadline and an approval once
    the four hours after the escalation are over, the tier polls until
    the deadline has passed, escalates once, sleeps four hours, checks
    once more and is passed: the loop goes on to the next approver, who
    is notified. What the store replied to earlier tiers does not
    matter. *)
Theorem X17_late_approval_passes_the_tier (a : approver) (s : wf_state) :
  let deadline := tier_deadline env rid a amount urg s in
  let waiting := wait_start env rid a amount urg s in
  (forall k t, (length (history waiting) <= k)%nat ->
               (now waiting <= t < deadline)%N ->
               undecided (check_approval_status env k t rid)) ->
  (forall k t, (length (history waiting) <= k)%nat ->
               (deadline + hours 4 <= t)%N ->
               truthy (get (check_approval_status env k t rid) "approved")
               = true) ->
  exists s' polls tail,
    process_approver env requisition a s = (Went tt, s') /\
    history s'
    = history s
      ++ [(now s,
           Activity (SendApprovalNotification (approval_request rid a amount)))]
      ++ polls ++ tail /\
    Forall (is_poll rid) polls /\
    escalation_tail rid a amount tail /\
    escalations (history s') = S (escalations (history s)) /\
    (forall b rest o s'',
        process_approvers env requisition (a :: b :: rest) s = (o, s'') ->
        VStr (approver_id b) ∈ notified (history s'')).
Proof.
  intros deadline waiting Hquiet Hgrace.
  destruct (poll_loop_waits_out env deadline rid a
              (length (history waiting)) (now waiting)
              (poll_fuel (sla_hours_of urg)) Hquiet waiting)
    as (s3 & polls & Hloop & Hs3 & Hh & Hpolls).
  { lia. }
  { lia. }
  { apply (poll_fuel_enough env rid amount urg). }
  destruct (after_grace_history a s3) as (t2 & Hfinal & Ht1 & Ht2).
  set (s5 := after_grace env rid a amount s3) in *.
  assert (Hs5 : (deadline + hours 4 <= now s5)%N) by lia.
  assert (Hk5 : (length (history waiting) <= length (history s5))%nat).
  { unfold s5, after_grace. rewrite !after_await_history, Hh, !length_app.
    lia. }
  assert (Htier : process_approver env requisition a s
                  = (Went tt, after_check env rid s5)).
  { rewrite (process_approver_eq env requisition rid amount urg
               Hrid Htotal Hurgency).
    cbv zeta. fold deadline. fold waiting. rewrite Hloop.
    destruct (N.leb_spec deadline (now s3)); [| lia].
    fold s5. unfold status_at. now rewrite (Hgrace _ _ Hk5 Hs5). }
  unfold waiting in Hh.
  rewrite Hh, wait_start_history, <- !app_assoc in Hfinal.
  exists (after_check env rid s5), polls. eexists.
  split; [exact Htier |]. split; [exact Hfinal |].
  split; [exact Hpolls |]. split.
  { exists (now s3), t2, (now s5). split; [reflexivity |]. lia. }
  split.
  { rewrite Hfinal, !escalations_app, (escalations_polls rid polls Hpolls).
    cbn. lia. }
  intros b rest o s'' Hrun.
  rewrite process_approvers_cons, Htier, process_approvers_cons in Hrun.
  destruct (process_approver env requisition b (after_check env rid s5))
    as [ob sb] eqn:Hb.
  pose proof (process_approver_notified env requisition rid amount urg
                Hrid Htotal Hurgency b _ _ _ Hb) as Hnb.
  assert (Hin : VStr (approver_id b) ∈ notified (history sb)).
  { rewrite Hnb. apply elem_of_app. right. now left. }
  destruct ob as [[] | r | e |];
    [| now injection Hrun as <- <- ..].
  destruct (process_approvers_shape env requisition rid amount urg
              Hrid Htotal Hurgency _ _ _ _ Hrun)
    as (_ & entered & _ & -> & _).
  apply elem_of_app. now left.
Qed.

(** *** How often a tier asks the store *)

Lemma checks_app h1 h2 : checks (h1 ++ h2) = (checks h1 + checks h2)%nat.
Proof. unfold checks. now rewrite List.filter_app, length_app. Qed.

Lemma checks_after_check s :
  checks (history (after_check env rid s)) = S (checks (history s)).
Proof.
  unfold after_check. rewrite after_await_history, checks_app. cbn. lia.
Qed.

Lemma poll_loop_checks deadline a fuel :
  forall s o s',
    poll_loop env fuel deadline rid a s = (o, s') ->
    (checks (history s') <= checks (history s) + fuel)%nat.
Proof.
  induction fuel as [| fuel IH]; intros s o s' Hloop;
    (destruct (N.ltb_spec (now s) deadline) as [Hlt | Hge];
     [| rewrite poll_loop_past_deadline in Hloop by exact Hge;
        injection Hloop as <- <-; lia]).
  - cbn [poll_loop] in Hloop.
    destruct (N.ltb_spec (now s) deadline); [| lia].
    injection Hloop as <- <-. lia.
  - destruct (truthy (get (status_at env rid s) "approved")) eqn:Happ.
    { rewrite poll_loop_approved in Hloop by assumption.
      injection Hloop as <- <-. rewrite checks_after_check. lia. }
    destruct (truthy (get (status_at env rid s) "rejected")) eqn:Hrej.
    { rewrite poll_loop_rejected in Hloop by assumption.
      injection Hloop as <- <-. cbn [set_rejected history].
      rewrite checks_after_check. lia. }
    rewrite poll_loop_undecided in Hloop by assumption.
    apply IH in Hloop. rewrite poll_once_history, checks_app in Hloop.
    cbn in Hloop. lia.
Qed.

(** X21. A tier asks the status store a bounded number of times. While
    it waits, a tier checks at most four times per hour of its SLA,
    and once more after the grace period: at most 193 checks under
    standard urgency, at most 33 otherwise. The waiting of a tier
    always comes to an end: the tier is passed, or the run returns. *)
Theorem X21_status_checks_per_tier (a : approver) (s : wf_state)
    (o : flow unit) (s' : wf_state) :
  process_approver env requisition a s = (o, s') ->
  (o = Went tt \/ exists r, o = Returned r) /\
  (checks (history s')
   <= checks (history s) + N.to_nat (4 * sla_hours_of urg) + 1)%nat /\
  (urg = "standard" ->
   (checks (history s') <= checks (history s) + 193)%nat) /\
  (urg <> "standard" ->
   (checks (history s') <= checks (history s) + 33)%nat).
Proof.
  intros Hrun.
  assert (Hend : o = Went tt \/ exists r, o = Returned r).
  { destruct (process_approver_shape env requisition rid amount urg
                Hrid Htotal Hurgency a s o s' Hrun)
      as (_ & _ & [-> | [(reason & ->) | ->]]); eauto. }
  assert (Hbound : (checks (history s')
            <= checks (history s) + N.to_nat (4 * sla_hours_of urg) + 1)%nat).
  { rewrite (process_approver_eq env requisition rid amount urg
               Hrid Htotal Hurgency) in Hrun.
    cbv zeta in Hrun.
    destruct (poll_loop env (poll_fuel (sla_hours_of urg))
                (tier_deadline env rid a amount urg s) rid a
                (wait_start env rid a amount urg s)) as [o3 s3] eqn:Hloop.
    apply poll_loop_checks in Hloop.
    rewrite wait_start_history, checks_app in Hloop.
    cbn in Hloop. fold (poll_fuel (sla_hours_of urg)).
    assert (Hgrace : checks (history (after_check env rid
                                        (after_grace env rid a amount s3)))
                     = S (checks (history s3))).
    { destruct (after_grace_history a s3) as (t2 & -> & _).
      rewrite checks_app. cbn. lia. }
    destruct o3 as [[] | r | e |];
      [| injection Hrun as <- <-; lia ..].
    destruct (_ <=? now s3)%N; [| injection Hrun as <- <-; lia].
    destruct (negb _); injection Hrun as <- <-; lia. }
  split; [exact Hend |]. split; [exact Hbound |].
  unfold sla_hours_of in Hbound. split.
  - intros ->. cbn in Hbound. lia.
  - intros Hne. apply String.eqb_neq in Hne. rewrite Hne in Hbound.
    cbn in Hbound. lia.
Qed.

End OneRequisition.
End MoreTierFacts.

(* ===================================================================== *)
(** ** More on the invoice run                                            *)
(* ===================================================================== *)

Module MoreInvoiceFacts.
Import Workflows RuntimeFacts RunFacts.

Section InvoiceRun.
Variable env : Env.
Variable invoice_id : string.

Let invoice := parse_invoice env invoice_id.
Let po_match := find_matching_po env invoice.

Lemma invoice_run_no_found_key s0 :
  po_match !! "found" = None ->
  exists s',
    InvoiceValidationWorkflow_run env invoice_id s0
    = (Raised (KeyError "found"), s') /\
    trace s' = trace s0 ++ [Activity (ParseInvoice invoice_id);
                            Activity (FindMatchingPo invoice)].
Proof.
  intros Hfound. unfold InvoiceValidationWorkflow_run.
  unfold wf_bind at 1 2 3. rewrite !execute_activity_eq.
  unfold lookup_item, item. fold invoice. fold po_match.
  rewrite Hfound. cbn [raise].
  eexists. split; [reflexivity |].
  rewrite !after_await_trace, <- app_assoc. reflexivity.
Qed.

Variable found : value.
Hypothesis Hfound : po_match !! "found" = Some found.
Hypothesis Htruthy : truthy found = true.

Lemma invoice_run_no_po_number s0 :
  po_match !! "po_number" = None ->
  exists s',
    InvoiceValidationWorkflow_run env invoice_id s0
    = (Raised (KeyError "po_number"), s') /\
    trace s' = trace s0 ++ [Activity (ParseInvoice invoice_id);
                            Activity (FindMatchingPo invoice)].
Proof.
  intros Hpo. unfold InvoiceValidationWorkflow_run.
  unfold wf_bind at 1 2 3. rewrite !execute_activity_eq.
  fold invoice. fold po_match.
  unfold lookup_item at 1, item. rewrite Hfound. cbn [ret].
  rewrite Htruthy. cbn [negb].
  unfold wf_bind at 1. unfold lookup_item at 1, item. rewrite Hpo.
  cbn [raise].
  eexists. split; [reflexivity |].
  rewrite !after_await_trace, <- app_assoc. reflexivity.
Qed.

Variable po_number : value.
Hypothesis Hpo : po_match !! "po_number" = Some po_number.

Let line_matches := match_invoice_lines env invoice po_number.
Let price_validation := validate_contract_prices env invoice line_matches.
Let receipt_check := verify_receipts env invoice po_number.

Lemma invoice_run_to_verdict s0 :
  InvoiceValidationWorkflow_run env invoice_id s0 =
    (pass <- all_checks_pass line_matches price_validation receipt_check ;;
     if pass then
       execute_activity env (ApproveInvoice invoice_id)
         (approve_invoice env invoice_id) ;;
       return_ invoice_approved
     else
       exception_id <-
         execute_activity env
           (CreateException invoice_id line_matches price_validation
              receipt_check)
           (create_exception env invoice_id line_matches price_validation
              receipt_check) ;;
       return_ (invoice_exception exception_id line_matches
                  price_validation receipt_check))
      (after_await env (Activity (VerifyReceipts invoice po_number)) 0
         (after_await env
            (Activity (ValidateContractPrices invoice line_matches)) 0
            (after_await env
               (Activity (MatchInvoiceLines invoice po_number)) 0
               (after_await env (Activity (FindMatchingPo invoice)) 0
                  (after_await env
                     (Activity (ParseInvoice invoice_id)) 0 s0))))).
Proof.
  unfold InvoiceValidationWorkflow_run.
  unfold wf_bind at 1 2 3. rewrite !execute_activity_eq.
  fold invoice. fold po_match.
  unfold lookup_item at 1, item. rewrite Hfound. cbn [ret].
  rewrite Htruthy. cbn [negb].
  unfold wf_bind at 1. unfold lookup_item at 1, item. rewrite Hpo.
  cbn [ret].
  unfold wf_bind at 1 2 3. rewrite !execute_activity_eq.
  fold line_matches. fold price_validation.
  unfold lookup_item at 1, item. rewrite Hpo. cbn [ret].
  unfold wf_bind at 1 2. rewrite execute_activity_eq.
  reflexivity.
Qed.

Lemma checks_trace s0 :
  trace (after_await env (Activity (VerifyReceipts invoice po_number)) 0
           (after_await env
              (Activity (ValidateContractPrices invoice line_matches)) 0
              (after_await env
                 (Activity (MatchInvoiceLines invoice po_number)) 0
                 (after_await env (Activity (FindMatchingPo invoice)) 0
                    (after_await env
                       (Activity (ParseInvoice invoice_id)) 0 s0)))))
  = trace s0 ++ [Activity (ParseInvoice invoice_id);
                 Activity (FindMatchingPo invoice);
                 Activity (MatchInvoiceLines invoice po_number);
                 Activity (ValidateContractPrices invoice line_matches);
                 Activity (VerifyReceipts invoice po_number)].
Proof. rewrite !after_await_trace, <- !app_assoc. reflexivity. Qed.

(** The verdict on three replies, from the state [s] in which the
    checks are done. *)
Lemma verdict_first_falsy all_matched s :
  line_matches !! "all_matched" = Some all_matched ->
  truthy all_matched = false ->
  all_checks_pass line_matches price_validation receipt_check s
  = (Went false, s).
Proof.
  intros Hm Hf. unfold all_checks_pass, wf_bind, lookup_item, item.
  rewrite Hm. cbn [ret]. now rewrite Hf.
Qed.

Lemma verdict_second_falsy all_matched all_valid s :
  line_matches !! "all_matched" = Some all_matched ->
  truthy all_matched = true ->
  price_validation !! "all_valid" = Some all_valid ->
  truthy all_valid = false ->
  all_checks_pass line_matches price_validation receipt_check s
  = (Went false, s).
Proof.
  intros Hm Ht Hv Hf. unfold all_checks_pass, wf_bind, lookup_item, item.
  rewrite Hm. cbn [ret]. rewrite Ht, Hv. cbn [ret]. now rewrite Hf.
Qed.

Lemma verdict_missing_key s :
  (line_matches !! "all_matched" = None ->
   all_checks_pass line_matches price_validation receipt_check s
   = (Raised (KeyError "all_matched"), s)) /\
  (forall all_matched,
      line_matches !! "all_matched" = Some all_matched ->
      truthy all_matched = true ->
      price_validation !! "all_valid" = None ->
      all_checks_pass line_matches price_validation receipt_check s
      = (Raised (KeyError "all_valid"), s)) /\
  (forall all_matched all_valid,
      line_matches !! "all_matched" = Some all_matched ->
      truthy all_matched = true ->
      price_validation !! "all_valid" = Some all_valid ->
      truthy all_valid = true ->
      receipt_check !! "all_received" = None ->
      all_checks_pass line_matches price_validation receipt_check s
      = (Raised (KeyError "all_received"), s)).
Proof.
  split; [| split].
  - intros Hm. unfold all_checks_pass, wf_bind, lookup_item, item.
    now rewrite Hm.
  - intros all_matched Hm Ht Hv.
    unfold all_checks_pass, wf_bind, lookup_item, item.
    rewrite Hm. cbn [ret]. now rewrite Ht, Hv.
  - intros all_matched all_valid Hm Ht Hv Ht' Hr.
    unfold all_checks_pass, wf_bind, lookup_item, item.
    rewrite Hm. cbn [ret]. rewrite Ht, Hv. cbn [ret]. now rewrite Ht', Hr.
Qed.

End InvoiceRun.

(** X18. The verdict on an invoice is taken after all three checks
    have run, and it reads their replies left to right, stopping at the
    first failure. Once a purchase order is found, the line match, the
    price validation and the receipt check are all awaited, whatever
    the earlier ones replied. A failed line match then yields an
    exception and a failed price validation does too, without the later
    replies being read: their verdict keys may be absent. A verdict key
    that is absent where it is read makes the run raise [KeyError]
    after the three checks, and neither an approval nor an exception is
    recorded. *)
Theorem X18_invoice_verdict_reads_left_to_right (env : Env)
    (invoice_id : string) (s0 : wf_state) (found po_number : value) :
  let invoice := parse_invoice env invoice_id in
  let po_match := find_matching_po env invoice in
  let line_matches := match_invoice_lines env invoice po_number in
  let price_validation := validate_contract_prices env invoice line_matches in
  let receipt_check := verify_receipts env invoice po_number in
  let checks :=
    [Activity (ParseInvoice invoice_id);
     Activity (FindMatchingPo invoice);
     Activity (MatchInvoiceLines invoice po_number);
     Activity (ValidateContractPrices invoice line_matches);
     Activity (VerifyReceipts invoice po_number)] in
  let exception :=
    invoice_exception
      (create_exception env invoice_id line_matches price_validation
         receipt_check)
      line_matches price_validation receipt_check in
  let recorded :=
    Activity (CreateException invoice_id line_matches price_validation
                receipt_check) in
  po_match !! "found" = Some found ->
  truthy found = true ->
  po_match !! "po_number" = Some po_number ->
  (forall all_matched,
      line_matches !! "all_matched" = Some all_matched ->
      truthy all_matched = false ->
      exists s',
        InvoiceValidationWorkflow_run env invoice_id s0
        = (Returned exception, s') /\
        trace s' = trace s0 ++ checks ++ [recorded]) /\
  (forall all_matched all_valid,
      line_matches !! "all_matched" = Some all_matched ->
      truthy all_matched = true ->
      price_validation !! "all_valid" = Some all_valid ->
      truthy all_valid = false ->
      exists s',
        InvoiceValidationWorkflow_run env invoice_id s0
        = (Returned exception, s') /\
        trace s' = trace s0 ++ checks ++ [recorded]) /\
  (line_matches !! "all_matched" = None ->
   exists s',
     InvoiceValidationWorkflow_run env invoice_id s0
     = (Raised (KeyError "all_matched"), s') /\
     trace s' = trace s0 ++ checks) /\
  (forall all_matched,
      line_matches !! "all_matched" = Some all_matched ->
      truthy all_matched = true ->
      price_validation !! "all_valid" = None ->
      exists s',
        InvoiceValidationWorkflow_run env invoice_id s0
        = (Raised (KeyError "all_valid"), s') /\
        trace s' = trace s0 ++ checks) /\
  (forall all_matched all_valid,
      line_matches !! "all_matched" = Some all_matched ->
      truthy all_matched = true ->
      price_validation !! "all_valid" = Some all_valid ->
      truthy all_valid = true ->
      receipt_check !! "all_received" = None ->
      exists s',
        InvoiceValidationWorkflow_run env invoice_id s0
        = (Raised (KeyError "all_received"), s') /\
        trace s' = trace s0 ++ checks).
Proof.
  cbv zeta. intros Hfound Htruthy Hpo.
  pose proof (invoice_run_to_verdict env invoice_id found Hfound Htruthy
                po_number Hpo s0) as Hrun.
  pose proof (checks_trace env invoice_id po_number s0) as Htrace.
  set (s := after_await env _ 0 _) in Hrun, Htrace.
  destruct (verdict_missing_key env invoice_id po_number s)
    as (Hk1 & Hk2 & Hk3).
  split; [| split; [| split; [| split]]].
  - intros all_matched Hm Hf. eexists. split.
    + rewrite Hrun. unfold wf_bind at 1.
      rewrite (verdict_first_falsy env invoice_id po_number all_matched s
                 Hm Hf).
      unfold wf_bind. rewrite execute_activity_eq. reflexivity.
    + now rewrite after_await_trace, Htrace, <- app_assoc.
  - intros all_matched all_valid Hm Ht Hv Hf. eexists. split.
    + rewrite Hrun. unfold wf_bind at 1.
      rewrite (verdict_second_falsy env invoice_id po_number
                 all_matched all_valid s Hm Ht Hv Hf).
      unfold wf_bind. rewrite execute_activity_eq. reflexivity.
    + now rewrite after_await_trace, Htrace, <- app_assoc.
  - intros Hm. exists s. split; [| exact Htrace].
    rewrite Hrun. unfold wf_bind at 1. now rewrite (Hk1 Hm).
  - intros all_matched Hm Ht Hv. exists s. split; [| exact Htrace].
    rewrite Hrun. unfold wf_bind at 1. now rewrite (Hk2 all_matched Hm Ht Hv).
  - intros all_matched all_valid Hm Ht Hv Ht' Hr.
    exists s. split; [| exact Htrace].
    rewrite Hrun. unfold wf_bind at 1.
    now rewrite (Hk3 all_matched all_valid Hm Ht Hv Ht' Hr).
Qed.

(** X19. A reply of the purchase-order search that cannot be read ends
    the invoice run at once: without the key ["found"], or with a
    truthy ["found"] and no ["po_number"], the run raises [KeyError]
    after the parsing and the search, before any of the three checks. *)
Theorem X19_unreadable_po_match_stops_the_run (env : Env)
    (invoice_id : string) (s0 : wf_state) :
  let invoice := parse_invoice env invoice_id in
  let po_match := find_matching_po env invoice in
  let searched :=
    [Activity (ParseInvoice invoice_id); Activity (FindMatchingPo invoice)] in
  (po_match !! "found" = None ->
   exists s',
     InvoiceValidationWorkflow_run env invoice_id s0
     = (Raised (KeyError "found"), s') /\
     trace s' = trace s0 ++ searched) /\
  (forall found,
      po_match !! "found" = Some found ->
      truthy found = true ->
      po_match !! "po_number" = None ->
      exists s',
        InvoiceValidationWorkflow_run env invoice_id s0
        = (Raised (KeyError "po_number"), s') /\
        trace s' = trace s0 ++ searched).
Proof.
  cbv zeta. split.
  - apply invoice_run_no_found_key.
  - intros found Hfound Htruthy. now apply (invoice_run_no_po_number _ _ found).
Qed.

End MoreInvoiceFacts.

(* ===================================================================== *)
(** ** The catalog synchronisation                                        *)
(* ===================================================================== *)

Module CatalogFacts.
Import Workflows CatalogSync.

(** X20. What a catalog synchronisation awaits and how it ends. The
    catalog is fetched, normalised with the fetched data and searched
    for price changes with the normalised catalog, in this order; the
    team is notified, last, exactly when the reply's
    ["significant_changes"] is truthy. The run then counts the entries
    under ["changes"]: if that value is [None], a boolean or a number
    the run raises [TypeError], after the notification has gone out;
    otherwise it returns the count with the vendor. *)
Theorem X20_catalog_sync_notifies_on_significant_changes
    (env : CatalogEnv) (vendor_id : string) :
  let catalog_data := fetch_vendor_catalog env vendor_id in
  let normalized := normalize_catalog env catalog_data in
  let changes := detect_price_changes env vendor_id normalized in
  let steps :=
    [FetchVendorCatalog vendor_id; NormalizeCatalog catalog_data;
     DetectPriceChanges vendor_id normalized] in
  let awaited := fst (CatalogSyncWorkflow_run env vendor_id) in
  let outcome := snd (CatalogSyncWorkflow_run env vendor_id) in
  (truthy (get changes "significant_changes") = true ->
   awaited = steps ++ [NotifyPriceChanges changes]) /\
  (truthy (get changes "significant_changes") = false -> awaited = steps) /\
  (forall e, outcome = Raise e ->
             e = TypeError /\
             exists v, changes !! "changes" = Some v /\
                       (v = VNone \/ (exists b, v = VBool b) \/
                        (exists q, v = VNum q))) /\
  (forall v, changes !! "changes" = Some v ->
             v = VNone \/ (exists b, v = VBool b) \/ (exists q, v = VNum q) ->
             outcome = Raise TypeError) /\
  (changes !! "changes" = None ->
   outcome = Ok (sync_result vendor_id normalized changes 0)) /\
  (forall l, changes !! "changes" = Some (VList l) ->
             exists r,
               outcome = Ok r /\
               r !! "vendor_id" = Some (VStr vendor_id) /\
               r !! "price_changes"
               = Some (VNum (inject_Z (Z.of_nat (length l))))).
Proof.
  cbv zeta. unfold CatalogSyncWorkflow_run. cbn [fst snd].
  split; [now intros -> |]. split; [now intros -> |].
  unfold get_default.
  split; [| split; [| split]].
  - intros e.
    destruct (detect_price_changes _ _ _ !! "changes") as [v |] eqn:Hv;
      cbn [default]; [| discriminate].
    destruct v; cbn [len bind]; try discriminate;
      intros [= <-]; (split; [reflexivity |]); eexists;
      (split; [reflexivity |]); eauto.
  - intros v -> [-> | [[b ->] | [q ->]]]; reflexivity.
  - now intros ->.
  - intros l ->. cbn [default len bind]. eexists.
    split; [reflexivity |]. now split.
Qed.

End CatalogFacts.

(* ===================================================================== *)
(** ** The workflow facts at work                                         *)
(* ===================================================================== *)

Module MoreWorkflowWitnesses.
Import Workflows WorkflowScenarios WorkflowObservations MoreWorkflowScenarios
  CatalogSync RunFacts.

Lemma X12_signal_flags_witness :
  let s := set_rejected (VStr "Out of stock") (set_approved (init 0)) in
  let s' := deliver reject_then_approve s in
  approved s' = true /\ rejected s' = true /\
  get_status s' !! "rejection_reason" = Some (VStr "Duplicate order").
Proof.
  cbv zeta.
  destruct (SignalFacts.X12_signal_flags_are_sticky reject_then_approve
              (set_rejected (VStr "Out of stock") (set_approved (init 0))))
    as (_ & _ & Hreason & _ & Ha & Hr).
  split; [apply Ha; reflexivity |].
  split; [apply Hr; reflexivity |].
  exact Hreason.
Defined.

Lemma X14_budget_gate_witness :
  exists final,
    RequisitionApprovalWorkflow_run budget_exhausted
      (requisition_of 1200 "standard") (init 0)
    = (Returned (insufficient_budget
                   (validate_budget budget_exhausted "CHEM-2024-001" 1200)),
       final) /\
    trace final = [Activity (ValidateBudget "CHEM-2024-001" 1200)] /\
    get_status final !! "rejected" = Some (VBool false).
Proof.
  destruct (MoreRunFacts.X14_budget_gate budget_exhausted
              (requisition_of 1200 "standard") "CHEM-2024-001" 1200 (init 0)
              eq_refl eq_refl)
    as (_ & Hfalsy & Htrace & _ & Hstatus).
  destruct (Hfalsy (VBool false) eq_refl eq_refl) as (Hrun & _).
  eexists. split; [exact Hrun |].
  split; [exact Htrace | exact (Hstatus eq_refl)].
Defined.

Lemma X15_result_statuses_witness :
  exists r s' status,
    RequisitionApprovalWorkflow_run budget_exhausted
      (requisition_of 1200 "standard") (init 0) = (Returned r, s') /\
    r !! "status" = Some status /\ status ∈ result_statuses.
Proof.
  assert (Hrun : exists r s',
             RequisitionApprovalWorkflow_run budget_exhausted
               (requisition_of 1200 "standard") (init 0) = (Returned r, s'))
    by (do 2 eexists; vm_compute; reflexivity).
  destruct Hrun as (r & s' & Hrun).
  destruct (MoreRunFacts.X15_result_statuses budget_exhausted
              (requisition_of 1200 "standard") (init 0)) as (_ & Hstatus).
  destruct (Hstatus r s' Hrun) as (status & Hs & Hin).
  exists r, s', status. split; [exact Hrun |]. split; [exact Hs | exact Hin].
Defined.

Lemma always_approved_budget_ok code amount :
  budget_ok (validate_budget always_approved code amount).
Proof. eexists. split; reflexivity. Qed.

Lemma X16_approving_store_witness :
  exists final,
    RequisitionApprovalWorkflow_run always_approved
      (requisition_of 30000 "standard") (init 0)
    = (Returned (complete "PO-000123" true), final) /\
    notified (history final)
    = [VStr "manager_001"; VStr "director_001"; VStr "vp_001"] /\
    escalations (history final) = 0%nat.
Proof.
  destruct (MoreTierFacts.X16_approving_store_completes_the_run
              always_approved (requisition_of 30000 "standard")
              "CHEM-2024-001" "REQ-2024-000123" "standard" 30000
              eq_refl eq_refl eq_refl eq_refl) with (t0 := 0%N)
    as (final & Hrun & Hnotified & _ & _ & _ & Hquiet).
  - intros k t. reflexivity.
  - apply always_approved_budget_ok.
  - vm_compute. discriminate.
  - exists final. split; [exact Hrun |]. split; [exact Hnotified |].
    apply Hquiet. intros k. vm_compute. reflexivity.
Defined.

(** The director's tier of a run whose manager approved at once. *)
Lemma X17_late_approval_witness :
  let requisition := requisition_of 30000 "rush" in
  let s :=
    snd (process_approvers director_approves_late requisition [manager]
           (at_loop_entry director_approves_late requisition
              "CHEM-2024-001" 30000 (init 0))) in
  notified (history s) = [VStr "manager_001"] /\
  exists s',
    process_approver director_approves_late requisition director s
    = (Went tt, s') /\
    escalations (history s') = 1%nat /\
    forall o s'',
      process_approvers director_approves_late requisition
        [director; vp] s = (o, s'') ->
      VStr "vp_001" ∈ notified (history s'').
Proof.
  intros requisition s.
  split; [vm_compute; reflexivity |].
  destruct (MoreTierFacts.X17_late_approval_passes_the_tier
              director_approves_late requisition
              "REQ-2024-000123" "rush" 30000 eq_refl eq_refl eq_refl
              director s)
    as (s' & polls & tail & Hrun & _ & _ & _ & Hesc & Hnext).
  - intros k t Hk [_ Ht].
    assert (Hk' : (5 <= k)%nat) by exact Hk.
    change (t < 28800)%N in Ht.
    change (undecided (if (k =? 3)%nat || (hours 10 <=? t)%N
                       then approved_status else pending)).
    destruct (Nat.eqb_spec k 3) as [-> | _]; [lia |].
    destruct (N.leb_spec (hours 10) t) as [Hge | _];
      [unfold hours in Hge; lia | split; reflexivity].
  - intros k t _ Ht.
    change (28800 + hours 4 <= t)%N in Ht.
    change (truthy (get (if (k =? 3)%nat || (hours 10 <=? t)%N
                         then approved_status else pending) "approved")
            = true).
    destruct (N.leb_spec (hours 10) t) as [_ | Hlt];
      [now rewrite orb_true_r | unfold hours in Hlt, Ht; lia].
  - exists s'. split; [exact Hrun |]. split; [exact Hesc |].
    intros o s''. apply (Hnext vp []).
Defined.

Lemma X21_status_checks_witness :
  (checks
     (history
        (snd (process_approver quiet (requisition_of 1200 "rush") manager
                (init 0))))
   <= 33)%nat.
Proof.
  destruct (MoreTierFacts.X21_status_checks_per_tier quiet
              (requisition_of 1200 "rush") "REQ-2024-000123" "rush" 1200
              eq_refl eq_refl eq_refl manager (init 0) _ _
              (surjective_pairing _))
    as (_ & _ & _ & Hrush).
  apply Hrush. discriminate.
Defined.

Lemma X18_invoice_verdict_witness :
  exists s',
    InvoiceValidationWorkflow_run lines_mismatch "INV-000042" (init 0)
    = (Returned
         (invoice_exception "EXC-000042"
            {[ "all_matched" := VBool false;
               "mismatches" := VList [VStr "line 1 quantity"] ]} ∅ ∅),
       s') /\
    length (trace s') = 6%nat.
Proof.
  destruct (MoreInvoiceFacts.X18_invoice_verdict_reads_left_to_right
              lines_mismatch "INV-000042" (init 0) (VBool true)
              (VStr "PO-123456") eq_refl eq_refl eq_refl)
    as (Hfirst & _).
  destruct (Hfirst (VBool false) eq_refl eq_refl) as (s' & Hrun & Htrace).
  exists s'. split; [exact Hrun |]. now rewrite Htrace.
Defined.

Lemma X19_unreadable_po_match_witness :
  exists s',
    InvoiceValidationWorkflow_run
      no_po_number "INV-000042" (init 0)
    = (Raised (KeyError "po_number"), s') /\
    length (trace s') = 2%nat.
Proof.
  destruct (MoreInvoiceFacts.X19_unreadable_po_match_stops_the_run
              no_po_number "INV-000042" (init 0))
    as (_ & Hpo).
  destruct (Hpo (VBool true) eq_refl eq_refl eq_refl) as (s' & Hrun & Htrace).
  exists s'. split; [exact Hrun |]. now rewrite Htrace.
Defined.

Lemma X20_catalog_sync_witness :
  fst (CatalogSyncWorkflow_run price_jump "vendor_001")
  = [FetchVendorCatalog "vendor_001";
     NormalizeCatalog (fetch_vendor_catalog price_jump "vendor_001");
     DetectPriceChanges "vendor_001"
       (normalize_catalog price_jump
          (fetch_vendor_catalog price_jump "vendor_001"));
     NotifyPriceChanges
       (detect_price_changes price_jump "vendor_001"
          (normalize_catalog price_jump
             (fetch_vendor_catalog price_jump "vendor_001")))] /\
  snd (CatalogSyncWorkflow_run changes_as_count "vendor_001")
  = Raise TypeError.
Proof.
  split.
  - destruct (CatalogFacts.X20_catalog_sync_notifies_on_significant_changes
                price_jump "vendor_001") as (Hnotify & _).
    exact (Hnotify eq_refl).
  - destruct (CatalogFacts.X20_catalog_sync_notifies_on_significant_changes
                changes_as_count "vendor_001") as (_ & _ & _ & Hraise & _).
    apply (Hraise (VNum 3)); [reflexivity |].
    right. right. now exists 3%Q.
Defined.

End MoreWorkflowWitnesses.
